(** * Renfe-bot: the watch store, the sweep and the availability check.

    A shallow embedding of [src/renfe_scrapper.py] and [src/telegram_bot.py].

    Text is modelled as [string] (sequences of 8-bit characters); the
    character classes of Python's [str] methods, of [int] and of the [re]
    module are the ASCII ones, so the definitions describe the code on ASCII
    text ([Py.es_ascii]).  Python dictionaries are finite maps ([gmap]) from
    string keys.  Code that can raise returns [Exc]; code that talks to the
    browser, to Telegram or to the clock receives what these answered as an
    argument. *)

From Stdlib Require Import ZArith List String Ascii Bool Lia Sorted Permutation.
From stdpp Require Import base tactics option list gmap strings pretty.

Local Open Scope string_scope.
Local Open Scope Z_scope.

(** ** Python text primitives *)

Module Py.

(** [str.isspace] on one ASCII character: TAB..CR, FS..US and the blank. *)
Definition is_space (c : ascii) : bool :=
  let n := N_of_ascii c in
  ((9 <=? n) && (n <=? 13) || (28 <=? n) && (n <=? 32))%N.

Definition is_digit (c : ascii) : bool :=
  let n := N_of_ascii c in ((48 <=? n) && (n <=? 57))%N.

Definition is_alpha (c : ascii) : bool :=
  let n := N_of_ascii c in
  ((65 <=? n) && (n <=? 90) || (97 <=? n) && (n <=? 122))%N.

(** The class [\w] of [re]. *)
Definition is_word (c : ascii) : bool :=
  is_digit c || is_alpha c || Ascii.eqb c "_".

Definition digit_val (c : ascii) : Z := Z.of_N (N_of_ascii c) - 48.

Fixpoint lstrip (s : string) : string :=
  match s with
  | String c r => if is_space c then lstrip r else s
  | EmptyString => EmptyString
  end.

Fixpoint rstrip (s : string) : string :=
  match s with
  | String c r =>
      match rstrip r with
      | EmptyString => if is_space c then EmptyString else String c EmptyString
      | r' => String c r'
      end
  | EmptyString => EmptyString
  end.

(** [s.strip()] *)
Definition strip (s : string) : string := rstrip (lstrip s).

Definition upper_char (c : ascii) : ascii :=
  let n := N_of_ascii c in
  if ((97 <=? n) && (n <=? 122))%N then ascii_of_N (n - 32) else c.

(** [s.upper()] *)
Fixpoint upper (s : string) : string :=
  match s with
  | String c r => String (upper_char c) (upper r)
  | EmptyString => EmptyString
  end.

(** [s.split(sep)] for a one-character separator. *)
Fixpoint split (sep : ascii) (s : string) : list string :=
  match s with
  | EmptyString => [EmptyString]
  | String c r =>
      if Ascii.eqb c sep then EmptyString :: split sep r
      else match split sep r with
           | w :: ws => String c w :: ws
           | [] => [String c EmptyString]
           end
  end.

(** The digits of an integer literal: decimal digits, with single
    underscores allowed between two digits. *)
Fixpoint digits (acc : Z) (after_digit : bool) (s : string) : option Z :=
  match s with
  | EmptyString => if after_digit then Some acc else None
  | String c r =>
      if is_digit c then digits (10 * acc + digit_val c) true r
      else if Ascii.eqb c "_" && after_digit then digits acc false r
      else None
  end.

(** The blanks that [int] skips around the literal of an ASCII text: TAB..CR
    and the blank, without the separators FS..US that [str.strip] removes. *)
Definition is_space_c (c : ascii) : bool :=
  let n := N_of_ascii c in
  ((9 <=? n) && (n <=? 13) || (n =? 32))%N.

Fixpoint lstrip_c (s : string) : string :=
  match s with
  | String c r => if is_space_c c then lstrip_c r else s
  | EmptyString => EmptyString
  end.

Fixpoint rstrip_c (s : string) : string :=
  match s with
  | String c r =>
      match rstrip_c r with
      | EmptyString => if is_space_c c then EmptyString else String c EmptyString
      | r' => String c r'
      end
  | EmptyString => EmptyString
  end.

(** The number of digits of a literal, which [int] limits to 4300
    (sys.int_info.default_max_str_digits). *)
Fixpoint n_digits (s : string) : Z :=
  match s with
  | String c r => (if is_digit c then 1 else 0) + n_digits r
  | EmptyString => 0
  end.

(** [int(s)] for an ASCII text: [None] stands for [ValueError]. *)
Definition int (s : string) : option Z :=
  let t := rstrip_c (lstrip_c s) in
  if 4300 <? n_digits t then None
  else
    match t with
    | String "+" r => digits 0 false r
    | String "-" r => Z.opp <$> digits 0 false r
    | t => digits 0 false t
    end.

(** The text is made of ASCII characters only, the texts on which the
    character classes of this module are those of Python. *)
Fixpoint es_ascii (s : string) : bool :=
  match s with
  | String c r => (N_of_ascii c <? 128)%N && es_ascii r
  | EmptyString => true
  end.

(** [re.search(r"\b\d{2}:\d{2}\b", s)]: the pattern has a fixed width, so
    it matches at a position when the five characters fit and the
    characters around them are not word characters. *)
Definition hhmm_here (s : string) : bool :=
  match s with
  | String a (String b (String c (String d (String e rest)))) =>
      is_digit a && is_digit b && Ascii.eqb c ":" && is_digit d && is_digit e
      && match rest with
         | EmptyString => true
         | String f _ => negb (is_word f)
         end
  | _ => false
  end.

Fixpoint search_hhmm_from (after_word : bool) (s : string) : option string :=
  match s with
  | EmptyString => None
  | String c r =>
      if negb after_word && hhmm_here s then Some (substring 0 5 s)
      else search_hhmm_from (is_word c) r
  end.

Definition search_hhmm (s : string) : option string := search_hhmm_from false s.

End Py.

(** ** renfe_scrapper.py *)

Module Scraper.

(** One extracted trip: a dict with the keys salida, llegada and estado. *)
Abbreviation viaje := (gmap string string).

(** [_min_diff]: any failure of the two [split]/[int] lines gives 9999. *)
Definition _min_diff (hhmm_a hhmm_b : string) : Z :=
  match Py.int <$> Py.split ":" hhmm_a, Py.int <$> Py.split ":" hhmm_b with
  | [Some ha; Some ma], [Some hb; Some mb] =>
      Z.abs ((ha * 60 + ma) - (hb * 60 + mb))
  | _, _ => 9999
  end.

(** What one row of the result table shows: the texts of its hour
    headings and whether it carries a price or the full-train marker. *)
Record fila := {
  horas : list string;
  has_precio : bool;
  has_plaza_h : bool;
}.

Definition mk_viaje (salida llegada estado : string) : viaje :=
  <["salida" := salida]> (<["llegada" := llegada]> (<["estado" := estado]> ∅)).

Definition extraer_fila (f : fila) : option viaje :=
  match horas f with
  | [] | [_] => None
  | txt_salida :: _ =>
      match Py.search_hhmm (Py.strip txt_salida),
            Py.search_hhmm (Py.strip (List.last (horas f) "")) with
      | Some m1, Some m2 =>
          let estado :=
            if has_precio f then "OK"
            else if has_plaza_h f then "LLENO"
            else "DESCONOCIDO" in
          Some (mk_viaje m1 m2 estado)
      | _, _ => None
      end
  end.

(** [_extraer_trayectos_ida]: [None] is a page on which a Playwright call
    raised; the function catches it and answers the empty list. *)
Definition _extraer_trayectos_ida (page : option (list fila)) : list viaje :=
  match page with
  | Some filas => omap extraer_fila filas
  | None => []
  end.

(** The dict returned by [esta_lleno_en_hora]. *)
Record resultado := {
  ok : bool;
  estado : string;
  salida : option string;
  llegada : option string;
  url : option string;
}.

(** What the browser session did: [nav] is the URL of the result page, or
    [None] when a step of [buscar_billetes] raised before the results
    showed (that function then answers ok = False and url = None). *)
Record sesion := {
  nav : option string;
  page : option (list fila);
}.

Definition buscar_billetes (s : sesion) : bool * option string :=
  match nav s with
  | Some u => (true, Some u)
  | None => (false, None)
  end.

(** The first loop: the closest trip within the tolerance. *)
Definition paso (hora_objetivo : string) (tolerancia_min : Z)
    (st : option viaje * Z) (v : viaje) : option viaje * Z :=
  match v !! "salida" with
  | None => st
  | Some s =>
      let diff := _min_diff s hora_objetivo in
      if (diff <=? tolerancia_min) && (diff <? st.2) then (Some v, diff) else st
  end.

Definition mejor_en_tolerancia (viajes : list viaje) (hora_objetivo : string)
    (tolerancia_min : Z) : option viaje :=
  (fold_left (paso hora_objetivo tolerancia_min) viajes (None, 10 ^ 9)).1.

(** The second loop: the first trip whose salida is the target text. *)
Definition coincidencia_exacta (viajes : list viaje) (hora_objetivo : string)
    : option viaje :=
  List.find (fun v => bool_decide (v !! "salida" = Some hora_objetivo)) viajes.

Definition elegir (viajes : list viaje) (hora_objetivo : string)
    (tolerancia_min : Z) : option viaje :=
  match mejor_en_tolerancia viajes hora_objetivo tolerancia_min with
  | Some v => Some v
  | None => coincidencia_exacta viajes hora_objetivo
  end.

Definition no_encontrado (u : option string) : resultado :=
  {| ok := false; estado := "NO_ENCONTRADO"; salida := None; llegada := None;
     url := u |}.

(** The dict filled in from the chosen trip. *)
Definition resultado_de (u : option string) (mejor : viaje) : resultado :=
  {| ok := true;
     estado := default "DESCONOCIDO" (mejor !! "estado");
     salida := mejor !! "salida";
     llegada := mejor !! "llegada";
     url := u |}.

(** The part of [esta_lleno_en_hora] that follows the extraction of the
    trips: the two loops and the dict that is returned. *)
Definition resolver (u : option string) (viajes : list viaje)
    (hora_objetivo : string) (tolerancia_min : Z) : resultado :=
  match elegir viajes hora_objetivo tolerancia_min with
  | None => no_encontrado u
  | Some mejor => resultado_de u mejor
  end.

(** [esta_lleno_en_hora]; its whole body sits in a try/except that
    returns the dict built so far, so it returns a dict in every case. *)
Definition esta_lleno_en_hora (s : sesion) (hora_objetivo : string)
    (tolerancia_min : Z) : resultado :=
  let busc := buscar_billetes s in
  if negb busc.1 then no_encontrado busc.2
  else resolver busc.2 (_extraer_trayectos_ida (page s)) hora_objetivo tolerancia_min.

(** *** Notions used to state the properties *)

(** The trip departs within the tolerance of the target time. *)
Definition en_tolerancia (hora_objetivo : string) (tolerancia_min : Z)
    (v : viaje) : Prop :=
  exists s, v !! "salida" = Some s /\ _min_diff s hora_objetivo <= tolerancia_min.

(** A text of the shape HH:MM. *)
Definition es_hhmm (s : string) : bool :=
  match s with
  | String a (String b (String c (String d (String e EmptyString)))) =>
      Py.is_digit a && Py.is_digit b && Ascii.eqb c ":" && Py.is_digit d && Py.is_digit e
  | _ => false
  end.

(** The minutes after midnight that a text HH:MM names, read off its
    digits. *)
Definition minutos (s : string) : Z :=
  match s with
  | String a (String b (String _ (String d (String e _)))) =>
      (10 * Py.digit_val a + Py.digit_val b) * 60
      + (10 * Py.digit_val d + Py.digit_val e)
  | _ => 0
  end.

(** The absolute difference in minutes between the departure of a trip
    and the target time. *)
Definition distancia (hora_objetivo : string) (v : viaje) : Z :=
  Z.abs (minutos (default "" (v !! "salida")) - minutos hora_objetivo).

(** The check failed: the search was not completed, or the extraction
    of the trips raised. *)
Definition fallo (s : sesion) : Prop := nav s = None \/ page s = None.

(** The check worked and no trip of the page matches. *)
Definition sin_coincidencia (s : sesion) (hora_objetivo : string)
    (tolerancia_min : Z) : Prop :=
  is_Some (nav s) /\ is_Some (page s)
  /\ elegir (_extraer_trayectos_ida (page s)) hora_objetivo tolerancia_min = None.

(** The caller can tell every failed check from every check without a
    matching trip by looking at the dict it gets. *)
Definition fallo_distinguible : Prop :=
  forall s1 s2 hora_objetivo tolerancia_min,
    fallo s1 -> sin_coincidencia s2 hora_objetivo tolerancia_min ->
    esta_lleno_en_hora s1 hora_objetivo tolerancia_min
    <> esta_lleno_en_hora s2 hora_objetivo tolerancia_min.

(** A page reached on which the extraction raises, and the same page
    showing one train that leaves at 10:00. *)
Definition sesion_rota : sesion :=
  {| nav := Some "https://venta.renfe.com/vol/buscarTren.do"; page := None |}.

Definition sesion_sin_tren : sesion :=
  {| nav := Some "https://venta.renfe.com/vol/buscarTren.do";
     page := Some [ {| horas := ["10:00 h"; "11:30 h"];
                       has_precio := true; has_plaza_h := false |} ] |}.

(** The scenario of the specification: the page lists a full train at
    07:59 and a train with seats at 08:10. *)
Definition escenario : sesion :=
  {| nav := Some "https://venta.renfe.com/vol/buscarTren.do";
     page := Some [ {| horas := ["07:59 h"; "1 h 31 min"; "09:30 h"];
                       has_precio := false; has_plaza_h := true |};
                    {| horas := ["08:10 h"; "1 h 30 min"; "09:40 h"];
                       has_precio := true; has_plaza_h := false |} ] |}.

(** [_month_diff]: the months from a shown month to the wanted one. *)
Definition _month_diff (src_m src_y dst_m dst_y : Z) : Z :=
  (dst_y - src_y) * 12 + (dst_m - src_m).

(** The three estados a row of the page can get. *)
Definition estados_de_fila : list string := ["OK"; "LLENO"; "DESCONOCIDO"].

End Scraper.

(** ** telegram_bot.py *)

Module Bot.

(** A JSON scalar, the [Any] of the persisted dicts and of the dataclass
    fields, which Python does not type-check.  [VNone] is both JSON null
    and the answer of [dict.get] for a missing key.  Floats, booleans,
    arrays and objects as field values are left out. *)
Inductive value :=
| VNone
| VInt (z : Z)
| VStr (s : string).

#[export] Instance value_eq_dec : EqDecision value.
Proof. solve_decision. Defined.

(** Python truthiness. *)
Definition truthy (v : value) : bool :=
  match v with
  | VNone => false
  | VInt z => negb (z =? 0)
  | VStr s => negb (String.eqb s "")
  end.

(** One persisted record: [Dict[str, Any]]. *)
Abbreviation registro := (gmap string value).

(** [d.get(k)] *)
Definition get (d : registro) (k : string) : value := default VNone (d !! k).

Inductive error := TypeError | KeyError.

Inductive Exc (A : Type) :=
| Ok (a : A)
| Raise (e : error).
Arguments Ok {A} a.
Arguments Raise {A} e.

Definition bind {A B} (m : Exc A) (k : A -> Exc B) : Exc B :=
  match m with
  | Ok a => k a
  | Raise e => Raise e
  end.

(** A list comprehension whose element expression can raise. *)
Fixpoint mapE {A B} (f : A -> Exc B) (l : list A) : Exc (list B) :=
  match l with
  | [] => Ok []
  | x :: r => bind (f x) (fun y => bind (mapE f r) (fun ys => Ok (y :: ys)))
  end.

Record MonitoredTrain := {
  id : value;
  chat_id : value;
  origen : value;
  destino : value;
  fecha : value;
  salida : value;
  tolerancia_min : value;
  added_at : value;
}.

Definition requeridos : list string :=
  ["id"; "chat_id"; "origen"; "destino"; "fecha"; "salida"].

Definition campos : list string :=
  (requeridos ++ ["tolerancia_min"; "added_at"])%list.

(** The call of [MonitoredTrain] with the dict as keywords: the generated [__init__] raises TypeError for
    a keyword that is not a field and for a missing field without
    default; [now] is what the default factory of added_at would give. *)
Definition from_kwargs (now : string) (d : registro) : Exc MonitoredTrain :=
  if forallb (fun k => bool_decide (k ∈ campos)) (map_to_list d).*1
     && forallb (fun k => bool_decide (is_Some (d !! k))) requeridos
  then Ok {| id := get d "id"; chat_id := get d "chat_id";
             origen := get d "origen"; destino := get d "destino";
             fecha := get d "fecha"; salida := get d "salida";
             tolerancia_min := default (VInt 5) (d !! "tolerancia_min");
             added_at := default (VStr now) (d !! "added_at") |}
  else Raise TypeError.

(** [dataclasses.asdict] *)
Definition asdict (it : MonitoredTrain) : registro :=
  <["id" := id it]> (<["chat_id" := chat_id it]> (<["origen" := origen it]>
  (<["destino" := destino it]> (<["fecha" := fecha it]> (<["salida" := salida it]>
  (<["tolerancia_min" := tolerancia_min it]> (<["added_at" := added_at it]> ∅))))))).

(** The state of monitored_trains.json: absent, present with a text that
    [json.loads] rejects (or that cannot be read), or present with the
    text of a list of records, as the annotation of [_load] has it. *)
Inductive data_file :=
| Missing
| Unparsable (raw : string)
| Json (data : list registro).

Definition _load (f : data_file) : list registro :=
  match f with
  | Missing => []
  | Unparsable _ => []
  | Json data => data
  end.

Definition _save (data : list registro) : data_file := Json data.

Definition list_for_chat (now : string) (f : data_file) (chat : value)
    : Exc (list MonitoredTrain) :=
  let data := _load f in
  mapE (from_kwargs now)
       (List.filter (fun d => bool_decide (get d "chat_id" = chat)) data).

Definition add (f : data_file) (item : MonitoredTrain) : data_file :=
  let data := _load f in
  let data := List.filter (fun d => bool_decide (get d "id" ≠ id item)) data in
  _save (data ++ [asdict item])%list.

Definition remove_ids (f : data_file) (ids : list value) : Z * data_file :=
  let data := _load f in
  let before := Z.of_nat (length data) in
  let data := List.filter (fun d => bool_decide (get d "id" ∉ ids)) data in
  (before - Z.of_nat (length data), _save data).

(** [remove_ids] with the outcome of its [_save]: [escribe] tells whether
    [write_text] returned.  When it raised, [remove_ids] raises ([None]) and
    the file is taken to be as it was, which is the case when the file could
    not be opened for writing; a write that stops midway is left out. *)
Definition remove_ids_io (escribe : bool) (f : data_file) (ids : list value)
    : option Z * data_file :=
  let data := _load f in
  let before := Z.of_nat (length data) in
  let data := List.filter (fun d => bool_decide (get d "id" ∉ ids)) data in
  if escribe then (Some (before - Z.of_nat (length data)), _save data)
  else (None, f).

(** [_parse_salida_from_id]: an id that is not a string makes [re.search]
    raise, which the function turns into None. *)
Definition _parse_salida_from_id (item_id : value) : option string :=
  match item_id with
  | VStr s => Py.search_hhmm s
  | _ => None
  end.

(** The body of the loop of [_list_all_items] for one record. *)
Definition cargar (now : string) (d : registro) : option MonitoredTrain :=
  let d :=
    if bool_decide (d !! "salida" = None) || negb (truthy (get d "salida"))
    then <["salida" := VStr (default "00:00" (_parse_salida_from_id (get d "id")))]> d
    else d in
  match from_kwargs now d with
  | Ok it => Some it
  | Raise _ => None
  end.

Definition _list_all_items (now : string) (f : data_file) : list MonitoredTrain :=
  omap (cargar now) (_load f).

(** *** One sweep *)

Definition es_ok (res : Scraper.resultado) : bool :=
  String.eqb (Py.upper (Scraper.estado res)) "OK".

(** A call of [send_message] of the notification loop and whether it
    returned. *)
Record aviso := {
  av_pos : nat;
  av_item : MonitoredTrain;
  av_res : Scraper.resultado;
  av_enviado : bool;
}.

Section Sweep.
(** [check i it]: what the scraping task of the watch at position [i]
    gave, [None] when it raised.  [send i it res]: whether
    [send_message] for that watch returned without raising. *)
Variable check : nat -> MonitoredTrain -> option Scraper.resultado.
Variable send : nat -> MonitoredTrain -> Scraper.resultado -> bool.

Definition _check_item (i : nat) (it : MonitoredTrain)
    : nat * MonitoredTrain * option Scraper.resultado :=
  (i, it, check i it).

(** One round of the notification loop. *)
Definition notificar (st : list value * list aviso)
    (r : nat * MonitoredTrain * option Scraper.resultado)
    : list value * list aviso :=
  let '(i, it, res) := r in
  match res with
  | None => st
  | Some res =>
      if es_ok res then
        if send i it res
        then ((st.1 ++ [id it])%list,
              (st.2 ++ [{| av_pos := i; av_item := it; av_res := res; av_enviado := true |}])%list)
        else (st.1,
              (st.2 ++ [{| av_pos := i; av_item := it; av_res := res; av_enviado := false |}])%list)
      else st
  end.

(** The gathered results and the notification loop over them: the ids
    queued for removal and the calls of [send_message] made. *)
Definition notificaciones (items : list MonitoredTrain)
    : list value * list aviso :=
  let results := imap _check_item items in
  fold_left notificar results ([], []).

Definition _check_once_and_notify (now : string) (f : data_file)
    : data_file * list aviso :=
  let items := _list_all_items now f in
  match items with
  | [] => (f, [])
  | _ =>
      let '(to_remove_ids, avisos) := notificaciones items in
      match to_remove_ids with
      | [] => (f, avisos)
      | _ => ((remove_ids f to_remove_ids).2, avisos)
      end
  end.

(** The sweep with the try/except around [STORE.remove_ids]: when the
    write of the file raises, the sweep logs it and goes on, and the file
    stays as it was.  [_check_once_and_notify] above is the sweep whose write
    returns. *)
Definition _check_once_and_notify_io (escribe : bool) (now : string) (f : data_file)
    : data_file * list aviso :=
  let items := _list_all_items now f in
  match items with
  | [] => (f, [])
  | _ =>
      let '(to_remove_ids, avisos) := notificaciones items in
      match to_remove_ids with
      | [] => (f, avisos)
      | _ => ((remove_ids_io escribe f to_remove_ids).2, avisos)
      end
  end.
End Sweep.

(** *** The conversations *)

Definition dias_del_mes (y m : Z) : Z :=
  if (m =? 2) then
    if ((y mod 4 =? 0) && negb (y mod 100 =? 0)) || (y mod 400 =? 0) then 29 else 28
  else if (m =? 4) || (m =? 6) || (m =? 9) || (m =? 11) then 30
  else 31.

(** [DATE_RE.match] followed by [datetime.strptime(s, "%d/%m/%Y")], for an
    ASCII text: the digits are the ASCII ones. *)
Definition fecha_valida (s : string) : bool :=
  match s with
  | String d1 (String d2 (String s1 (String m1 (String m2 (String s2
      (String y1 (String y2 (String y3 (String y4 EmptyString))))))))) =>
      forallb Py.is_digit [d1; d2; m1; m2; y1; y2; y3; y4]
      && Ascii.eqb s1 "/" && Ascii.eqb s2 "/"
      && (let d := 10 * Py.digit_val d1 + Py.digit_val d2 in
          let m := 10 * Py.digit_val m1 + Py.digit_val m2 in
          let y := 1000 * Py.digit_val y1 + 100 * Py.digit_val y2
                   + 10 * Py.digit_val y3 + Py.digit_val y4 in
          (1 <=? y) && (1 <=? m) && (m <=? 12) && (1 <=? d) && (d <=? dias_del_mes y m))
  | _ => false
  end.

Definition normalize_date (s : string) : option string :=
  let s := Py.strip s in
  if fecha_valida s then Some s else None.

Inductive estado_conv := ASK_ORIGIN | ASK_DEST | ASK_DATE | CHOOSE_TRAIN | DEL_CHOOSE | END.

(** [context.user_data], with the keys the handlers use. *)
Record user_data := {
  ud_origen : option string;
  ud_destino : option string;
  ud_fecha : option string;
  ud_viajes : option (list Scraper.viaje);
  ud_del_ids : option (list value);
}.

Inductive respuesta :=
| FormatoInvalido
| ErrorBuscando
| SinTrenes
| ListaDeTrenes (lineas : list (string * string * string))
| NumeroInvalido
| SinLista
| FueraDeRango
| NoEstaLleno (fecha origen destino salida llegada : string)
| Anadido (item : MonitoredTrain)
| Eliminado
| NoSePudoEliminar.

(** [fmt_train_line], as the three texts it prints; [v['salida']] and
    [v['llegada']] raise KeyError when the key is missing. *)
Definition fmt_train_line (v : Scraper.viaje) : Exc (string * string * string) :=
  let estado := default "?" (v !! "estado") in
  match v !! "salida", v !! "llegada" with
  | Some s, Some l => Ok (s, l, estado)
  | _, _ => Raise KeyError
  end.

(** [run_scraper_search]: [None] when opening the browser raised;
    otherwise the trips extracted from the page of the session. *)
Definition run_scraper_search (b : option Scraper.sesion) : Exc (list Scraper.viaje) :=
  match b with
  | None => Raise TypeError
  | Some s => Ok (Scraper._extraer_trayectos_ida (Scraper.page s))
  end.

(** A handler gives its reply and next state, or raises; the user data
    it leaves behind is returned in both cases.  The replies stand for the
    calls of [reply_text] and [edit_text], which are taken to return: a
    handler whose call to Telegram raises, or whose [Store.add] cannot write
    the file, is not described by these definitions. *)
Definition show_trains (text : string) (b : option Scraper.sesion) (ud : user_data)
    : Exc (respuesta * estado_conv) * user_data :=
  match normalize_date (Py.strip text) with
  | None => (Ok (FormatoInvalido, ASK_DATE), ud)
  | Some norm =>
      match ud_origen ud, ud_destino ud with
      | Some _, Some _ =>
          match run_scraper_search b with
          | Raise _ => (Ok (ErrorBuscando, END), ud)
          | Ok [] => (Ok (SinTrenes, END), ud)
          | Ok viajes =>
              let ud' := {| ud_origen := ud_origen ud; ud_destino := ud_destino ud;
                            ud_fecha := Some norm; ud_viajes := Some viajes;
                            ud_del_ids := ud_del_ids ud |} in
              (bind (mapE fmt_train_line viajes)
                    (fun lines => Ok (ListaDeTrenes lines, CHOOSE_TRAIN)), ud')
          end
      | _, _ => (Raise KeyError, ud)
      end
  end.

(** The four [pop] calls that end [choose_train]. *)
Definition limpiar (ud : user_data) : user_data :=
  {| ud_origen := None; ud_destino := None; ud_fecha := None; ud_viajes := None;
     ud_del_ids := ud_del_ids ud |}.

Definition nuevo (now : string) (chat : Z) (origen destino fecha salida : string)
    : MonitoredTrain :=
  {| id := VStr (pretty chat +:+ "-" +:+ fecha +:+ "-" +:+ salida +:+ "-"
                 +:+ origen +:+ "-" +:+ destino);
     chat_id := VInt chat;
     origen := VStr origen;
     destino := VStr destino;
     fecha := VStr fecha;
     salida := VStr salida;
     tolerancia_min := VInt 5;
     added_at := VStr now |}.

Definition choose_train (now : string) (chat : Z) (text : string)
    (ud : user_data) (f : data_file)
    : Exc (respuesta * estado_conv) * user_data * data_file :=
  match Py.int (Py.strip text) with
  | None => (Ok (NumeroInvalido, CHOOSE_TRAIN), ud, f)
  | Some n =>
      let idx := n - 1 in
      match default [] (ud_viajes ud) with
      | [] => (Ok (SinLista, END), ud, f)
      | viajes =>
          if negb ((0 <=? idx) && (idx <? Z.of_nat (length viajes)))
          then (Ok (FueraDeRango, CHOOSE_TRAIN), ud, f)
          else
            let elegido := default ∅ (viajes !! Z.to_nat idx) in
            let origen := default "" (ud_origen ud) in
            let destino := default "" (ud_destino ud) in
            let fecha := default "" (ud_fecha ud) in
            let estado := Py.upper (Py.strip (default "" (elegido !! "estado"))) in
            if String.eqb estado "OK" then
              match elegido !! "salida", elegido !! "llegada" with
              | Some s, Some l =>
                  (Ok (NoEstaLleno fecha origen destino s l, END), limpiar ud, f)
              | _, _ => (Raise KeyError, ud, f)
              end
            else
              match elegido !! "salida" with
              | None => (Raise KeyError, ud, f)
              | Some s =>
                  let item := nuevo now chat origen destino fecha s in
                  (Ok (Anadido item, END), limpiar ud, add f item)
              end
      end
  end.

Definition choose_delete (text : string) (ud : user_data) (f : data_file)
    : (respuesta * estado_conv) * user_data * data_file :=
  match Py.int (Py.strip text) with
  | None => ((NumeroInvalido, DEL_CHOOSE), ud, f)
  | Some n =>
      let idx := n - 1 in
      match default [] (ud_del_ids ud) with
      | [] => ((SinLista, END), ud, f)
      | ids =>
          if negb ((0 <=? idx) && (idx <? Z.of_nat (length ids)))
          then ((FueraDeRango, DEL_CHOOSE), ud, f)
          else
            let '(removed, f') := remove_ids f [default VNone (ids !! Z.to_nat idx)] in
            let ud' := {| ud_origen := ud_origen ud; ud_destino := ud_destino ud;
                          ud_fecha := ud_fecha ud; ud_viajes := ud_viajes ud;
                          ud_del_ids := None |} in
            ((if negb (removed =? 0) then Eliminado else NoSePudoEliminar, END), ud', f')
      end
  end.

(** The conversation from the state ASK_DATE on: the message with the
    date goes to [show_trains] and, when that handler moves on to
    CHOOSE_TRAIN, the message with the number goes to [choose_train]. *)
Definition registrar (now : string) (chat : Z) (text_fecha : string)
    (b : option Scraper.sesion) (text_num : string) (ud : user_data) (f : data_file)
    : Exc (respuesta * estado_conv) * user_data * data_file :=
  let '(r1, ud1) := show_trains text_fecha b ud in
  match r1 with
  | Ok (_, CHOOSE_TRAIN) => choose_train now chat text_num ud1 f
  | _ => (r1, ud1, f)
  end.

(** *** Notions used to state the properties *)

(** The estado that [choose_train] compares with OK. *)
Definition estado_de (v : Scraper.viaje) : string :=
  Py.upper (Py.strip (default "" (v !! "estado"))).



(** The date text is a calendar date, the search gave a list, the number
    picks the trip [elegido] of it, which has a salida and is not OK;
    [item] is the watch derived from these. *)
Definition admitido (now : string) (chat : Z) (text_fecha : string)
    (b : option Scraper.sesion) (text_num : string) (ud : user_data)
    (elegido : Scraper.viaje) (item : MonitoredTrain) : Prop :=
  exists fecha o d ses n s,
    normalize_date (Py.strip text_fecha) = Some fecha
    /\ ud_origen ud = Some o /\ ud_destino ud = Some d
    /\ b = Some ses
    /\ Py.int (Py.strip text_num) = Some n /\ 1 <= n
    /\ Scraper._extraer_trayectos_ida (Scraper.page ses) !! Z.to_nat (n - 1) = Some elegido
    /\ elegido !! "salida" = Some s
    /\ estado_de elegido <> "OK"
    /\ item = nuevo now chat o d fecha s.

(** A record written before salida was persisted, and the same record
    with a field the dataclass does not have. *)
Definition legado : registro :=
  <["id" := VStr "7-06/10/2025-06:34-Vigo U-A Coruna"]>
  (<["chat_id" := VInt 7]> (<["origen" := VStr "Vigo U"]>
  (<["destino" := VStr "A Coruna"]> (<["fecha" := VStr "06/10/2025"]> ∅)))).

Definition con_nota : registro :=
  <["nota" := VStr "ventanilla"]> (<["salida" := VStr "06:34"]> legado).

(** Two watches of two chats, the file that holds them, and a sweep in
    which the check of the first one raises while the second one is found
    available and notified. *)
Definition vigia_a : MonitoredTrain :=
  nuevo "2025-10-01T09:00:00+02:00" 7 "Vigo" "A Coruna" "06/10/2025" "08:00".

Definition vigia_b : MonitoredTrain :=
  nuevo "2025-10-01T09:05:00+02:00" 8 "Madrid" "Sevilla" "07/10/2025" "09:00".

Definition dos_vigias : data_file := Json [asdict vigia_a; asdict vigia_b].

Definition hay_plazas : Scraper.resultado :=
  Scraper.resultado_de (Some "https://venta.renfe.com/vol/buscarTren.do")
                       (Scraper.mk_viaje "09:00" "11:30" "OK").

Definition check_todos (i : nat) (it : MonitoredTrain) : option Scraper.resultado :=
  Some hay_plazas.

Definition check_falla_primero (i : nat) (it : MonitoredTrain)
    : option Scraper.resultado :=
  match i with
  | O => None
  | S _ => Some hay_plazas
  end.

Definition send_siempre (i : nat) (it : MonitoredTrain) (res : Scraper.resultado)
    : bool := true.

(** The user data after the origin and the destination were asked. *)
Definition ud_vigo : user_data :=
  {| ud_origen := Some "Vigo"; ud_destino := Some "A Coruna"; ud_fecha := None;
     ud_viajes := None; ud_del_ids := None |}.

(** The ids of the persisted records, in file order. *)
Definition ids_of (data : list registro) : list value :=
  (fun d => get d "id") <$> data.

(** No two records of the collection carry the same id. *)
Definition ids_unique (data : list registro) : Prop := NoDup (ids_of data).

(** The watch at position [i] of a sweep was checked, found available
    and its notification was sent. *)
Definition notificado (check : nat -> MonitoredTrain -> option Scraper.resultado)
    (send : nat -> MonitoredTrain -> Scraper.resultado -> bool)
    (i : nat) (it : MonitoredTrain) : Prop :=
  exists res, check i it = Some res /\ es_ok res = true /\ send i it res = true.

(** What one gathered result adds to the calls of [send_message]. *)
Definition aviso_de (send : nat -> MonitoredTrain -> Scraper.resultado -> bool)
    (r : nat * MonitoredTrain * option Scraper.resultado) : option aviso :=
  match r with
  | (i, it, Some res) =>
      if es_ok res
      then Some {| av_pos := i; av_item := it; av_res := res; av_enviado := send i it res |}
      else None
  | _ => None
  end.

(** What one call of [send_message] adds to the removal batch. *)
Definition borrado_de (a : aviso) : option value :=
  if av_enviado a then Some (id (av_item a)) else None.

(** The files the bot can produce, starting without one. *)
Inductive alcanzable : data_file -> Prop :=
| alc_missing : alcanzable Missing
| alc_add f item : alcanzable f -> alcanzable (add f item)
| alc_remove f ids : alcanzable f -> alcanzable (remove_ids f ids).2.

(** *** The saved list and the /delete conversation *)

(** The day and the month of [strptime] with the format dd/mm/YYYY: two
    digits, or one digit that is not 0, or for the day a blank and such a
    digit; the year has four digits. *)
Definition un_digito (c : ascii) : option Z :=
  if Py.is_digit c && negb (Ascii.eqb c "0") then Some (Py.digit_val c) else None.

Definition dos_digitos (a b : ascii) : option Z :=
  if Py.is_digit a && Py.is_digit b
  then Some (10 * Py.digit_val a + Py.digit_val b) else None.

Definition campo_dia (t : string) : option Z :=
  match t with
  | String a EmptyString => un_digito a
  | String a (String b EmptyString) =>
      if Ascii.eqb a " " then un_digito b
      else match dos_digitos a b with
           | Some n => if (1 <=? n) && (n <=? 31) then Some n else None
           | None => None
           end
  | _ => None
  end.

Definition campo_mes (t : string) : option Z :=
  match t with
  | String a EmptyString => un_digito a
  | String a (String b EmptyString) =>
      match dos_digitos a b with
      | Some n => if (1 <=? n) && (n <=? 12) then Some n else None
      | None => None
      end
  | _ => None
  end.

Definition campo_anyo (t : string) : option Z :=
  match t with
  | String a (String b (String c (String d EmptyString))) =>
      if forallb Py.is_digit [a; b; c; d]
      then Some (1000 * Py.digit_val a + 100 * Py.digit_val b
                 + 10 * Py.digit_val c + Py.digit_val d)
      else None
  | _ => None
  end.

(** [datetime.strptime(s, "%d/%m/%Y")] as (year, month, day); [None]
    stands for ValueError. *)
Definition strptime (s : string) : option (Z * Z * Z) :=
  match Py.split "/" s with
  | [td; tm; ty] =>
      match campo_dia td, campo_mes tm, campo_anyo ty with
      | Some d, Some m, Some y =>
          if (1 <=? y) && (d <=? dias_del_mes y m) then Some (y, m, d) else None
      | _, _, _ => None
      end
  | _ => None
  end.

(** [parse_sort_key]: a fecha that does not parse counts 0, a salida that
    does not parse counts -1; a field that is not a string does not parse. *)
Definition parse_sort_key (item : MonitoredTrain) : Z * Z :=
  let ymd :=
    match fecha item with
    | VStr s =>
        match strptime s with
        | Some (y, m, d) => y * 10000 + m * 100 + d
        | None => 0
        end
    | _ => 0
    end in
  let hm :=
    match salida item with
    | VStr s =>
        match Py.split ":" s with
        | [hh; mm] =>
            match Py.int hh, Py.int mm with
            | Some h, Some m => h * 100 + m
            | _, _ => -1
            end
        | _ => -1
        end
    | _ => -1
    end in
  (ymd, hm).

(** The order of Python tuples. *)
Definition clave_le (a b : Z * Z) : bool :=
  (a.1 <? b.1) || ((a.1 =? b.1) && (a.2 <=? b.2)).

(** [sorted(items, key=parse_sort_key)]: the stable sort, written as an
    insertion sort that puts an item before the first later item whose key
    is not smaller. *)
Fixpoint insertar (x : MonitoredTrain) (l : list MonitoredTrain) : list MonitoredTrain :=
  match l with
  | [] => [x]
  | y :: r =>
      if clave_le (parse_sort_key x) (parse_sort_key y) then x :: y :: r
      else y :: insertar x r
  end.

Definition sorted (items : list MonitoredTrain) : list MonitoredTrain :=
  foldr insertar [] items.

(** [str(v)] inside an f-string. *)
Definition str (v : value) : string :=
  match v with
  | VNone => "None"
  | VInt z => pretty z
  | VStr s => s
  end.

Definition linea (i : nat) (it : MonitoredTrain) : string :=
  pretty (S i) +:+ ". " +:+ str (origen it) +:+ " → " +:+ str (destino it)
  +:+ " | " +:+ str (fecha it) +:+ " " +:+ str (salida it).

(** [sep.join(lines)] *)
Fixpoint join (sep : string) (lines : list string) : string :=
  match lines with
  | [] => ""
  | [l] => l
  | l :: r => l +:+ sep +:+ join sep r
  end.

Definition format_saved_list (items : list MonitoredTrain) : string * list value :=
  match items with
  | [] => ("No tienes viajes guardados.", [])
  | _ =>
      let items_sorted := sorted items in
      (join (String "010" "") (imap linea items_sorted), id <$> items_sorted)
  end.

Inductive respuesta_borrado :=
| ListaVacia (text : string)
| ListaParaBorrar (text : string).

(** [cmd_delete]: raises when [list_for_chat] does. *)
Definition cmd_delete (now : string) (chat : Z) (ud : user_data) (f : data_file)
    : Exc (respuesta_borrado * estado_conv) * user_data :=
  match list_for_chat now f (VInt chat) with
  | Raise e => (Raise e, ud)
  | Ok items =>
      let '(text, ids) := format_saved_list items in
      match ids with
      | [] => (Ok (ListaVacia text, END), ud)
      | _ =>
          (Ok (ListaParaBorrar text, DEL_CHOOSE),
           {| ud_origen := ud_origen ud; ud_destino := ud_destino ud;
              ud_fecha := ud_fecha ud; ud_viajes := ud_viajes ud;
              ud_del_ids := Some ids |})
      end
  end.

(** A result page with one train, at 09:00, that has seats. *)
Definition sesion_nueve : Scraper.sesion :=
  {| Scraper.nav := Some "https://venta.renfe.com/vol/buscarTren.do";
     Scraper.page := Some [ {| Scraper.horas := ["09:00 h"; "11:30 h"];
                               Scraper.has_precio := true;
                               Scraper.has_plaza_h := false |} ] |}.

(** The file that holds the second watch only. *)
Definition un_vigia : data_file := Json [asdict vigia_b].

(** The text has no colon. *)
Fixpoint sin_dos_puntos (s : string) : bool :=
  match s with
  | EmptyString => true
  | String c r => negb (Ascii.eqb c ":") && sin_dos_puntos r
  end.

(** A collection in which every record is the dict of a watch, as
    [Store.add] writes them. *)
Definition escrito (data : list registro) : Prop :=
  Forall (fun d => exists it, d = asdict it) data.

End Bot.

(** * Properties *)

Import Bot.

(** ** The store *)

Section StoreFacts.

Implicit Types (data : list registro) (d : registro) (i : value).

Lemma ids_of_filter (P : registro -> bool) data :
  ids_unique data -> ids_unique (List.filter P data).
Proof.
  unfold ids_unique, ids_of. induction data as [|d data IH]; simpl; [done|].
  rewrite NoDup_cons. intros [Hd Hnd]. destruct (P d); simpl; auto.
  rewrite NoDup_cons. split; [|auto].
  intros Hin. apply Hd. apply list_elem_of_fmap in Hin as (d' & -> & Hin).
  apply list_elem_of_fmap. exists d'. split; [done|].
  apply list_elem_of_In in Hin. apply filter_In in Hin as [Hin _].
  by apply list_elem_of_In.
Qed.

Lemma get_asdict_id (it : MonitoredTrain) : get (asdict it) "id" = id it.
Proof. unfold get, asdict. by simplify_map_eq. Qed.

Lemma ids_unique_add f item :
  ids_unique (_load f) -> ids_unique (_load (add f item)).
Proof.
  intros Hu. unfold add, _save. simpl.
  set (P := fun d => bool_decide (get d "id" ≠ id item)).
  pose proof (ids_of_filter P _ Hu) as Hf.
  unfold ids_unique, ids_of in *. rewrite fmap_app. simpl.
  apply NoDup_app. split; [done|]. split; [|apply NoDup_singleton].
  intros x Hx Hx'. apply list_elem_of_singleton in Hx'. subst x.
  apply list_elem_of_fmap in Hx as (d & Heq & Hin).
  apply list_elem_of_In, filter_In in Hin as [_ HP].
  unfold P in HP. apply bool_decide_eq_true in HP.
  rewrite get_asdict_id in Heq. congruence.
Qed.

Lemma ids_unique_remove f ids :
  ids_unique (_load f) -> ids_unique (_load (remove_ids f ids).2).
Proof. intros Hu. unfold remove_ids, _save. simpl. by apply ids_of_filter. Qed.

Lemma alcanzable_ids_unique f : alcanzable f -> ids_unique (_load f).
Proof.
  induction 1 as [|f item _ IH|f ids _ IH].
  - apply NoDup_nil_2.
  - by apply ids_unique_add.
  - by apply ids_unique_remove.
Qed.

(** Two records of a collection with unique ids that share their id are
    the same record. *)
Lemma ids_unique_inj data d1 d2 :
  ids_unique data -> In d1 data -> In d2 data ->
  get d1 "id" = get d2 "id" -> d1 = d2.
Proof.
  unfold ids_unique, ids_of. induction data as [|d data IH]; simpl; [done|].
  rewrite NoDup_cons. intros [Hd Hnd] [->|H1] [->|H2] Heq; auto.
  - exfalso. apply Hd. rewrite Heq. apply list_elem_of_fmap.
    exists d2. split; [done|]. by apply list_elem_of_In.
  - exfalso. apply Hd. rewrite <- Heq. apply list_elem_of_fmap.
    exists d1. split; [done|]. by apply list_elem_of_In.
Qed.

Lemma filter_same_id_add f item :
  List.filter (fun d => bool_decide (get d "id" = id item)) (_load (add f item))
  = [asdict item].
Proof.
  unfold add, _save. simpl. rewrite List.filter_app. simpl.
  rewrite get_asdict_id, bool_decide_eq_true_2 by done.
  match goal with |- (?l ++ _)%list = _ => assert (l = []) as -> end; [|done].
  induction (_load f) as [|d data IH]; simpl; [done|].
  destruct (decide (get d "id" = id item)) as [He|Hn].
  - rewrite (bool_decide_eq_false_2 (get d "id" ≠ id item)) by tauto. done.
  - rewrite (bool_decide_eq_true_2 (get d "id" ≠ id item)) by done. simpl.
    rewrite bool_decide_eq_false_2 by done. done.
Qed.

End StoreFacts.

Section RemoveFacts.

Implicit Types (data : list registro) (ids : list value).

Lemma length_filter_split data ids :
  (length data
   = length (List.filter (fun d => bool_decide (get d "id" ∉ ids)) data)
     + length (List.filter (fun d => bool_decide (get d "id" ∈ ids)) data))%nat.
Proof.
  induction data as [|d data IH]; simpl; [done|].
  destruct (decide (get d "id" ∈ ids)) as [Hin|Hout].
  - rewrite (bool_decide_eq_false_2 (get d "id" ∉ ids)) by tauto.
    rewrite bool_decide_eq_true_2 by done. simpl. lia.
  - rewrite (bool_decide_eq_true_2 (get d "id" ∉ ids)) by done.
    rewrite bool_decide_eq_false_2 by done. simpl. lia.
Qed.

Lemma remove_ids_count f ids :
  (remove_ids f ids).1
  = Z.of_nat (length (List.filter (fun d => bool_decide (get d "id" ∈ ids)) (_load f))).
Proof.
  unfold remove_ids. simpl. pose proof (length_filter_split (_load f) ids). lia.
Qed.




Lemma filter_present_once data i :
  ids_unique data -> i ∈ ids_of data ->
  length (List.filter (fun d => bool_decide (get d "id" ∈ [i])) data) = 1%nat.
Proof.
  unfold ids_unique, ids_of. induction data as [|d data IH]; simpl.
  - intros _ Hin. by apply elem_of_nil in Hin.
  - rewrite NoDup_cons. intros [Hd Hnd] Hin.
    destruct (decide (get d "id" = i)) as [He|Hne].
    + subst i. rewrite bool_decide_eq_true_2 by apply list_elem_of_here. simpl. f_equal.
      assert (List.filter (fun d0 => bool_decide (get d0 "id" ∈ [get d "id"])) data = []) as ->; [|done].
      clear IH Hnd Hin. induction data as [|e data IH]; simpl; [done|].
      rewrite bool_decide_eq_false_2.
      * apply IH. intros H. apply Hd. simpl. by apply list_elem_of_further.
      * intros H. apply list_elem_of_singleton in H. apply Hd. simpl.
        rewrite <- H. apply list_elem_of_here.
    + rewrite bool_decide_eq_false_2.
      * apply IH; [done|]. apply elem_of_cons in Hin as [?|?]; [congruence|done].
      * intros H. apply list_elem_of_singleton in H. done.
Qed.

End RemoveFacts.

(** C2.  Registering the same (chat, date, departure, origin, destination)
    any number of times, at least once, leaves exactly one record with the
    derived id, the one of the last registration; [Store.add] keeps the ids
    of the collection pairwise distinct, and so does every file that the
    bot produces from scratch with [add] and [remove_ids]. *)
Theorem add_keeps_one_watch_per_id :
  (forall (f : data_file) (chat : Z) (origen destino fecha salida : string)
          (earlier : list string) (now : string),
      let item := nuevo now chat origen destino fecha salida in
      let f' := fold_left (fun g t => add g (nuevo t chat origen destino fecha salida))
                          (earlier ++ [now])%list f in
      List.filter (fun d => bool_decide (get d "id" = id item)) (_load f') = [asdict item])
  /\ (forall f item, ids_unique (_load f) -> ids_unique (_load (add f item)))
  /\ (forall f, alcanzable f -> ids_unique (_load f)).
Proof.
  split; [|split].
  - intros f chat origen destino fecha salida earlier now item f'.
    subst f'. rewrite fold_left_app. cbn [fold_left].
    apply (filter_same_id_add _ item).
  - apply ids_unique_add.
  - apply alcanzable_ids_unique.
Qed.


(** C8.  When the file is missing or holds a text that cannot be parsed,
    [_load] gives the empty collection, and the listing, the sweep loader and
    the sweep behave as with no watch: they return and change nothing. *)
Theorem load_degrades_to_empty :
  forall (f : data_file),
    (f = Missing \/ exists raw, f = Unparsable raw) ->
    _load f = []
    /\ (forall now chat, list_for_chat now f chat = Ok [])
    /\ (forall now, _list_all_items now f = [])
    /\ (forall check send now, _check_once_and_notify check send now f = (f, [])).
Proof.
  intros f [->|[raw ->]]; repeat split; reflexivity.
Qed.

(** ** The sweep *)

Section SweepFacts.

Context (check : nat -> MonitoredTrain -> option Scraper.resultado)
        (send : nat -> MonitoredTrain -> Scraper.resultado -> bool).

Lemma fold_notificar results st :
  fold_left (notificar send) results st
  = ((st.1 ++ omap borrado_de (omap (aviso_de send) results))%list,
     (st.2 ++ omap (aviso_de send) results)%list).
Proof.
  revert st. induction results as [|[[i it] res] results IH]; intros [ids avs].
  - simpl. by rewrite !app_nil_r.
  - cbn [fold_left]. rewrite IH. cbn [omap list_omap].
    destruct res as [res|]; [|done].
    cbn [notificar aviso_de]. destruct (es_ok res); [|done].
    destruct (send i it res) eqn:Hs;
      cbn [fst snd omap list_omap borrado_de av_enviado av_item];
      rewrite <- ?app_assoc; done.
Qed.

Lemma notificaciones_eq items :
  notificaciones check send items
  = (omap borrado_de (omap (aviso_de send) (imap (_check_item check) items)),
     omap (aviso_de send) (imap (_check_item check) items)).
Proof. unfold notificaciones. by rewrite fold_notificar. Qed.

(** An id is queued for removal exactly when it is the id of a watch of
    the sweep whose notification was sent. *)
Lemma en_cola items x :
  x ∈ (notificaciones check send items).1
  <-> exists i it, items !! i = Some it /\ notificado check send i it /\ x = id it.
Proof.
  rewrite notificaciones_eq. cbn [fst]. rewrite list_elem_of_omap. split.
  - intros (a & Ha & Hb). apply list_elem_of_omap in Ha as (r & Hr & Ha).
    apply elem_of_lookup_imap in Hr as (i & it & -> & Hit).
    unfold _check_item, aviso_de in Ha.
    destruct (check i it) as [res|] eqn:Hc; [|done].
    destruct (es_ok res) eqn:Hok; [|done]. injection Ha as <-.
    unfold borrado_de in Hb. cbn in Hb.
    destruct (send i it res) eqn:Hs; [|done]. injection Hb as <-.
    exists i, it. split; [done|]. split; [|done]. by exists res.
  - intros (i & it & Hit & (res & Hc & Hok & Hs) & ->).
    exists {| av_pos := i; av_item := it; av_res := res; av_enviado := true |}.
    split; [|done]. apply list_elem_of_omap. exists (i, it, Some res). split.
    + apply elem_of_lookup_imap. exists i, it. split; [|done].
      unfold _check_item. by rewrite Hc.
    + unfold aviso_de. by rewrite Hok, Hs.
Qed.

(** The collection after the sweep: the records whose id was not queued. *)
Lemma sweep_load now f d :
  In d (_load (_check_once_and_notify check send now f).1)
  <-> In d (_load f)
      /\ get d "id" ∉ (notificaciones check send (_list_all_items now f)).1.
Proof.
  unfold _check_once_and_notify.
  destruct (_list_all_items now f) as [|it0 items] eqn:Hitems.
  - cbn. split; [|tauto]. intros H. split; [done|]. apply not_elem_of_nil.
  - destruct (notificaciones check send (it0 :: items)) as [[|x ids] avs] eqn:Hn.
    + cbn. split; [|tauto]. intros H. split; [done|]. apply not_elem_of_nil.
    + cbn [fst snd remove_ids _load _save]. rewrite filter_In, bool_decide_eq_true. done.
Qed.

Lemma sweep_avisos now f :
  (_check_once_and_notify check send now f).2
  = (notificaciones check send (_list_all_items now f)).2.
Proof.
  unfold _check_once_and_notify.
  destruct (_list_all_items now f) as [|it0 items] eqn:Hitems; [done|].
  destruct (notificaciones check send (it0 :: items)) as [[|x ids] avs]; done.
Qed.

End SweepFacts.

Section LoaderFacts.

Lemma get_insert_salida (d : registro) v :
  get (<["salida" := v]> d) "id" = get d "id".
Proof. unfold get. by rewrite lookup_insert_ne. Qed.

Lemma from_kwargs_id now (d : registro) it :
  from_kwargs now d = Ok it -> id it = get d "id".
Proof.
  unfold from_kwargs. destruct (_ && _); [|done]. by intros [= <-].
Qed.

(** The loader keeps the id of the record it turns into a watch. *)
Lemma cargar_id now (d : registro) it :
  cargar now d = Some it -> id it = get d "id".
Proof.
  unfold cargar.
  destruct (bool_decide (d !! "salida" = None) || negb (truthy (get d "salida"))).
  - destruct (from_kwargs now _) as [it'|] eqn:E; [|done]. intros [= <-].
    apply from_kwargs_id in E. by rewrite get_insert_salida in E.
  - destruct (from_kwargs now d) as [it'|] eqn:E; [|done]. intros [= <-].
    by apply from_kwargs_id in E.
Qed.

Lemma items_lookup now (data : list registro) i it :
  omap (cargar now) data !! i = Some it ->
  exists d, In d data /\ cargar now d = Some it.
Proof.
  intros H. apply list_elem_of_lookup_2, list_elem_of_omap in H as (d & Hd & Hc).
  exists d. split; [by apply list_elem_of_In|done].
Qed.

Lemma items_ids_in now (data : list registro) x :
  x ∈ id <$> omap (cargar now) data -> x ∈ ids_of data.
Proof.
  intros H. apply list_elem_of_fmap in H as (it & -> & H).
  apply list_elem_of_omap in H as (d & Hd & Hc).
  apply list_elem_of_fmap. exists d. split; [by apply cargar_id in Hc|done].
Qed.

Lemma items_ids_unique now (data : list registro) :
  ids_unique data -> NoDup (id <$> omap (cargar now) data).
Proof.
  unfold ids_unique. induction data as [|d data IH]; cbn; [intros; apply NoDup_nil_2|].
  rewrite NoDup_cons. intros [Hd Hnd].
  destruct (cargar now d) as [it|] eqn:Hc; [|auto].
  cbn. rewrite NoDup_cons. split; [|auto].
  intros Hin. apply Hd. apply cargar_id in Hc. rewrite <- Hc.
  by apply (items_ids_in now).
Qed.

Lemma omap_imap_ext {A B C} (F F' : B -> option C) (g g' : nat -> A -> B)
    (l : list A) :
  (forall i x, l !! i = Some x -> F (g i x) = F' (g' i x)) ->
  omap F (imap g l) = omap F' (imap g' l).
Proof.
  revert g g'. induction l as [|x l IH]; intros g g' H; [done|].
  cbn. rewrite (H 0%nat x) by done.
  rewrite (IH (g ∘ S) (g' ∘ S)); [done|].
  intros i y Hy. apply (H (S i) y Hy).
Qed.

Lemma filter_omap {A B} (P : B -> bool) (F : A -> option B) (l : list A) :
  List.filter P (omap F l)
  = omap (fun x => match F x with
                   | Some b => if P b then Some b else None
                   | None => None
                   end) l.
Proof.
  induction l as [|x l IH]; [done|]. cbn.
  destruct (F x) as [b|]; cbn; [|done].
  destruct (P b); cbn; by rewrite IH.
Qed.

End LoaderFacts.

(** C1.  In one sweep over a collection with pairwise distinct ids: an id
    enters the removal batch exactly when [send_message] returned for a watch
    with that id that was checked and found OK; a record that the sweep
    removes is the record of a watch whose notification was sent; and the
    record of a watch whose check raised, or gave another estado than OK, or
    whose [send_message] raised, is still in the collection afterwards. *)
Theorem removal_only_after_notification :
  forall check send now (f : data_file),
    ids_unique (_load f) ->
    let items := _list_all_items now f in
    let f' := (_check_once_and_notify check send now f).1 in
    (forall x, x ∈ (notificaciones check send items).1 <->
               exists i it, items !! i = Some it /\ notificado check send i it /\ x = id it)
    /\ (forall d, In d (_load f) -> ~ In d (_load f') ->
          exists i it, items !! i = Some it /\ cargar now d = Some it
                       /\ notificado check send i it)
    /\ (forall d i it,
          In d (_load f) -> cargar now d = Some it -> items !! i = Some it ->
          (check i it = None
           \/ exists res, check i it = Some res
                          /\ (es_ok res = false \/ send i it res = false)) ->
          In d (_load f')).
Proof.
  intros check send now f Hu items f'.
  assert (Hrem : forall d, In d (_load f) -> ~ In d (_load f') ->
            exists i it, items !! i = Some it /\ cargar now d = Some it
                         /\ notificado check send i it).
  { intros d Hd Hgone. subst f'. rewrite sweep_load in Hgone.
    destruct (decide (get d "id" ∈ (notificaciones check send (_list_all_items now f)).1))
      as [Hq|Hq]; [|tauto].
    apply en_cola in Hq as (i & it & Hit & Hnot & Hid).
    exists i, it. split; [done|]. split; [|done].
    destruct (items_lookup now _ _ _ Hit) as (d' & Hd' & Hc).
    assert (d = d') as ->; [|done].
    apply (ids_unique_inj (_load f)); try done.
    rewrite Hid. by apply cargar_id in Hc. }
  split; [apply en_cola|]. split; [exact Hrem|].
  intros d i it Hd Hc Hit Hfail.
  destruct (decide (get d "id" ∈ (notificaciones check send (_list_all_items now f)).1))
    as [Hq|Hq].
  - exfalso. apply en_cola in Hq as (j & it' & Hit' & (res & Hck & Hok & Hs) & Hid).
    assert (j = i) as ->.
    { pose proof (items_ids_unique now _ Hu) as Hnd.
      eapply NoDup_lookup; [exact Hnd| |].
      - rewrite list_lookup_fmap. unfold _list_all_items in Hit'. rewrite Hit'. done.
      - rewrite list_lookup_fmap. unfold items, _list_all_items in Hit. rewrite Hit.
        cbn. f_equal. apply cargar_id in Hc. congruence. }
    assert (it' = it) as -> by (subst items; congruence).
    destruct Hfail as [Hn|(res' & Hck' & [Hb|Hb])]; congruence.
  - subst f'. apply sweep_load. done.
Qed.

(** C4.  Two runs of the sweep over the same file that differ only in what
    the check or the notification of the watch at position [k] did (one of
    them may have raised there): the calls of [send_message] for the other
    positions and their outcomes are the same, and every record with another
    id than that watch is removed in one run exactly when it is removed in the
    other.  The sweep is a total function of what the checks and the
    notifications do, so no such failure ends it. *)
Theorem sweep_isolation :
  forall check check' send send' now (f : data_file) (k : nat),
    (forall j it, j <> k -> check' j it = check j it) ->
    (forall j it res, j <> k -> send' j it res = send j it res) ->
    let s := _check_once_and_notify check send now f in
    let s' := _check_once_and_notify check' send' now f in
    List.filter (fun a => bool_decide (av_pos a <> k)) s'.2
    = List.filter (fun a => bool_decide (av_pos a <> k)) s.2
    /\ (forall d,
          (forall it, _list_all_items now f !! k = Some it -> get d "id" <> id it) ->
          (In d (_load s'.1) <-> In d (_load s.1))).
Proof.
  intros check check' send send' now f k Hcheck Hsend s s'. split.
  - subst s s'. rewrite !sweep_avisos, !notificaciones_eq. cbn [snd].
    rewrite !filter_omap. apply omap_imap_ext. intros i it _.
    unfold _check_item, aviso_de.
    destruct (decide (i = k)) as [->|Hne].
    + destruct (check' k it) as [r'|], (check k it) as [r|];
        repeat match goal with |- context [es_ok ?r] => destruct (es_ok r) end;
        cbn [av_pos]; rewrite ?bool_decide_eq_false_2 by tauto; done.
    + rewrite Hcheck by done. destruct (check i it) as [r|]; [|done].
      rewrite Hsend by done. done.
  - intros d Hother. subst s s'. rewrite !sweep_load.
    assert (Hiff : get d "id" ∈ (notificaciones check' send' (_list_all_items now f)).1
                   <-> get d "id" ∈ (notificaciones check send (_list_all_items now f)).1).
    { rewrite !en_cola. split.
      - intros (i & it & Hit & (res & Hc & Hok & Hs) & Hid).
        assert (i <> k) as Hne by (intros ->; by apply (Hother it)).
        exists i, it. split; [done|]. split; [|done]. exists res.
        rewrite <- Hcheck, <- Hsend by done. done.
      - intros (i & it & Hit & (res & Hc & Hok & Hs) & Hid).
        assert (i <> k) as Hne by (intros ->; by apply (Hother it)).
        exists i, it. split; [done|]. split; [|done]. exists res.
        rewrite Hcheck, Hsend by done. done. }
    tauto.
Qed.

(** ** The availability check *)

Section SelectionFacts.

Context (hora : string) (tol : Z).

Local Abbreviation diff s := (Scraper._min_diff s hora).

Lemma paso_eq (m : option Scraper.viaje) (md : Z) (x : Scraper.viaje) :
  Scraper.paso hora tol (m, md) x
  = match x !! "salida" with
    | None => (m, md)
    | Some s => if (diff s <=? tol) && (diff s <? md) then (Some x, diff s) else (m, md)
    end.
Proof. reflexivity. Qed.

(** The first loop, from any state: either it keeps its state, and then
    no trip within the tolerance beats the difference it started with, or
    it ends on a trip within the tolerance that no other such trip beats. *)
Lemma fold_paso (l : list Scraper.viaje) (m : option Scraper.viaje) (md : Z) :
  let r := fold_left (Scraper.paso hora tol) l (m, md) in
  (r = (m, md)
   /\ forall w s, In w l -> w !! "salida" = Some s -> diff s <= tol -> md <= diff s)
  \/ (exists v sv, r = (Some v, diff sv) /\ In v l /\ v !! "salida" = Some sv
                   /\ diff sv <= tol /\ diff sv < md
                   /\ forall w s, In w l -> w !! "salida" = Some s ->
                                  diff s <= tol -> diff sv <= diff s).
Proof.
  revert m md. induction l as [|x l IH]; intros m md r.
  - left. split; [done|]. intros w s [].
  - subst r. cbn [fold_left]. rewrite paso_eq.
    destruct (x !! "salida") as [sx|] eqn:Hx.
    + destruct ((diff sx <=? tol) && (diff sx <? md)) eqn:Hc.
      * apply andb_true_iff in Hc as [H1 H2].
        apply Z.leb_le in H1. apply Z.ltb_lt in H2.
        destruct (IH (Some x) (diff sx)) as [[-> Hall]|(v & sv & -> & Hv & Hsv & Ht & Hlt & Hall)].
        -- right. exists x, sx. split_and!; try done; [by left|].
           intros w s [<-|Hw] Hs Hs'; [|by eauto].
           rewrite Hx in Hs. injection Hs as <-. lia.
        -- right. exists v, sv. split_and!; try done; [by right|lia|].
           intros w s [<-|Hw] Hs Hs'; [|by eauto].
           rewrite Hx in Hs. injection Hs as <-. lia.
      * assert (Hno : diff sx <= tol -> md <= diff sx).
        { intros H1. apply andb_false_iff in Hc as [Hc|Hc].
          - apply Z.leb_gt in Hc. lia.
          - apply Z.ltb_ge in Hc. lia. }
        destruct (IH m md) as [[-> Hall]|(v & sv & -> & Hv & Hsv & Ht & Hlt & Hall)].
        -- left. split; [done|].
           intros w s [<-|Hw] Hs Hs'; [|by eauto].
           rewrite Hx in Hs. injection Hs as <-. auto.
        -- right. exists v, sv. split_and!; try done; [by right|].
           intros w s [<-|Hw] Hs Hs'; [|by eauto].
           rewrite Hx in Hs. injection Hs as <-. specialize (Hno Hs'). lia.
    + destruct (IH m md) as [[-> Hall]|(v & sv & -> & Hv & Hsv & Ht & Hlt & Hall)].
      * left. split; [done|].
        intros w s [<-|Hw] Hs Hs'; [congruence|by eauto].
      * right. exists v, sv. split_and!; try done; [by right|].
        intros w s [<-|Hw] Hs Hs'; [congruence|by eauto].
Qed.

Lemma mejor_en_tolerancia_some (l : list Scraper.viaje) v :
  Scraper.mejor_en_tolerancia l hora tol = Some v ->
  exists sv, In v l /\ v !! "salida" = Some sv /\ diff sv <= tol
             /\ forall w s, In w l -> w !! "salida" = Some s ->
                            diff s <= tol -> diff sv <= diff s.
Proof.
  unfold Scraper.mejor_en_tolerancia.
  destruct (fold_paso l None (10 ^ 9)) as [[-> _]|(v' & sv & -> & Hv & Hsv & Ht & _ & Hall)].
  - done.
  - cbn. intros [= <-]. by exists sv.
Qed.

Lemma mejor_en_tolerancia_none (l : list Scraper.viaje) :
  (forall w s, In w l -> w !! "salida" = Some s -> diff s < 10 ^ 9) ->
  Scraper.mejor_en_tolerancia l hora tol = None ->
  forall w, In w l -> ~ Scraper.en_tolerancia hora tol w.
Proof.
  unfold Scraper.mejor_en_tolerancia. intros Hb.
  destruct (fold_paso l None (10 ^ 9)) as [[-> Hall]|(v' & sv & -> & _)]; [|done].
  intros _ w Hw (s & Hs & Hle).
  specialize (Hall w s Hw Hs Hle). specialize (Hb w s Hw Hs). lia.
Qed.

Lemma coincidencia_exacta_some (l : list Scraper.viaje) v :
  Scraper.coincidencia_exacta l hora = Some v ->
  exists pre post, l = (pre ++ v :: post)%list /\ v !! "salida" = Some hora
                   /\ forall w, In w pre -> w !! "salida" <> Some hora.
Proof.
  unfold Scraper.coincidencia_exacta. induction l as [|x l IH]; [done|].
  cbn. destruct (decide (x !! "salida" = Some hora)) as [Hx|Hx].
  - rewrite bool_decide_eq_true_2 by done. intros [= <-].
    exists [], l. split; [done|]. split; [done|]. intros w [].
  - rewrite bool_decide_eq_false_2 by done. intros H.
    destruct (IH H) as (pre & post & -> & Hv & Hpre).
    exists (x :: pre), post. split; [done|]. split; [done|].
    intros w [<-|Hw]; auto.
Qed.

Lemma coincidencia_exacta_none (l : list Scraper.viaje) :
  Scraper.coincidencia_exacta l hora = None ->
  forall w, In w l -> w !! "salida" <> Some hora.
Proof.
  unfold Scraper.coincidencia_exacta. intros H w Hw.
  pose proof (find_none _ _ H w Hw) as Hf. cbn in Hf.
  by apply bool_decide_eq_false in Hf.
Qed.

End SelectionFacts.

Section ClockFacts.

Lemma digit_cases (c : ascii) :
  Py.is_digit c = true ->
  In c ["0"; "1"; "2"; "3"; "4"; "5"; "6"; "7"; "8"; "9"]%char.
Proof.
  destruct c as [[] [] [] [] [] [] [] []]; cbn; intros H; try discriminate H; tauto.
Qed.

Ltac por_digito H :=
  apply digit_cases in H; cbn in H;
  repeat match type of H with
         | _ \/ _ => destruct H as [H|H]; [subst|]
         end;
  try contradiction.

Lemma digit_not_colon (c : ascii) :
  Py.is_digit c = true -> Ascii.eqb c ":" = false.
Proof. intros H. por_digito H; reflexivity. Qed.

Lemma int_two_digits (a b : ascii) :
  Py.is_digit a = true -> Py.is_digit b = true ->
  exists n, Py.int (String a (String b EmptyString)) = Some n /\ 0 <= n <= 99.
Proof.
  intros Ha Hb. por_digito Ha; por_digito Hb;
    (eexists; split; [vm_compute; reflexivity|lia]).
Qed.

Lemma split_hhmm (s : string) :
  Scraper.es_hhmm s = true ->
  exists h m, Py.int <$> Py.split ":" s = [Some h; Some m]
              /\ 0 <= h <= 99 /\ 0 <= m <= 99.
Proof.
  destruct s as [|a [|b [|c [|d [|e [|]]]]]]; try discriminate.
  cbn [Scraper.es_hhmm]. rewrite !andb_true_iff.
  intros [[[[Ha Hb] Hc] Hd] He]. apply Ascii.eqb_eq in Hc. subst c.
  destruct (int_two_digits a b Ha Hb) as (h & Hh & Hhb).
  destruct (int_two_digits d e Hd He) as (m & Hm & Hmb).
  exists h, m. split; [|done].
  cbn [Py.split]. rewrite !digit_not_colon by done. cbn [Ascii.eqb Bool.eqb].
  rewrite !digit_not_colon by done. cbn [fmap list_fmap].
  by rewrite Hh, Hm.
Qed.

Lemma int_two_digits_val (a b : ascii) :
  Py.is_digit a = true -> Py.is_digit b = true ->
  Py.int (String a (String b EmptyString))
  = Some (10 * Py.digit_val a + Py.digit_val b).
Proof.
  intros Ha Hb. por_digito Ha; por_digito Hb; vm_compute; reflexivity.
Qed.

Lemma split_hhmm_val (s : string) :
  Scraper.es_hhmm s = true ->
  exists h m, Py.int <$> Py.split ":" s = [Some h; Some m]
              /\ Scraper.minutos s = h * 60 + m.
Proof.
  destruct s as [|a [|b [|c [|d [|e [|]]]]]]; try discriminate.
  cbn [Scraper.es_hhmm]. rewrite !andb_true_iff.
  intros [[[[Ha Hb] Hc] Hd] He]. apply Ascii.eqb_eq in Hc. subst c.
  exists (10 * Py.digit_val a + Py.digit_val b),
         (10 * Py.digit_val d + Py.digit_val e).
  split; [|reflexivity].
  cbn [Py.split]. rewrite !digit_not_colon by done. cbn [Ascii.eqb Bool.eqb].
  rewrite !digit_not_colon by done. cbn [fmap list_fmap].
  by rewrite (int_two_digits_val a b), (int_two_digits_val d e).
Qed.

(** On two clock times [_min_diff] is the absolute difference of their
    minutes after midnight. *)
Lemma min_diff_minutos (a b : string) :
  Scraper.es_hhmm a = true -> Scraper.es_hhmm b = true ->
  Scraper._min_diff a b = Z.abs (Scraper.minutos a - Scraper.minutos b).
Proof.
  intros Ha Hb.
  destruct (split_hhmm_val a Ha) as (ha & ma & Ea & ->).
  destruct (split_hhmm_val b Hb) as (hb & mb & Eb & ->).
  unfold Scraper._min_diff. by rewrite Ea, Eb.
Qed.

(** Two clock times differ by at most 99 * 60 + 99 minutes. *)
Lemma min_diff_hhmm (a b : string) :
  Scraper.es_hhmm a = true -> Scraper.es_hhmm b = true ->
  0 <= Scraper._min_diff a b <= 6039.
Proof.
  intros Ha Hb.
  destruct (split_hhmm a Ha) as (ha & ma & Ea & ? & ?).
  destruct (split_hhmm b Hb) as (hb & mb & Eb & ? & ?).
  unfold Scraper._min_diff. rewrite Ea, Eb. lia.
Qed.

Lemma search_hhmm_from_shape (s : string) (w : bool) (t : string) :
  Py.search_hhmm_from w s = Some t -> Scraper.es_hhmm t = true.
Proof.
  revert w. induction s as [|c s IH]; intros w; [done|].
  cbn [Py.search_hhmm_from].
  destruct (negb w && Py.hhmm_here (String c s)) eqn:E; [|by apply IH].
  intros [= <-]. apply andb_true_iff in E as [_ E].
  destruct s as [|b [|c' [|d [|e r]]]]; try discriminate E.
  cbn in E |- *. rewrite !andb_true_iff in E.
  destruct r; cbn; rewrite !andb_true_iff; tauto.
Qed.

(** Every extracted trip carries a salida of the shape HH:MM. *)
Lemma extraer_salida_hhmm (page : option (list Scraper.fila)) (v : Scraper.viaje) :
  In v (Scraper._extraer_trayectos_ida page) ->
  exists s, v !! "salida" = Some s /\ Scraper.es_hhmm s = true
            /\ is_Some (v !! "llegada").
Proof.
  destruct page as [filas|]; [|intros []]. cbn.
  intros H. apply list_elem_of_In, list_elem_of_omap in H as (f & _ & Hf).
  unfold Scraper.extraer_fila in Hf.
  destruct (Scraper.horas f) as [|t0 [|t1 ts]]; try discriminate Hf.
  destruct (Py.search_hhmm (Py.strip t0)) as [m1|] eqn:E1; [|discriminate Hf].
  destruct (Py.search_hhmm _) as [m2|] eqn:E2 in Hf; [|discriminate Hf].
  injection Hf as <-. exists m1. unfold Scraper.mk_viaje.
  split; [by simplify_map_eq|]. split; [|by simplify_map_eq].
  by apply search_hhmm_from_shape in E1.
Qed.

End ClockFacts.

Section ResolverFacts.

(** The two loops of the check and the dict it returns, for any list of
    trips whose differences stay below the initial best difference. *)
Lemma resolver_spec (u : option string) (viajes : list Scraper.viaje)
    (hora : string) (tol : Z) :
  (forall w s, In w viajes -> w !! "salida" = Some s ->
               Scraper._min_diff s hora < 10 ^ 9) ->
  let r := Scraper.resolver u viajes hora tol in
  ((exists w, In w viajes /\ Scraper.en_tolerancia hora tol w) ->
     exists v sv, In v viajes /\ v !! "salida" = Some sv
                  /\ Scraper._min_diff sv hora <= tol
                  /\ (forall w s, In w viajes -> w !! "salida" = Some s ->
                                  Scraper._min_diff s hora <= tol ->
                                  Scraper._min_diff sv hora <= Scraper._min_diff s hora)
                  /\ r = Scraper.resultado_de u v)
  /\ ((forall w, In w viajes -> ~ Scraper.en_tolerancia hora tol w) ->
      (exists w, In w viajes /\ w !! "salida" = Some hora) ->
      exists pre v post, viajes = (pre ++ v :: post)%list
                         /\ v !! "salida" = Some hora
                         /\ (forall w, In w pre -> w !! "salida" <> Some hora)
                         /\ r = Scraper.resultado_de u v)
  /\ ((forall w, In w viajes -> ~ Scraper.en_tolerancia hora tol w) ->
      (forall w, In w viajes -> w !! "salida" <> Some hora) ->
      r = Scraper.no_encontrado u /\ Scraper.estado r = "NO_ENCONTRADO").
Proof.
  intros Hb r. subst r. unfold Scraper.resolver, Scraper.elegir.
  destruct (Scraper.mejor_en_tolerancia viajes hora tol) as [v|] eqn:Hm.
  - destruct (mejor_en_tolerancia_some _ _ _ _ Hm) as (sv & Hv & Hsv & Ht & Hall).
    split; [|split].
    + intros _. exists v, sv. done.
    + intros Hnone. exfalso. apply (Hnone v Hv). by exists sv.
    + intros Hnone. exfalso. apply (Hnone v Hv). by exists sv.
  - pose proof (mejor_en_tolerancia_none _ _ _ Hb Hm) as Hnone.
    split; [|split].
    + intros (w & Hw & Hin). exfalso. by apply (Hnone w).
    + intros _ (w & Hw & Hs).
      destruct (Scraper.coincidencia_exacta viajes hora) as [v|] eqn:Hc.
      * destruct (coincidencia_exacta_some _ _ _ Hc) as (pre & post & -> & Hv & Hpre).
        by exists pre, v, post.
      * exfalso. by apply (coincidencia_exacta_none _ _ Hc w).
    + intros _ Hno.
      destruct (Scraper.coincidencia_exacta viajes hora) as [v|] eqn:Hc; [|done].
      destruct (coincidencia_exacta_some _ _ _ Hc) as (pre & post & -> & Hv & Hpre).
      exfalso. apply (Hno v); [|done]. apply in_or_app. right. by left.
Qed.

End ResolverFacts.

(** C3.  On clock times, [_min_diff] is the absolute difference of the
    minutes after midnight (1 between 07:59 and 08:00, 10 between 08:10 and
    08:00).  For the trips read off the result page and a clock time as
    target: when some trip departs within the tolerance, the check answers
    with a trip within the tolerance whose absolute difference in minutes to
    the target is the smallest; when none does, it answers with the first
    trip whose salida is the target text; when there is none either, it
    answers NO_ENCONTRADO.  The same holds of the two loops for any list of
    trips and any target text, with the difference [_min_diff] computes,
    as long as the differences stay below the initial best difference 10**9
    of the loop.  With the trips 07:59 (full) and 08:10 (available), the
    target 08:00 and the tolerance 2 the check answers 07:59, LLENO. *)
Theorem esta_lleno_en_hora_selection :
  (forall (u : option string) (viajes : list Scraper.viaje) (hora : string) (tol : Z),
      (forall w s, In w viajes -> w !! "salida" = Some s ->
                   Scraper._min_diff s hora < 10 ^ 9) ->
      let r := Scraper.resolver u viajes hora tol in
      ((exists w, In w viajes /\ Scraper.en_tolerancia hora tol w) ->
         exists v sv, In v viajes /\ v !! "salida" = Some sv
                      /\ Scraper._min_diff sv hora <= tol
                      /\ (forall w s, In w viajes -> w !! "salida" = Some s ->
                                      Scraper._min_diff s hora <= tol ->
                                      Scraper._min_diff sv hora <= Scraper._min_diff s hora)
                      /\ r = Scraper.resultado_de u v)
      /\ ((forall w, In w viajes -> ~ Scraper.en_tolerancia hora tol w) ->
          (exists w, In w viajes /\ w !! "salida" = Some hora) ->
          exists pre v post, viajes = (pre ++ v :: post)%list
                             /\ v !! "salida" = Some hora
                             /\ (forall w, In w pre -> w !! "salida" <> Some hora)
                             /\ r = Scraper.resultado_de u v)
      /\ ((forall w, In w viajes -> ~ Scraper.en_tolerancia hora tol w) ->
          (forall w, In w viajes -> w !! "salida" <> Some hora) ->
          r = Scraper.no_encontrado u /\ Scraper.estado r = "NO_ENCONTRADO"))
  /\ (forall s u hora tol,
        Scraper.nav s = Some u ->
        Scraper.esta_lleno_en_hora s hora tol
        = Scraper.resolver (Some u) (Scraper._extraer_trayectos_ida (Scraper.page s)) hora tol)
  /\ (forall page hora w s,
        Scraper.es_hhmm hora = true ->
        In w (Scraper._extraer_trayectos_ida page) -> w !! "salida" = Some s ->
        Scraper._min_diff s hora < 10 ^ 9)
  /\ (forall a b,
        Scraper.es_hhmm a = true -> Scraper.es_hhmm b = true ->
        Scraper._min_diff a b = Z.abs (Scraper.minutos a - Scraper.minutos b))
  /\ (forall s u hora tol,
        Scraper.nav s = Some u -> Scraper.es_hhmm hora = true ->
        let viajes := Scraper._extraer_trayectos_ida (Scraper.page s) in
        let r := Scraper.esta_lleno_en_hora s hora tol in
        (forall w, In w viajes ->
           exists sw, w !! "salida" = Some sw /\ Scraper.es_hhmm sw = true
                      /\ Scraper._min_diff sw hora = Scraper.distancia hora w)
        /\ ((exists w, In w viajes /\ Scraper.distancia hora w <= tol) ->
            exists v, In v viajes /\ Scraper.distancia hora v <= tol
                      /\ (forall w, In w viajes -> Scraper.distancia hora w <= tol ->
                                    Scraper.distancia hora v <= Scraper.distancia hora w)
                      /\ r = Scraper.resultado_de (Some u) v)
        /\ ((forall w, In w viajes -> tol < Scraper.distancia hora w) ->
            (exists w, In w viajes /\ w !! "salida" = Some hora) ->
            exists pre v post, viajes = (pre ++ v :: post)%list
                               /\ v !! "salida" = Some hora
                               /\ (forall w, In w pre -> w !! "salida" <> Some hora)
                               /\ r = Scraper.resultado_de (Some u) v)
        /\ ((forall w, In w viajes -> tol < Scraper.distancia hora w) ->
            (forall w, In w viajes -> w !! "salida" <> Some hora) ->
            r = Scraper.no_encontrado (Some u)
            /\ Scraper.estado r = "NO_ENCONTRADO"))
  /\ (let r := Scraper.esta_lleno_en_hora Scraper.escenario "08:00" 2 in
      Scraper._min_diff "07:59" "08:00" = 1
      /\ Scraper._min_diff "08:10" "08:00" = 10
      /\ Scraper.estado r = "LLENO" /\ Scraper.salida r = Some "07:59"
      /\ Scraper.ok r = true).
Proof.
  assert (Hclock : forall page hora w s,
             Scraper.es_hhmm hora = true ->
             In w (Scraper._extraer_trayectos_ida page) -> w !! "salida" = Some s ->
             Scraper._min_diff s hora < 10 ^ 9).
  { intros page hora w s Hh Hw Hs.
    destruct (extraer_salida_hhmm page w Hw) as (s' & Hs' & Hshape & _).
    rewrite Hs in Hs'. injection Hs' as <-.
    pose proof (min_diff_hhmm s hora Hshape Hh). lia. }
  assert (Hrun : forall s u hora tol,
             Scraper.nav s = Some u ->
             Scraper.esta_lleno_en_hora s hora tol
             = Scraper.resolver (Some u)
                 (Scraper._extraer_trayectos_ida (Scraper.page s)) hora tol).
  { intros s u hora tol Hn.
    unfold Scraper.esta_lleno_en_hora, Scraper.buscar_billetes. by rewrite Hn. }
  split_and!.
  - intros u viajes hora tol Hb. by apply resolver_spec.
  - exact Hrun.
  - exact Hclock.
  - exact min_diff_minutos.
  - intros s u hora tol Hn Hh viajes r. subst viajes r. rewrite (Hrun s u hora tol Hn).
    set (viajes := Scraper._extraer_trayectos_ida (Scraper.page s)).
    assert (Hd : forall w, In w viajes ->
               exists sw, w !! "salida" = Some sw /\ Scraper.es_hhmm sw = true
                          /\ Scraper._min_diff sw hora = Scraper.distancia hora w).
    { intros w Hw. destruct (extraer_salida_hhmm _ w Hw) as (sw & Hsw & Hshape & _).
      exists sw. split_and!; [done..|].
      unfold Scraper.distancia. rewrite Hsw. cbn [default].
      by apply min_diff_minutos. }
    assert (Hen : forall w, In w viajes ->
               Scraper.en_tolerancia hora tol w <-> Scraper.distancia hora w <= tol).
    { intros w Hw. destruct (Hd w Hw) as (sw & Hsw & _ & E). split.
      - intros (s' & Hs' & Hle). rewrite Hsw in Hs'. injection Hs' as <-. lia.
      - intros Hle. exists sw. split; [done|lia]. }
    destruct (resolver_spec (Some u) viajes hora tol) as (H1 & H2 & H3).
    { intros w sw Hw Hsw. by apply (Hclock (Scraper.page s) hora w sw). }
    split_and!.
    + exact Hd.
    + intros (w & Hw & Hle).
      destruct H1 as (v & sv & Hv & Hsv & Hvt & Hmin & Hr).
      { exists w. split; [done|]. by apply Hen. }
      exists v. destruct (Hd v Hv) as (sv' & Hsv' & _ & Ev).
      rewrite Hsv in Hsv'. injection Hsv' as <-.
      split_and!; [done|lia| |done].
      intros w' Hw' Hle'. destruct (Hd w' Hw') as (sw' & Hsw' & _ & Ew).
      specialize (Hmin w' sw' Hw' Hsw'). lia.
    + intros Hfar Hex. apply H2; [|done].
      intros w Hw Ht. apply Hen in Ht; [|done]. specialize (Hfar w Hw). lia.
    + intros Hfar Hno. apply H3; [|done].
      intros w Hw Ht. apply Hen in Ht; [|done]. specialize (Hfar w Hw). lia.
  - vm_compute. done.
Qed.

(** C6, as the specification states it, fails: a page on which the
    extraction raises gives the very dict that a page without a matching
    train gives. *)
Lemma failure_same_as_not_found :
  ~ Scraper.fallo_distinguible.
Proof.
  intros H.
  apply (H Scraper.sesion_rota Scraper.sesion_sin_tren "08:00" 2).
  - right. reflexivity.
  - split; [by eexists|]. split; [by eexists|]. vm_compute. reflexivity.
  - vm_compute. reflexivity.
Qed.

(** C6, amended.  [esta_lleno_en_hora] reports a failed check as a value,
    and as the same one as a check without a matching trip: the dict with
    ok False, estado NO_ENCONTRADO, no times, and the URL of the result page
    when that page was reached. *)
Theorem failure_reported_as_no_encontrado :
  forall (s : Scraper.sesion) (hora : string) (tol : Z),
    Scraper.fallo s \/ Scraper.sin_coincidencia s hora tol ->
    Scraper.esta_lleno_en_hora s hora tol = Scraper.no_encontrado (Scraper.nav s)
    /\ Scraper.ok (Scraper.esta_lleno_en_hora s hora tol) = false
    /\ Scraper.estado (Scraper.esta_lleno_en_hora s hora tol) = "NO_ENCONTRADO".
Proof.
  intros s hora tol H.
  assert (Scraper.esta_lleno_en_hora s hora tol = Scraper.no_encontrado (Scraper.nav s)) as ->;
    [|done].
  unfold Scraper.esta_lleno_en_hora, Scraper.buscar_billetes.
  destruct (Scraper.nav s) as [u|] eqn:Hn; [|done]. cbn.
  unfold Scraper.fallo, Scraper.sin_coincidencia in H.
  destruct H as [[Hf|Hf]|(_ & _ & Hsel)]; [congruence| |].
  - by rewrite Hf.
  - unfold Scraper.resolver. by rewrite Hsel.
Qed.

(** ** The loaders *)

Section RepairFacts.

(** A record that has the five other required fields, no field of its
    own and no salida is loaded by the sweep, with the time found in its
    id, or 00:00. *)
Lemma cargar_repara now (d : registro) :
  d !! "salida" = None ->
  (forall k, k ∈ ["id"; "chat_id"; "origen"; "destino"; "fecha"] -> is_Some (d !! k)) ->
  (forall k, is_Some (d !! k) -> k ∈ campos) ->
  exists it, cargar now d = Some it
             /\ id it = get d "id"
             /\ salida it = VStr (default "00:00" (_parse_salida_from_id (get d "id"))).
Proof.
  intros Hs Hreq Hdom. unfold cargar.
  rewrite bool_decide_eq_true_2 by done. cbn [orb].
  set (v := VStr _). unfold from_kwargs.
  assert (forallb (fun k => bool_decide (k ∈ campos)) (map_to_list (<["salida" := v]> d)).*1
          = true) as ->.
  { apply forallb_forall. intros k Hk. apply bool_decide_eq_true.
    apply list_elem_of_In, list_elem_of_fmap in Hk as ([k' x] & -> & Hk).
    apply elem_of_map_to_list in Hk. cbn.
    destruct (decide (k' = "salida")) as [->|Hne].
    - apply (bool_decide_unpack _). vm_compute. exact I.
    - rewrite lookup_insert_ne in Hk by done. apply Hdom. by eexists. }
  assert (forallb (fun k => bool_decide (is_Some (<["salida" := v]> d !! k))) requeridos
          = true) as ->.
  { apply forallb_forall. intros k Hk. apply bool_decide_eq_true.
    destruct (decide (k = "salida")) as [->|Hne].
    - rewrite lookup_insert_eq. by eexists.
    - rewrite lookup_insert_ne by done. apply Hreq.
      apply list_elem_of_In in Hk. unfold requeridos in Hk.
      rewrite !elem_of_cons in Hk. rewrite !elem_of_cons. tauto. }
  cbn. eexists. split; [done|]. cbn. split.
  - apply get_insert_salida.
  - unfold get. by rewrite lookup_insert_eq.
Qed.

(** A record with a field that the dataclass does not have is not
    loaded by the sweep. *)
Lemma cargar_campo_extra now (d : registro) (k : string) :
  is_Some (d !! k) -> k ∉ campos -> cargar now d = None.
Proof.
  intros [x Hk] Hout.
  assert (Hbad : forall d' : registro, d' !! k = Some x -> from_kwargs now d' = Raise TypeError).
  { intros d' Hd'. unfold from_kwargs.
    destruct (forallb (fun k0 => bool_decide (k0 ∈ campos)) (map_to_list d').*1) eqn:E; [|done].
    exfalso. rewrite forallb_forall in E.
    assert (In k (map_to_list d').*1) as Hin.
    { apply list_elem_of_In, list_elem_of_fmap. exists (k, x). split; [done|].
      by apply elem_of_map_to_list. }
    apply E, bool_decide_eq_true in Hin. done. }
  unfold cargar. destruct (_ || _).
  - rewrite Hbad; [done|]. rewrite lookup_insert_ne; [done|].
    intros <-. apply Hout. apply (bool_decide_unpack _). vm_compute. exact I.
  - by rewrite Hbad.
Qed.

End RepairFacts.

(** C5.  The sweep loader turns the record without salida into a watch
    whose salida is the 06:34 of its id, while [Store.list_for_chat], which
    /list and /delete call, raises TypeError on the same file. *)
Theorem legacy_record_repaired_only_by_sweep :
  (forall now,
      salida <$> _list_all_items now (Json [legado]) = [VStr "06:34"])
  /\ (forall now, list_for_chat now (Json [legado]) (VInt 7) = Raise TypeError).
Proof.
  split; intros now; vm_compute; reflexivity.
Qed.

(** C10, as the specification states it, fails: a record with the
    documented fields and one more is dropped by the sweep loader, and makes
    the listing of its chat raise. *)
Lemma extra_field_record_not_loaded :
  Forall (fun k => is_Some (con_nota !! k)) requeridos
  /\ _list_all_items "2025-10-01T09:00:00+02:00" (Json [con_nota]) = []
  /\ list_for_chat "2025-10-01T09:00:00+02:00" (Json [con_nota]) (VInt 7) = Raise TypeError.
Proof.
  split; [|split; vm_compute; reflexivity].
  unfold requeridos. repeat constructor; vm_compute; by eexists.
Qed.

(** C10, amended.  The sweep loader does not raise on a record that carries
    a field the dataclass does not have: it skips that record and loads the
    others as it does without it. *)
Theorem sweep_loader_skips_extra_fields :
  forall now (pre post : list registro) (d : registro) (k : string),
    is_Some (d !! k) -> k ∉ campos ->
    _list_all_items now (Json (pre ++ d :: post)%list)
    = _list_all_items now (Json (pre ++ post)%list).
Proof.
  intros now pre post d k Hk Hout. unfold _list_all_items. cbn [_load].
  rewrite !omap_app. cbn [omap list_omap].
  by rewrite (cargar_campo_extra now d k Hk Hout).
Qed.

(** ** Registration *)

Section RegistrationFacts.

(** The list of extracted trips can always be shown. *)
Lemma mostrar_extraidos (page : option (list Scraper.fila)) :
  exists lines, mapE fmt_train_line (Scraper._extraer_trayectos_ida page) = Ok lines.
Proof.
  pose proof (extraer_salida_hhmm page) as H.
  induction (Scraper._extraer_trayectos_ida page) as [|v vs IH]; [by eexists|].
  destruct (H v (or_introl eq_refl)) as (s & Hs & _ & [l Hl]).
  destruct IH as [lines Hlines]; [intros w Hw; apply H; by right|].
  cbn [mapE]. unfold fmt_train_line at 1. rewrite Hs, Hl, Hlines. by eexists.
Qed.



(** What [choose_train] does once the list of the user data is the
    extracted one. *)
Lemma choose_train_spec now chat text_num ud f (viajes : list Scraper.viaje) fecha o d :
  ud_viajes ud = Some viajes -> ud_fecha ud = Some fecha ->
  ud_origen ud = Some o -> ud_destino ud = Some d ->
  let out := choose_train now chat text_num ud f in
  (exists n elegido s,
      Py.int (Py.strip text_num) = Some n /\ 1 <= n
      /\ viajes !! Z.to_nat (n - 1) = Some elegido
      /\ elegido !! "salida" = Some s /\ estado_de elegido <> "OK"
      /\ out = (Ok (Anadido (nuevo now chat o d fecha s), END), limpiar ud,
                add f (nuevo now chat o d fecha s)))
  \/ ((forall n elegido s,
          Py.int (Py.strip text_num) = Some n -> 1 <= n ->
          viajes !! Z.to_nat (n - 1) = Some elegido ->
          elegido !! "salida" = Some s -> estado_de elegido = "OK")
      /\ out.2 = f /\ forall item, out.1.1 <> Ok (Anadido item, END)).
Proof.
  intros Hv Hf Ho Hd out. subst out. unfold choose_train.
  rewrite Hv, Hf, Ho, Hd. change (default [] (Some viajes)) with viajes.
  destruct (Py.int (Py.strip text_num)) as [n|] eqn:Hn; [|right; by split_and!].
  destruct viajes as [|v0 vs] eqn:Hvs; [right; split_and!; try done;
    intros ? ? ? ? ? Hl; by rewrite lookup_nil in Hl|].
  rewrite <- Hvs in *. clear Hvs.
  destruct (negb ((0 <=? n - 1) && (n - 1 <? Z.of_nat (length viajes)))) eqn:Hr.
  { right. split_and!; try done. intros n' e s [= <-] Hpos Hl _. exfalso.
    apply lookup_lt_Some in Hl.
    apply negb_true_iff, andb_false_iff in Hr as [Hr|Hr];
      [apply Z.leb_gt in Hr | apply Z.ltb_ge in Hr]; lia. }
  apply negb_false_iff, andb_true_iff in Hr as [Hr1 Hr2].
  apply Z.leb_le in Hr1. apply Z.ltb_lt in Hr2.
  destruct (viajes !! Z.to_nat (n - 1)) as [elegido|] eqn:Hl;
    [|apply lookup_ge_None in Hl; lia].
  change (default ∅ (Some elegido)) with elegido.
  change (default "" (Some fecha)) with fecha.
  change (default "" (Some o)) with o.
  change (default "" (Some d)) with d.
  fold (estado_de elegido).
  destruct (String.eqb (estado_de elegido) "OK") eqn:He.
  - apply String.eqb_eq in He. right. split_and!.
    + intros n' e s [= <-] _ Hl' _. congruence.
    + by destruct (elegido !! "salida"), (elegido !! "llegada").
    + intros item. by destruct (elegido !! "salida"), (elegido !! "llegada").
  - apply String.eqb_neq in He.
    destruct (elegido !! "salida") as [s|] eqn:Hs.
    + left. exists n, elegido, s. split_and!; try done. lia.
    + right. split_and!; try done. intros n' e s [= <-] _ Hl' Hs'. congruence.
Qed.

Lemma registrar_spec now chat text_fecha b text_num ud f :
  let out := registrar now chat text_fecha b text_num ud f in
  (exists elegido item,
      admitido now chat text_fecha b text_num ud elegido item
      /\ out.1.1 = Ok (Anadido item, END) /\ out.2 = add f item)
  \/ ((forall elegido item, ~ admitido now chat text_fecha b text_num ud elegido item)
      /\ out.2 = f /\ forall item, out.1.1 <> Ok (Anadido item, END)).
Proof.
  intros out. subst out. unfold registrar, show_trains.
  destruct (normalize_date (Py.strip text_fecha)) as [fecha|] eqn:Hfe.
  2:{ right. split_and!; try done. intros e i (? & ? & ? & ? & ? & ? & H & _). congruence. }
  destruct (ud_origen ud) as [o|] eqn:Ho.
  2:{ right. split_and!; try done. intros e i (? & ? & ? & ? & ? & ? & _ & H & _). congruence. }
  destruct (ud_destino ud) as [d|] eqn:Hd.
  2:{ right. split_and!; try done. intros e i (? & ? & ? & ? & ? & ? & _ & _ & H & _). congruence. }
  destruct b as [ses|].
  2:{ right. split_and!; try done. intros e i (? & ? & ? & ? & ? & ? & _ & _ & _ & H & _). congruence. }
  cbn [run_scraper_search].
  destruct (mostrar_extraidos (Scraper.page ses)) as [lines Hlines].
  destruct (Scraper._extraer_trayectos_ida (Scraper.page ses)) as [|v0 vs] eqn:Hv.
  { right. split_and!; try done.
    intros e i (? & ? & ? & ses' & ? & ? & _ & _ & _ & [= <-] & _ & _ & Hl & _).
    rewrite Hv, lookup_nil in Hl. done. }
  rewrite Hlines. cbn [bind].
  set (ud1 := {| ud_origen := Some o; ud_destino := Some d; ud_fecha := Some fecha;
                 ud_viajes := Some (v0 :: vs); ud_del_ids := ud_del_ids ud |}).
  destruct (choose_train_spec now chat text_num ud1 f (v0 :: vs) fecha o d
              eq_refl eq_refl eq_refl eq_refl)
    as [(n & e & s & Hn & Hpos & Hl & Hs & He & ->)|(Hno & Hsame & Hrep)].
  - left. exists e, (nuevo now chat o d fecha s). split_and!; try done.
    exists fecha, o, d, ses, n, s. rewrite Hv. by split_and!.
  - right. split_and!; try done.
    intros e i (? & ? & ? & ses' & n & s & _ & _ & _ & [= <-] & Hn & Hpos & Hl & Hs & He & _).
    rewrite Hv in Hl. apply He. by apply (Hno n e s).
Qed.

End RegistrationFacts.


(** ** The properties at work on concrete inputs *)

Lemma dos_vigias_ids_unique : ids_unique (_load dos_vigias).
Proof. apply (bool_decide_unpack _). vm_compute. exact I. Defined.

(** In the sweep in which the check of the first watch raises, its record
    stays in the file. *)
Lemma removal_only_after_notification_witness :
  ids_unique (_load dos_vigias)
  /\ In (asdict vigia_a)
        (_load (_check_once_and_notify check_falla_primero send_siempre
                  "2025-10-02T10:00:00+02:00" dos_vigias).1).
Proof.
  split; [exact dos_vigias_ids_unique|].
  destruct (removal_only_after_notification check_falla_primero send_siempre
              "2025-10-02T10:00:00+02:00" dos_vigias dos_vigias_ids_unique)
    as (_ & _ & Hkeep).
  apply (Hkeep (asdict vigia_a) 0%nat vigia_a).
  - left. reflexivity.
  - vm_compute. reflexivity.
  - vm_compute. reflexivity.
  - left. reflexivity.
Defined.

(** Whether the check of the first watch raises or not, the second watch
    is notified in the same way. *)
Lemma sweep_isolation_witness :
  List.filter (fun a => bool_decide (av_pos a <> 0%nat))
    (_check_once_and_notify check_falla_primero send_siempre
       "2025-10-02T10:00:00+02:00" dos_vigias).2
  = List.filter (fun a => bool_decide (av_pos a <> 0%nat))
      (_check_once_and_notify check_todos send_siempre
         "2025-10-02T10:00:00+02:00" dos_vigias).2.
Proof.
  assert (Hc : forall j it, j <> 0%nat -> check_falla_primero j it = check_todos j it).
  { intros [|j] it Hj; [lia|reflexivity]. }
  assert (Hs : forall j it res, j <> 0%nat -> send_siempre j it res = send_siempre j it res).
  { reflexivity. }
  destruct (sweep_isolation check_todos check_falla_primero send_siempre send_siempre
              "2025-10-02T10:00:00+02:00" dos_vigias 0%nat Hc Hs) as [Hav _].
  exact Hav.
Defined.

(** The file made by two registrations holds pairwise distinct ids. *)
Lemma add_keeps_one_watch_per_id_witness :
  ids_unique (_load (add (add Missing vigia_a) vigia_b)).
Proof.
  apply (proj2 (proj2 add_keeps_one_watch_per_id)).
  apply alc_add, alc_add, alc_missing.
Defined.


(** A file that holds text which is not JSON. *)
Lemma load_degrades_to_empty_witness :
  _load (Unparsable "{not json") = []
  /\ (forall now chat, list_for_chat now (Unparsable "{not json") chat = Ok [])
  /\ (forall now, _list_all_items now (Unparsable "{not json") = [])
  /\ (forall check send now,
        _check_once_and_notify check send now (Unparsable "{not json")
        = (Unparsable "{not json", [])).
Proof.
  apply (load_degrades_to_empty (Unparsable "{not json")).
  right. by exists "{not json".
Defined.

(** The scenario of the specification, through the general statement. *)
Lemma esta_lleno_en_hora_selection_witness :
  exists v sv,
    In v (Scraper._extraer_trayectos_ida (Scraper.page Scraper.escenario))
    /\ v !! "salida" = Some sv
    /\ Scraper._min_diff sv "08:00" <= 2
    /\ (forall w s, In w (Scraper._extraer_trayectos_ida (Scraper.page Scraper.escenario)) ->
                    w !! "salida" = Some s -> Scraper._min_diff s "08:00" <= 2 ->
                    Scraper._min_diff sv "08:00" <= Scraper._min_diff s "08:00")
    /\ Scraper.resolver (Scraper.nav Scraper.escenario)
         (Scraper._extraer_trayectos_ida (Scraper.page Scraper.escenario)) "08:00" 2
       = Scraper.resultado_de (Scraper.nav Scraper.escenario) v.
Proof.
  destruct esta_lleno_en_hora_selection as (Hsel & _ & Hclock & _).
  apply (Hsel (Scraper.nav Scraper.escenario)
              (Scraper._extraer_trayectos_ida (Scraper.page Scraper.escenario)) "08:00" 2).
  - intros w s Hw Hs. by apply (Hclock (Scraper.page Scraper.escenario) "08:00" w s).
  - exists (Scraper.mk_viaje "07:59" "09:30" "LLENO"). split.
    + left. vm_compute. reflexivity.
    + exists "07:59". split; [vm_compute; reflexivity|]. vm_compute. discriminate.
Defined.

(** The page on which the extraction raises. *)
Lemma failure_reported_as_no_encontrado_witness :
  Scraper.estado (Scraper.esta_lleno_en_hora Scraper.sesion_rota "08:00" 2)
  = "NO_ENCONTRADO".
Proof.
  apply (failure_reported_as_no_encontrado Scraper.sesion_rota "08:00" 2).
  left. right. reflexivity.
Defined.


(** The record with the field nota between two good records. *)
Lemma sweep_loader_skips_extra_fields_witness :
  _list_all_items "2025-10-02T10:00:00+02:00"
    (Json ([asdict vigia_a] ++ con_nota :: [asdict vigia_b])%list)
  = _list_all_items "2025-10-02T10:00:00+02:00"
      (Json ([asdict vigia_a] ++ [asdict vigia_b])%list).
Proof.
  apply (sweep_loader_skips_extra_fields "2025-10-02T10:00:00+02:00"
           [asdict vigia_a] [asdict vigia_b] con_nota "nota").
  - vm_compute. by eexists.
  - intros H. apply (bool_decide_pack _) in H. vm_compute in H. exact H.
Defined.

(** * Further properties of the scraper *)

(** X1.  [_min_diff] does not depend on the order of its two times, is never
    negative, and is 9999 as soon as one of the two texts is not of the form
    int:int. *)
Theorem min_diff_symmetric :
  forall a b : string,
    Scraper._min_diff a b = Scraper._min_diff b a
    /\ 0 <= Scraper._min_diff a b
    /\ ((forall h m, Py.int <$> Py.split ":" a <> [Some h; Some m]) ->
        Scraper._min_diff a b = 9999).
Proof.
  intros a b. unfold Scraper._min_diff.
  destruct (Py.int <$> Py.split ":" a) as [|[ha|] [|[ma|] [|? ?]]];
    destruct (Py.int <$> Py.split ":" b) as [|[hb|] [|[mb|] [|? ?]]];
    (split; [try reflexivity; lia|split; [lia|]]);
    intros H; try reflexivity; exfalso; by apply (H ha ma).
Qed.

Section ExtractionFacts.

Lemma search_hhmm_shape (s t : string) :
  Py.search_hhmm s = Some t -> Scraper.es_hhmm t = true.
Proof. apply search_hhmm_from_shape. Qed.

(** What one row gives: nothing when it shows fewer than two hours or an
    hour without a time; otherwise a trip with both times and the estado
    that the price and the full-train marker decide. *)
Lemma extraer_fila_shape (f : Scraper.fila) (v : Scraper.viaje) :
  Scraper.extraer_fila f = Some v ->
  exists s l e,
    v = Scraper.mk_viaje s l e
    /\ Scraper.es_hhmm s = true /\ Scraper.es_hhmm l = true
    /\ (2 <= length (Scraper.horas f))%nat
    /\ e = (if Scraper.has_precio f then "OK"
            else if Scraper.has_plaza_h f then "LLENO" else "DESCONOCIDO").
Proof.
  unfold Scraper.extraer_fila.
  destruct (Scraper.horas f) as [|t0 [|t1 ts]] eqn:Hh; try discriminate.
  destruct (Py.search_hhmm (Py.strip t0)) as [m1|] eqn:E1; [|discriminate].
  destruct (Py.search_hhmm (Py.strip (List.last _ _))) as [m2|] eqn:E2; [|discriminate].
  intros [= <-]. eexists m1, m2, _. split_and!; try reflexivity.
  - by apply search_hhmm_shape in E1.
  - by apply search_hhmm_shape in E2.
  - cbn. lia.
Qed.

(** The times of a trip are the ones found in the first and in the last
    hour heading of its row. *)
Lemma extraer_fila_horas (f : Scraper.fila) (v : Scraper.viaje) :
  Scraper.extraer_fila f = Some v ->
  v !! "salida" = Py.search_hhmm (Py.strip (hd "" (Scraper.horas f)))
  /\ v !! "llegada" = Py.search_hhmm (Py.strip (List.last (Scraper.horas f) "")).
Proof.
  unfold Scraper.extraer_fila.
  destruct (Scraper.horas f) as [|t0 [|t1 ts]] eqn:Hh; try discriminate.
  cbn [hd].
  destruct (Py.search_hhmm (Py.strip t0)) as [m1|] eqn:E1; [|discriminate].
  destruct (Py.search_hhmm (Py.strip (List.last _ _))) as [m2|] eqn:E2; [|discriminate].
  intros [= <-]. unfold Scraper.mk_viaje. split; by simplify_map_eq.
Qed.

Lemma extraer_trayectos_in (page : option (list Scraper.fila)) (v : Scraper.viaje) :
  In v (Scraper._extraer_trayectos_ida page) ->
  exists filas f s l e,
    page = Some filas /\ In f filas
    /\ v !! "salida" = Some s /\ v !! "llegada" = Some l /\ v !! "estado" = Some e
    /\ Scraper.es_hhmm s = true /\ Scraper.es_hhmm l = true
    /\ In e Scraper.estados_de_fila
    /\ (e = "OK" <-> Scraper.has_precio f = true)
    /\ Scraper.extraer_fila f = Some v
    /\ Py.search_hhmm (Py.strip (hd "" (Scraper.horas f))) = Some s
    /\ Py.search_hhmm (Py.strip (List.last (Scraper.horas f) "")) = Some l.
Proof.
  destruct page as [filas|]; [|intros []]. cbn [Scraper._extraer_trayectos_ida].
  intros Hv. apply list_elem_of_In, list_elem_of_omap in Hv as (f & Hf & Hv).
  destruct (extraer_fila_horas f v Hv) as [Hsal Hlle].
  pose proof Hv as Hrow.
  apply extraer_fila_shape in Hv as (s & l & e & -> & Hs & Hl & _ & He).
  assert (Hvs : Scraper.mk_viaje s l e !! "salida" = Some s)
    by (unfold Scraper.mk_viaje; by simplify_map_eq).
  assert (Hvl : Scraper.mk_viaje s l e !! "llegada" = Some l)
    by (unfold Scraper.mk_viaje; by simplify_map_eq).
  assert (Hve : Scraper.mk_viaje s l e !! "estado" = Some e)
    by (unfold Scraper.mk_viaje; by simplify_map_eq).
  exists filas, f, s, l, e.
  split_and!; try done; try (by apply list_elem_of_In).
  - subst e. unfold Scraper.estados_de_fila.
    destruct (Scraper.has_precio f), (Scraper.has_plaza_h f); cbn; tauto.
  - subst e. destruct (Scraper.has_precio f), (Scraper.has_plaza_h f); split; done.
Qed.

(** Each row that gives a trip has it in the list. *)
Lemma extraer_trayectos_de_fila (filas : list Scraper.fila) (f : Scraper.fila)
    (v : Scraper.viaje) :
  In f filas -> Scraper.extraer_fila f = Some v ->
  In v (Scraper._extraer_trayectos_ida (Some filas)).
Proof.
  intros Hf Hv. cbn [Scraper._extraer_trayectos_ida].
  apply list_elem_of_In, list_elem_of_omap. exists f. split; [|done].
  by apply list_elem_of_In.
Qed.

End ExtractionFacts.

(** X2.  Every trip that [_extraer_trayectos_ida] returns is the trip read
    off a row of the page: its salida is the time found in the first hour
    heading of that row and its llegada the time found in the last one, both
    of the shape HH:MM, and its estado, among OK, LLENO and DESCONOCIDO, is OK
    exactly when that row shows a price.  Conversely every row that gives a
    trip has it in the list.  There are never more trips than rows, and a
    page on which the extraction raises gives none. *)
Theorem extraer_trayectos_shape :
  forall (page : option (list Scraper.fila)),
    (forall v, In v (Scraper._extraer_trayectos_ida page) ->
       exists filas f s l e,
         page = Some filas /\ In f filas
         /\ v !! "salida" = Some s /\ v !! "llegada" = Some l /\ v !! "estado" = Some e
         /\ Scraper.es_hhmm s = true /\ Scraper.es_hhmm l = true
         /\ In e Scraper.estados_de_fila
         /\ (e = "OK" <-> Scraper.has_precio f = true)
         /\ Scraper.extraer_fila f = Some v
         /\ Py.search_hhmm (Py.strip (hd "" (Scraper.horas f))) = Some s
         /\ Py.search_hhmm (Py.strip (List.last (Scraper.horas f) "")) = Some l)
    /\ (forall filas f v,
          page = Some filas -> In f filas -> Scraper.extraer_fila f = Some v ->
          In v (Scraper._extraer_trayectos_ida page))
    /\ (length (Scraper._extraer_trayectos_ida page) <= length (default [] page))%nat
    /\ Scraper._extraer_trayectos_ida None = [].
Proof.
  intros page. split_and!; [| |destruct page as [filas|]; cbn; [|lia]|done].
  - apply extraer_trayectos_in.
  - intros filas f v -> Hf Hv. by apply extraer_trayectos_de_fila with f.
  - induction filas as [|f filas IH]; cbn; [lia|].
    destruct (Scraper.extraer_fila f); cbn in *; lia.
Qed.

Section ChoiceFacts.

Context (hora : string) (tol : Z).

Local Abbreviation dif s := (Scraper._min_diff s hora).

Lemma elegir_some (l : list Scraper.viaje) (v : Scraper.viaje) :
  Scraper.elegir l hora tol = Some v ->
  In v l /\ exists sv, v !! "salida" = Some sv /\ (dif sv <= tol \/ sv = hora).
Proof.
  unfold Scraper.elegir.
  destruct (Scraper.mejor_en_tolerancia l hora tol) as [w|] eqn:Hm.
  - intros [= <-]. destruct (mejor_en_tolerancia_some _ _ _ _ Hm) as (sv & Hv & Hs & Ht & _).
    split; [done|]. exists sv. tauto.
  - intros Hc. destruct (coincidencia_exacta_some _ _ _ Hc) as (pre & post & -> & Hs & _).
    split; [apply in_or_app; right; by left|]. exists hora. tauto.
Qed.

(** The first loop again, now with the place of the trip it ends on: the
    trips before it that are within the tolerance are strictly farther from
    the target, the ones after it are not closer. *)
Lemma fold_paso_primero (l : list Scraper.viaje) (m : option Scraper.viaje) (md : Z) :
  let r := fold_left (Scraper.paso hora tol) l (m, md) in
  (r = (m, md)
   /\ forall w s, In w l -> w !! "salida" = Some s -> dif s <= tol -> md <= dif s)
  \/ (exists pre v post sv,
        l = (pre ++ v :: post)%list /\ r = (Some v, dif sv)
        /\ v !! "salida" = Some sv /\ dif sv <= tol /\ dif sv < md
        /\ (forall w s, In w pre -> w !! "salida" = Some s -> dif s <= tol -> dif sv < dif s)
        /\ (forall w s, In w post -> w !! "salida" = Some s -> dif s <= tol -> dif sv <= dif s)).
Proof.
  revert m md. induction l as [|x l IH]; intros m md r.
  - left. split; [done|]. intros w s [].
  - subst r. cbn [fold_left]. rewrite paso_eq.
    destruct (x !! "salida") as [sx|] eqn:Hx.
    + destruct ((dif sx <=? tol) && (dif sx <? md)) eqn:Hc.
      * apply andb_true_iff in Hc as [H1 H2].
        apply Z.leb_le in H1. apply Z.ltb_lt in H2.
        destruct (IH (Some x) (dif sx))
          as [[-> Hall]|(pre & v & post & sv & -> & -> & Hsv & Ht & Hlt & Hpre & Hpost)].
        -- right. exists [], x, l, sx. split_and!; try done; intros w s [].
        -- right. exists (x :: pre), v, post, sv. split_and!; try done; [lia|].
           intros w s [<-|Hw] Hs Hs'; [|by eauto].
           rewrite Hx in Hs. injection Hs as <-. done.
      * assert (Hno : dif sx <= tol -> md <= dif sx).
        { intros H1. apply andb_false_iff in Hc as [Hc|Hc].
          - apply Z.leb_gt in Hc. lia.
          - apply Z.ltb_ge in Hc. lia. }
        destruct (IH m md)
          as [[-> Hall]|(pre & v & post & sv & -> & -> & Hsv & Ht & Hlt & Hpre & Hpost)].
        -- left. split; [done|].
           intros w s [<-|Hw] Hs Hs'; [|by eauto].
           rewrite Hx in Hs. injection Hs as <-. auto.
        -- right. exists (x :: pre), v, post, sv. split_and!; try done.
           intros w s [<-|Hw] Hs Hs'; [|by eauto].
           rewrite Hx in Hs. injection Hs as <-. specialize (Hno Hs'). lia.
    + destruct (IH m md)
        as [[-> Hall]|(pre & v & post & sv & -> & -> & Hsv & Ht & Hlt & Hpre & Hpost)].
      * left. split; [done|]. intros w s [<-|Hw] Hs Hs'; [congruence|by eauto].
      * right. exists (x :: pre), v, post, sv. split_and!; try done.
        intros w s [<-|Hw] Hs Hs'; [congruence|by eauto].
Qed.

End ChoiceFacts.

(** X3.  When [esta_lleno_en_hora] answers ok, the search reached the result
    page, whose URL it reports, and the answer is filled in from the trip
    read off a row of that page: the salida it reports is the time found in
    the first hour heading of that row, within the tolerance of the target or
    equal to the target text, and its estado is among OK, LLENO and
    DESCONOCIDO.  When it does not answer ok, it answers the NO_ENCONTRADO
    dict.  The test that the sweep makes before it notifies holds exactly for
    an ok answer whose row shows a price. *)
Theorem check_ok_sound :
  forall (s : Scraper.sesion) (hora : string) (tol : Z),
    let r := Scraper.esta_lleno_en_hora s hora tol in
    (Scraper.ok r = true ->
       exists u filas f v sv,
         Scraper.nav s = Some u /\ Scraper.url r = Some u
         /\ Scraper.page s = Some filas /\ In f filas
         /\ Scraper.extraer_fila f = Some v
         /\ r = Scraper.resultado_de (Some u) v
         /\ Py.search_hhmm (Py.strip (hd "" (Scraper.horas f))) = Some sv
         /\ Scraper.salida r = Some sv /\ Scraper.es_hhmm sv = true
         /\ (Scraper._min_diff sv hora <= tol \/ sv = hora)
         /\ In (Scraper.estado r) Scraper.estados_de_fila
         /\ (es_ok r = true <-> Scraper.has_precio f = true))
    /\ (Scraper.ok r = false -> r = Scraper.no_encontrado (Scraper.nav s))
    /\ (es_ok r = true -> Scraper.ok r = true).
Proof.
  intros s hora tol r.
  assert (Hcases :
    r = Scraper.no_encontrado (Scraper.nav s)
    \/ exists u v, Scraper.nav s = Some u
                   /\ Scraper.elegir (Scraper._extraer_trayectos_ida (Scraper.page s)) hora tol
                      = Some v
                   /\ r = Scraper.resultado_de (Some u) v).
  { subst r. unfold Scraper.esta_lleno_en_hora, Scraper.buscar_billetes.
    destruct (Scraper.nav s) as [u|]; [|by left]. cbn.
    unfold Scraper.resolver.
    destruct (Scraper.elegir _ hora tol) as [v|] eqn:He; [|by left].
    right. by exists u, v. }
  assert (Hno : es_ok (Scraper.no_encontrado (Scraper.nav s)) = false) by reflexivity.
  split_and!.
  - intros Hok. destruct Hcases as [Hr|(u & v & Hn & He & Hr)];
      [rewrite Hr in Hok; discriminate Hok|].
    apply elegir_some in He as (Hv & sv & Hs & Hnear).
    destruct (extraer_trayectos_in (Scraper.page s) v Hv)
      as (filas & f & s' & l & e & Hp & Hf & Hs' & Hl & He & Hsh & _ & Hin & Hprice
          & Hrow & Hhead & _).
    assert (s' = sv) as -> by congruence.
    exists u, filas, f, v, sv. rewrite Hr. unfold es_ok.
    cbn [Scraper.resultado_de Scraper.url Scraper.salida Scraper.estado]. rewrite He.
    change (default "DESCONOCIDO" (Some e)) with e. split_and!; try done.
    rewrite <- Hprice.
    unfold Scraper.estados_de_fila in Hin. cbn in Hin.
    destruct Hin as [<-|[<-|[<-|[]]]]; split; intros Hup; try done;
      discriminate Hup.
  - intros Hok. destruct Hcases as [Hr|(u & v & Hn & He & Hr)]; [done|].
    rewrite Hr in Hok. discriminate Hok.
  - intros Hes. destruct Hcases as [Hr|(u & v & Hn & He & Hr)].
    + rewrite Hr in Hes. congruence.
    + by rewrite Hr.
Qed.

(** X4.  Among the trips within the tolerance the earliest of the closest
    ones wins: the trip that the first loop of [esta_lleno_en_hora] ends on
    is strictly closer to the target than every trip within the tolerance
    listed before it, and at least as close as every one listed after it. *)
Theorem closest_trip_first_wins :
  forall (viajes : list Scraper.viaje) (hora : string) (tol : Z) (v : Scraper.viaje),
    Scraper.mejor_en_tolerancia viajes hora tol = Some v ->
    exists pre post sv,
      viajes = (pre ++ v :: post)%list
      /\ v !! "salida" = Some sv
      /\ Scraper._min_diff sv hora <= tol
      /\ (forall w s, In w pre -> w !! "salida" = Some s ->
                      Scraper._min_diff s hora <= tol ->
                      Scraper._min_diff sv hora < Scraper._min_diff s hora)
      /\ (forall w s, In w post -> w !! "salida" = Some s ->
                      Scraper._min_diff s hora <= tol ->
                      Scraper._min_diff sv hora <= Scraper._min_diff s hora).
Proof.
  intros viajes hora tol v. unfold Scraper.mejor_en_tolerancia.
  destruct (fold_paso_primero hora tol viajes None (10 ^ 9))
    as [[-> _]|(pre & v' & post & sv & -> & -> & Hsv & Ht & _ & Hpre & Hpost)]; [done|].
  cbn. intros [= <-]. by exists pre, post, sv.
Qed.

(** A list with two trips equally far from 08:00: the first one wins. *)
Lemma closest_trip_first_wins_witness :
  exists pre post sv,
    [Scraper.mk_viaje "07:58" "09:30" "LLENO"; Scraper.mk_viaje "08:02" "09:40" "OK"]
    = (pre ++ Scraper.mk_viaje "07:58" "09:30" "LLENO" :: post)%list
    /\ Scraper.mk_viaje "07:58" "09:30" "LLENO" !! "salida" = Some sv
    /\ Scraper._min_diff sv "08:00" <= 2
    /\ (forall w s, In w pre -> w !! "salida" = Some s ->
                    Scraper._min_diff s "08:00" <= 2 ->
                    Scraper._min_diff sv "08:00" < Scraper._min_diff s "08:00")
    /\ (forall w s, In w post -> w !! "salida" = Some s ->
                    Scraper._min_diff s "08:00" <= 2 ->
                    Scraper._min_diff sv "08:00" <= Scraper._min_diff s "08:00").
Proof.
  apply (closest_trip_first_wins
           [Scraper.mk_viaje "07:58" "09:30" "LLENO"; Scraper.mk_viaje "08:02" "09:40" "OK"]
           "08:00" 2).
  vm_compute. reflexivity.
Defined.

(** * Further properties of the store *)

Section WrittenFacts.

(** The dict of a watch gives the watch back. *)
Lemma from_kwargs_asdict now (it : MonitoredTrain) :
  from_kwargs now (asdict it) = Ok it.
Proof. destruct it. vm_compute. reflexivity. Qed.

Lemma get_asdict_chat (it : MonitoredTrain) : get (asdict it) "chat_id" = chat_id it.
Proof. destruct it. vm_compute. reflexivity. Qed.

Lemma escrito_filter (P : registro -> bool) (data : list registro) :
  escrito data -> escrito (List.filter P data).
Proof.
  unfold escrito. rewrite !Forall_forall. intros H d Hd.
  apply list_elem_of_In, filter_In in Hd as [Hd _]. apply H. by apply list_elem_of_In.
Qed.

Lemma alcanzable_escrito (f : data_file) : alcanzable f -> escrito (_load f).
Proof.
  induction 1 as [|f item _ IH|f ids _ IH].
  - constructor.
  - unfold add, _save. cbn [_load]. apply Forall_app. split.
    + by apply escrito_filter.
    + constructor; [by exists item|constructor].
  - unfold remove_ids, _save. cbn [snd _load]. by apply escrito_filter.
Qed.

Lemma mapE_escrito now (data : list registro) :
  escrito data ->
  exists items, data = asdict <$> items /\ mapE (from_kwargs now) data = Ok items.
Proof.
  induction 1 as [|d data [it ->] _ (items & -> & IH)].
  - by exists [].
  - exists (it :: items). split; [done|].
    cbn [mapE]. rewrite from_kwargs_asdict. cbn [bind]. by rewrite IH.
Qed.

Lemma asdict_inj (a b : MonitoredTrain) : asdict a = asdict b -> a = b.
Proof.
  intros H. pose proof (from_kwargs_asdict "" a) as Ha.
  rewrite H, from_kwargs_asdict in Ha. congruence.
Qed.

Lemma list_for_chat_alcanzable now (f : data_file) (chat : value) :
  alcanzable f ->
  exists items,
    list_for_chat now f chat = Ok items
    /\ asdict <$> items
       = List.filter (fun d => bool_decide (get d "chat_id" = chat)) (_load f)
    /\ Forall (fun it => chat_id it = chat) items.
Proof.
  intros Hf. unfold list_for_chat.
  set (P := fun d => bool_decide (get d "chat_id" = chat)).
  pose proof (escrito_filter P _ (alcanzable_escrito f Hf)) as He.
  destruct (mapE_escrito now _ He) as (items & Heq & Hmap).
  exists items. split_and!; [done|done|].
  apply Forall_forall. intros it Hit.
  assert (In (asdict it) (List.filter P (_load f))) as Hin.
  { rewrite Heq. apply list_elem_of_In, list_elem_of_fmap. by exists it. }
  apply filter_In in Hin as [_ Hin]. unfold P in Hin.
  apply bool_decide_eq_true in Hin. by rewrite get_asdict_chat in Hin.
Qed.

End WrittenFacts.

(** X5.  Building a watch from the dict that [asdict] makes of it gives the
    watch back, so on a file that the bot wrote itself [Store.list_for_chat]
    does not raise: it returns, in file order, the watches of the records of
    that chat, and only those. *)
Theorem listing_of_written_file :
  (forall now it, from_kwargs now (asdict it) = Ok it)
  /\ (forall now (f : data_file) (chat : value),
        alcanzable f ->
        exists items,
          list_for_chat now f chat = Ok items
          /\ asdict <$> items
             = List.filter (fun d => bool_decide (get d "chat_id" = chat)) (_load f)
          /\ Forall (fun it => chat_id it = chat) items).
Proof.
  split; [apply from_kwargs_asdict|].
  intros now f chat Hf. by apply list_for_chat_alcanzable.
Qed.

(** The listing of chat 7 on the file with the watches of chats 7 and 8. *)
Lemma listing_of_written_file_witness :
  exists items,
    list_for_chat "2025-10-02T10:00:00+02:00" (add (add Missing vigia_a) vigia_b) (VInt 7)
    = Ok items
    /\ asdict <$> items
       = List.filter (fun d => bool_decide (get d "chat_id" = VInt 7))
           (_load (add (add Missing vigia_a) vigia_b))
    /\ Forall (fun it => chat_id it = VInt 7) items.
Proof.
  apply (proj2 listing_of_written_file).
  apply alc_add, alc_add, alc_missing.
Defined.

(** X6.  After [Store.add] on a file that the bot wrote, the listing of the
    chat of the new watch ends with that watch; the watches before it belong
    to the same chat and have another id. *)
Theorem added_watch_is_listed :
  forall now (f : data_file) (item : MonitoredTrain),
    alcanzable f ->
    exists items,
      list_for_chat now (add f item) (chat_id item) = Ok (items ++ [item])%list
      /\ Forall (fun it => chat_id it = chat_id item /\ id it <> id item) items.
Proof.
  intros now f item Hf.
  destruct (list_for_chat_alcanzable now (add f item) (chat_id item)
              (alc_add f item Hf)) as (l & Hl & Heq & Hchat).
  rewrite Hl. clear Hl.
  unfold add, _save in Heq. cbn [_load] in Heq.
  rewrite List.filter_app in Heq. cbn [List.filter] in Heq.
  rewrite get_asdict_chat, bool_decide_eq_true_2 in Heq by done.
  destruct l as [|last items _] using rev_ind.
  { cbn in Heq. symmetry in Heq. by apply app_eq_nil in Heq as [_ ?]. }
  rewrite fmap_app in Heq. cbn [fmap list_fmap] in Heq.
  apply app_inj_tail in Heq as [Heq Hlast]. apply asdict_inj in Hlast. subst last.
  exists items. split; [done|].
  apply Forall_app in Hchat as [Hchat _].
  apply Forall_forall. intros it Hit. split.
  - rewrite Forall_forall in Hchat. by apply Hchat.
  - assert (In (asdict it)
              (List.filter (fun d => bool_decide (get d "chat_id" = chat_id item))
                 (List.filter (fun d => bool_decide (get d "id" ≠ id item)) (_load f))))
      as Hin.
    { rewrite <- Heq. apply list_elem_of_In, list_elem_of_fmap. by exists it. }
    apply filter_In in Hin as [Hin _]. apply filter_In in Hin as [_ Hin].
    apply bool_decide_eq_true in Hin. by rewrite get_asdict_id in Hin.
Qed.

(** The listing of chat 8 after the watch of chat 8 is added. *)
Lemma added_watch_is_listed_witness :
  exists items,
    list_for_chat "2025-10-02T10:00:00+02:00" (add (add Missing vigia_a) vigia_b)
      (chat_id vigia_b)
    = Ok (items ++ [vigia_b])%list
    /\ Forall (fun it => chat_id it = chat_id vigia_b /\ id it <> id vigia_b) items.
Proof.
  apply (added_watch_is_listed "2025-10-02T10:00:00+02:00" (add Missing vigia_a) vigia_b).
  apply alc_add, alc_missing.
Defined.

Section FilterFacts.

Lemma filter_filter_id (data : list registro) (i : value) :
  List.filter (fun d => bool_decide (get d "id" ∉ [i]))
    (List.filter (fun d => bool_decide (get d "id" ≠ i)) data)
  = List.filter (fun d => bool_decide (get d "id" ≠ i)) data.
Proof.
  induction data as [|d data IH]; [done|]. cbn.
  destruct (decide (get d "id" = i)) as [He|Hne].
  - rewrite (bool_decide_eq_false_2 (get d "id" ≠ i)) by tauto. done.
  - rewrite (bool_decide_eq_true_2 (get d "id" ≠ i)) by done. cbn.
    rewrite bool_decide_eq_true_2; [by rewrite IH|].
    intros H. by apply list_elem_of_singleton in H.
Qed.

Lemma filter_ne_absent (data : list registro) (i : value) :
  i ∉ ids_of data ->
  List.filter (fun d => bool_decide (get d "id" ≠ i)) data = data.
Proof.
  intros Habs. induction data as [|d data IH]; [done|]. cbn.
  unfold ids_of in Habs. cbn in Habs. apply not_elem_of_cons in Habs as [Hne Habs].
  rewrite bool_decide_eq_true_2 by done. f_equal. by apply IH.
Qed.

Lemma filter_app_ids (data : list registro) (a b : list value) :
  List.filter (fun d => bool_decide (get d "id" ∉ (a ++ b)%list)) data
  = List.filter (fun d => bool_decide (get d "id" ∉ b))
      (List.filter (fun d => bool_decide (get d "id" ∉ a)) data).
Proof.
  induction data as [|d data IH]; [done|]. cbn.
  destruct (decide (get d "id" ∈ a)) as [Ha|Ha].
  - rewrite (bool_decide_eq_false_2 (get d "id" ∉ a)) by tauto.
    rewrite bool_decide_eq_false_2; [done|].
    rewrite elem_of_app. tauto.
  - rewrite (bool_decide_eq_true_2 (get d "id" ∉ a)) by done. cbn.
    destruct (decide (get d "id" ∈ b)) as [Hb|Hb].
    + rewrite (bool_decide_eq_false_2 (get d "id" ∉ b)) by tauto.
      rewrite bool_decide_eq_false_2; [done|]. rewrite elem_of_app. tauto.
    + rewrite (bool_decide_eq_true_2 (get d "id" ∉ b)) by done.
      rewrite bool_decide_eq_true_2; [by rewrite IH|]. rewrite elem_of_app. tauto.
Qed.

End FilterFacts.

(** X7.  Removing the id of a watch right after [Store.add] stored it counts
    exactly one removal and leaves the records that had another id; when the
    id was new, the collection is the one from before the add. *)
Theorem add_then_remove :
  forall (f : data_file) (item : MonitoredTrain),
    remove_ids (add f item) [id item]
    = (1, Json (List.filter (fun d => bool_decide (get d "id" ≠ id item)) (_load f)))
    /\ (id item ∉ ids_of (_load f) ->
        remove_ids (add f item) [id item] = (1, Json (_load f))).
Proof.
  intros f item.
  assert (H : remove_ids (add f item) [id item]
              = (1, Json (List.filter (fun d => bool_decide (get d "id" ≠ id item))
                            (_load f)))).
  { unfold remove_ids, add, _save. cbn [_load].
    rewrite List.filter_app, filter_filter_id. cbn [List.filter].
    rewrite get_asdict_id.
    rewrite bool_decide_eq_false_2 by (intros H; apply H; apply list_elem_of_here).
    rewrite app_nil_r, length_app. cbn [length]. f_equal. lia. }
  split; [done|]. intros Habs. by rewrite H, filter_ne_absent.
Qed.

(** A watch with a new id is added to the file of the two watches and
    removed again. *)
Lemma add_then_remove_witness :
  remove_ids (add dos_vigias (nuevo "t" 9 "Lugo" "Ourense" "08/10/2025" "10:00"))
             [id (nuevo "t" 9 "Lugo" "Ourense" "08/10/2025" "10:00")]
  = (1, Json (_load dos_vigias)).
Proof.
  apply (proj2 (add_then_remove dos_vigias
                  (nuevo "t" 9 "Lugo" "Ourense" "08/10/2025" "10:00"))).
  intros H. apply (bool_decide_pack _) in H. vm_compute in H. exact H.
Defined.

(** X8.  [Store.remove_ids] with a list of ids does what removing a first
    part of the list and then the rest does: the same file results and the
    two counts add up to its count. *)
Theorem remove_ids_in_two_steps :
  forall (f : data_file) (a b : list value),
    let whole := remove_ids f (a ++ b)%list in
    let first := remove_ids f a in
    let second := remove_ids first.2 b in
    whole.2 = second.2 /\ whole.1 = first.1 + second.1.
Proof.
  intros f a b whole first second. subst whole first second.
  unfold remove_ids, _save. cbn [fst snd _load].
  rewrite filter_app_ids. split; [done|]. lia.
Qed.

(** * Further properties of the sweep *)

Section NoticeFacts.

Context (check : nat -> MonitoredTrain -> option Scraper.resultado)
        (send : nat -> MonitoredTrain -> Scraper.resultado -> bool).

Lemma aviso_in items a :
  a ∈ (notificaciones check send items).2
  <-> exists i it res,
        items !! i = Some it /\ check i it = Some res /\ es_ok res = true
        /\ a = {| av_pos := i; av_item := it; av_res := res; av_enviado := send i it res |}.
Proof.
  rewrite notificaciones_eq. cbn [snd]. rewrite list_elem_of_omap. split.
  - intros (r & Hr & Ha). apply elem_of_lookup_imap in Hr as (i & it & -> & Hit).
    unfold _check_item, aviso_de in Ha.
    destruct (check i it) as [res|] eqn:Hc; [|done].
    destruct (es_ok res) eqn:Hok; [|done]. injection Ha as <-.
    by exists i, it, res.
  - intros (i & it & res & Hit & Hc & Hok & ->). exists (i, it, Some res). split.
    + apply elem_of_lookup_imap. exists i, it. split; [|done].
      unfold _check_item. by rewrite Hc.
    + unfold aviso_de. by rewrite Hok.
Qed.

(** The positions of the calls of [send_message] grow strictly. *)
Lemma avisos_desde (k : nat) (items : list MonitoredTrain) :
  let avs := omap (aviso_de send) (imap (fun i => _check_item check (k + i)) items) in
  Forall (fun a => (k <= av_pos a)%nat) avs
  /\ StronglySorted lt (av_pos <$> avs).
Proof.
  revert k. induction items as [|it items IH]; intros k avs.
  - split; constructor.
  - subst avs. cbn [imap].
    assert (Hext : imap ((fun i => _check_item check (k + i)) ∘ S) items
                   = imap (fun i => _check_item check (S k + i)) items).
    { apply imap_ext. intros i x _. cbn. f_equal. lia. }
    rewrite Hext. destruct (IH (S k)) as [Hge Hsorted].
    cbn [omap list_omap].
    destruct (aviso_de send (_check_item check (k + 0) it)) as [a|] eqn:Ha.
    + assert (Hpos : av_pos a = k).
      { unfold _check_item, aviso_de in Ha.
        destruct (check (k + 0) it) as [res|]; [|done].
        destruct (es_ok res); [|done]. injection Ha as <-. cbn. lia. }
      split.
      * constructor; [lia|]. eapply Forall_impl; [exact Hge|]. cbn. intros; lia.
      * rewrite fmap_cons. constructor; [exact Hsorted|]. apply Forall_fmap.
        eapply Forall_impl; [exact Hge|]. cbn. intros; lia.
    + split; [|exact Hsorted]. eapply Forall_impl; [exact Hge|]. cbn. intros; lia.
Qed.

Lemma enviado_en_cola items a :
  a ∈ (notificaciones check send items).2 -> av_enviado a = true ->
  id (av_item a) ∈ (notificaciones check send items).1.
Proof.
  rewrite notificaciones_eq. cbn [fst snd]. intros Ha Hs.
  apply list_elem_of_omap. exists a. split; [done|]. unfold borrado_de. by rewrite Hs.
Qed.

Lemma cola_vacia items :
  (forall a, a ∈ (notificaciones check send items).2 -> av_enviado a = false) ->
  (notificaciones check send items).1 = [].
Proof.
  rewrite notificaciones_eq. cbn [fst snd].
  induction (omap (aviso_de send) (imap (_check_item check) items)) as [|a avs IH];
    intros H; [done|].
  cbn [omap list_omap]. unfold borrado_de at 1. rewrite (H a) by apply list_elem_of_here.
  apply IH. intros b Hb. apply H. by apply list_elem_of_further.
Qed.

End NoticeFacts.

Section WriteFacts.

Context (check : nat -> MonitoredTrain -> option Scraper.resultado)
        (send : nat -> MonitoredTrain -> Scraper.resultado -> bool).

(** With a write that returns, the sweep is [_check_once_and_notify]. *)
Lemma sweep_io_escribe now f :
  _check_once_and_notify_io check send true now f
  = _check_once_and_notify check send now f.
Proof. reflexivity. Qed.

(** With a write that raises, the sweep makes the same calls and leaves
    the file as it was. *)
Lemma sweep_io_falla now f :
  _check_once_and_notify_io check send false now f
  = (f, (_check_once_and_notify check send now f).2).
Proof.
  unfold _check_once_and_notify_io, _check_once_and_notify.
  destruct (_list_all_items now f) as [|it0 items]; [done|].
  destruct (notificaciones check send (it0 :: items)) as [[|x ids] avs]; done.
Qed.

Lemma sweep_io_avisos escribe now f :
  (_check_once_and_notify_io check send escribe now f).2
  = (notificaciones check send (_list_all_items now f)).2.
Proof.
  destruct escribe.
  - rewrite sweep_io_escribe. apply sweep_avisos.
  - rewrite sweep_io_falla. cbn [snd]. apply sweep_avisos.
Qed.

(** Whether a record loads, and with which id, does not depend on the
    time of the load. *)
Lemma cargar_otro_reloj now now' (d : registro) it :
  cargar now d = Some it ->
  exists it', cargar now' d = Some it' /\ id it' = id it.
Proof.
  unfold cargar.
  destruct (bool_decide (d !! "salida" = None) || negb (truthy (get d "salida")));
    unfold from_kwargs; destruct (_ && _); try done;
    intros [= <-]; by eexists.
Qed.

End WriteFacts.

(** X9.  A sweep only removes records, whether the write of
    [STORE.remove_ids] returns or raises: every record of the file after the
    sweep is a record of the file before it.  When the write returns, the
    collection afterwards is the one from before without the records whose id
    is in the removal batch, in the same order.  When the write raises, or
    when no notification got through (the sweep then does not write), the
    file is the very file it found.  The calls of [send_message] made do not
    depend on the write. *)
Theorem sweep_only_removes :
  forall (escribe : bool) check send now (f : data_file),
    let items := _list_all_items now f in
    let s := _check_once_and_notify_io check send escribe now f in
    (forall d, In d (_load s.1) -> In d (_load f))
    /\ (escribe = true ->
        _load s.1
        = List.filter
            (fun d => bool_decide (get d "id" ∉ (notificaciones check send items).1))
            (_load f))
    /\ (escribe = false -> s.1 = f)
    /\ ((forall a, In a s.2 -> av_enviado a = false) -> s.1 = f)
    /\ s.2 = (notificaciones check send items).2.
Proof.
  intros escribe check send now f items s. subst s items.
  assert (Hwritten :
    _load (_check_once_and_notify check send now f).1
    = List.filter
        (fun d => bool_decide
                    (get d "id" ∉ (notificaciones check send (_list_all_items now f)).1))
        (_load f)).
  { unfold _check_once_and_notify.
    destruct (_list_all_items now f) as [|it0 items] eqn:Hitems.
    { cbn. induction (_load f) as [|d data IH]; [done|]. cbn.
      rewrite bool_decide_eq_true_2 by apply not_elem_of_nil. by f_equal. }
    destruct (notificaciones check send (it0 :: items)) as [[|x ids] avs] eqn:Hn.
    - cbn [fst snd]. induction (_load f) as [|d data IH]; [done|]. cbn.
      rewrite bool_decide_eq_true_2 by apply not_elem_of_nil. by f_equal.
    - reflexivity. }
  assert (Hnone :
    (forall a, In a (_check_once_and_notify check send now f).2 -> av_enviado a = false) ->
    (_check_once_and_notify check send now f).1 = f).
  { unfold _check_once_and_notify.
    destruct (_list_all_items now f) as [|it0 items] eqn:Hitems; [done|].
    pose proof (cola_vacia check send (it0 :: items)) as Hvacia.
    destruct (notificaciones check send (it0 :: items)) as [[|x ids] avs] eqn:Hn; [done|].
    cbn [fst snd] in *. intros Hall. discriminate Hvacia.
    intros a Ha. apply Hall. by apply list_elem_of_In. }
  split_and!.
  - destruct escribe.
    + rewrite sweep_io_escribe, Hwritten. intros d Hd. by apply filter_In in Hd as [Hd _].
    + by rewrite sweep_io_falla.
  - intros ->. by rewrite sweep_io_escribe.
  - intros ->. by rewrite sweep_io_falla.
  - destruct escribe.
    + rewrite sweep_io_escribe. exact Hnone.
    + by rewrite sweep_io_falla.
  - apply sweep_io_avisos.
Qed.

(** The sweep that notifies both watches while the file cannot be
    written: the file stays as it was. *)
Lemma sweep_only_removes_witness :
  (_check_once_and_notify_io check_todos send_siempre false
     "2025-10-02T10:00:00+02:00" dos_vigias).1 = dos_vigias.
Proof.
  destruct (sweep_only_removes false check_todos send_siempre
              "2025-10-02T10:00:00+02:00" dos_vigias) as (_ & _ & Hfalla & _).
  exact (Hfalla eq_refl).
Defined.

(** X10.  A watch whose notification was sent is not checked again once
    the write of [STORE.remove_ids] returned: after the sweep no watch that
    the loader returns, at any later time, carries the id of a watch whose
    [send_message] returned.  When the write raised, the file is as it was
    and the loader still returns a watch with that id, which the next sweep
    checks and notifies again. *)
Theorem notified_watch_not_reloaded :
  forall (escribe : bool) check send now now' (f : data_file) (a : aviso),
    let s := _check_once_and_notify_io check send escribe now f in
    In a s.2 -> av_enviado a = true ->
    (escribe = true -> id (av_item a) ∉ id <$> _list_all_items now' s.1)
    /\ (escribe = false ->
        s.1 = f /\ id (av_item a) ∈ id <$> _list_all_items now' s.1).
Proof.
  intros escribe check send now now' f a s Ha Hs. subst s.
  rewrite sweep_io_avisos in Ha. apply list_elem_of_In in Ha. split.
  - intros ->. rewrite sweep_io_escribe. intros Hin.
    pose proof (enviado_en_cola check send _ a Ha Hs) as Hq.
    apply list_elem_of_fmap in Hin as (it & Hid & Hit).
    unfold _list_all_items in Hit. apply list_elem_of_omap in Hit as (d & Hd & Hc).
    apply list_elem_of_In, sweep_load in Hd as [_ Hout].
    apply cargar_id in Hc. apply Hout. by rewrite <- Hc, <- Hid.
  - intros ->. rewrite sweep_io_falla. cbn [fst]. split; [done|].
    apply aviso_in in Ha as (i & it & res & Hit & _ & _ & ->). cbn [av_item].
    unfold _list_all_items in Hit. apply items_lookup in Hit as (d & Hd & Hc).
    destruct (cargar_otro_reloj now now' d it Hc) as (it' & Hc' & Hid).
    apply list_elem_of_fmap. exists it'. split; [done|].
    unfold _list_all_items. apply list_elem_of_omap. exists d.
    split; [by apply list_elem_of_In|done].
Qed.

(** After the sweep that notifies the second watch and writes the file,
    its id is gone. *)
Lemma notified_watch_not_reloaded_witness :
  id vigia_b
  ∉ id <$> _list_all_items "2025-10-02T10:05:00+02:00"
             (_check_once_and_notify_io check_falla_primero send_siempre true
                "2025-10-02T10:00:00+02:00" dos_vigias).1.
Proof.
  assert (Hin : In {| av_pos := 1; av_item := vigia_b; av_res := hay_plazas;
                      av_enviado := true |}
                   (_check_once_and_notify_io check_falla_primero send_siempre true
                      "2025-10-02T10:00:00+02:00" dos_vigias).2)
    by (vm_compute; left; reflexivity).
  destruct (notified_watch_not_reloaded true check_falla_primero send_siempre
              "2025-10-02T10:00:00+02:00" "2025-10-02T10:05:00+02:00" dos_vigias
              {| av_pos := 1; av_item := vigia_b; av_res := hay_plazas; av_enviado := true |}
              Hin eq_refl) as [Hgone _].
  exact (Hgone eq_refl).
Defined.

(** X11.  The sweep calls [send_message] once for each watch whose check
    returned a result with estado OK, in the order of the watches, and for no
    other watch; each call's outcome is what that watch's notification did. *)
Theorem one_notice_per_available_watch :
  forall check send now (f : data_file),
    let items := _list_all_items now f in
    let avs := (_check_once_and_notify check send now f).2 in
    (forall a, In a avs <->
       exists i it res,
         items !! i = Some it /\ check i it = Some res /\ es_ok res = true
         /\ a = {| av_pos := i; av_item := it; av_res := res;
                   av_enviado := send i it res |})
    /\ StronglySorted lt (av_pos <$> avs).
Proof.
  intros check send now f items avs. subst avs items. rewrite sweep_avisos. split.
  - intros a. rewrite <- list_elem_of_In. apply aviso_in.
  - rewrite notificaciones_eq. cbn [snd].
    apply (avisos_desde check send 0 (_list_all_items now f)).
Qed.

(** * Further properties of the conversations *)

Section SortFacts.

Local Abbreviation key_le a b :=
  (clave_le (parse_sort_key a) (parse_sort_key b) = true).

Lemma clave_le_total (a b : Z * Z) : clave_le a b = false -> clave_le b a = true.
Proof.
  unfold clave_le. destruct a as [a1 a2], b as [b1 b2]. cbn.
  rewrite orb_false_iff, andb_false_iff, orb_true_iff, andb_true_iff.
  rewrite !Z.ltb_ge, !Z.ltb_lt, !Z.eqb_eq, !Z.leb_le, Z.eqb_neq, Z.leb_gt. lia.
Qed.

Lemma insertar_perm (x : MonitoredTrain) (l : list MonitoredTrain) :
  Permutation (insertar x l) (x :: l).
Proof.
  induction l as [|y r IH]; cbn; [done|].
  destruct (clave_le _ _); [done|].
  rewrite IH. apply perm_swap.
Qed.

Lemma insertar_sorted (x : MonitoredTrain) (l : list MonitoredTrain) :
  Sorted (fun a b => key_le a b) l -> Sorted (fun a b => key_le a b) (insertar x l).
Proof.
  induction 1 as [|y r Hr IH Hhd]; cbn.
  - repeat constructor.
  - destruct (clave_le (parse_sort_key x) (parse_sort_key y)) eqn:Hxy.
    + constructor; [by constructor|]. by constructor.
    + constructor; [exact IH|].
      destruct r as [|z r]; cbn.
      * constructor. by apply clave_le_total.
      * destruct (clave_le (parse_sort_key x) (parse_sort_key z)).
        -- constructor. by apply clave_le_total.
        -- constructor. by inversion Hhd.
Qed.

Lemma sorted_perm (l : list MonitoredTrain) : Permutation (sorted l) l.
Proof.
  induction l as [|x l IH]; cbn; [done|].
  rewrite insertar_perm. by constructor.
Qed.

Lemma sorted_sorted (l : list MonitoredTrain) :
  Sorted (fun a b => key_le a b) (sorted l).
Proof.
  induction l as [|x l IH]; cbn; [constructor|]. by apply insertar_sorted.
Qed.

(** An item goes behind the items with the same key that were before it:
    among items of equal key the order of the input is kept. *)
Lemma insertar_stable (x : MonitoredTrain) (l : list MonitoredTrain) (k : Z * Z) :
  List.filter (fun a => bool_decide (parse_sort_key a = k)) (insertar x l)
  = List.filter (fun a => bool_decide (parse_sort_key a = k)) (x :: l).
Proof.
  induction l as [|y r IH]; [done|]. cbn [insertar].
  destruct (clave_le (parse_sort_key x) (parse_sort_key y)) eqn:Hxy; [done|].
  cbn [List.filter] in *. rewrite IH.
  destruct (decide (parse_sort_key x = k)) as [Hx|Hx];
    destruct (decide (parse_sort_key y = k)) as [Hy|Hy];
    rewrite ?(bool_decide_eq_true_2 _ Hx), ?(bool_decide_eq_false_2 _ Hx),
            ?(bool_decide_eq_true_2 _ Hy), ?(bool_decide_eq_false_2 _ Hy); try done.
  exfalso. rewrite Hx, Hy in Hxy. unfold clave_le in Hxy.
  rewrite Z.eqb_refl, Z.leb_refl in Hxy. cbn in Hxy. by rewrite orb_true_r in Hxy.
Qed.

Lemma sorted_stable (l : list MonitoredTrain) (k : Z * Z) :
  List.filter (fun a => bool_decide (parse_sort_key a = k)) (sorted l)
  = List.filter (fun a => bool_decide (parse_sort_key a = k)) l.
Proof.
  induction l as [|x l IH]; [done|]. cbn [sorted foldr].
  fold (sorted l). rewrite insertar_stable. cbn. by rewrite IH.
Qed.

End SortFacts.

(** X12.  [format_saved_list] answers the fixed text and no id for an empty
    list.  Otherwise it numbers one line per watch and returns their ids in
    the order of the lines: the watches are those it was given, ordered by
    [parse_sort_key] (date, then departure), and watches with the same key
    keep the order they came in. *)
Theorem format_saved_list_sorted :
  format_saved_list [] = ("No tienes viajes guardados.", [])
  /\ (forall items : list MonitoredTrain,
        items <> [] ->
        exists ordered,
          format_saved_list items
          = (join (String "010" "") (imap linea ordered), id <$> ordered)
          /\ Permutation ordered items
          /\ Sorted (fun a b => clave_le (parse_sort_key a) (parse_sort_key b) = true)
                    ordered
          /\ (forall k, List.filter (fun a => bool_decide (parse_sort_key a = k)) ordered
                        = List.filter (fun a => bool_decide (parse_sort_key a = k)) items)).
Proof.
  split; [reflexivity|]. intros items Hne. exists (sorted items).
  split_and!.
  - unfold format_saved_list. by destruct items.
  - apply sorted_perm.
  - apply sorted_sorted.
  - apply sorted_stable.
Qed.

(** The saved list of the two watches, given in the opposite order. *)
Lemma format_saved_list_sorted_witness :
  exists ordered,
    format_saved_list [vigia_b; vigia_a]
    = (join (String "010" "") (imap linea ordered), id <$> ordered)
    /\ Permutation ordered [vigia_b; vigia_a]
    /\ Sorted (fun a b => clave_le (parse_sort_key a) (parse_sort_key b) = true) ordered
    /\ (forall k, List.filter (fun a => bool_decide (parse_sort_key a = k)) ordered
                  = List.filter (fun a => bool_decide (parse_sort_key a = k))
                      [vigia_b; vigia_a]).
Proof.
  apply (proj2 format_saved_list_sorted [vigia_b; vigia_a]). discriminate.
Defined.

Section DeleteFacts.

Lemma choose_delete_in_range text ud (f : data_file) n ids i :
  Py.int (Py.strip text) = Some n -> 1 <= n ->
  ud_del_ids ud = Some ids -> ids !! Z.to_nat (n - 1) = Some i ->
  choose_delete text ud f
  = ((if negb ((remove_ids f [i]).1 =? 0) then Eliminado else NoSePudoEliminar, END),
     {| ud_origen := ud_origen ud; ud_destino := ud_destino ud;
        ud_fecha := ud_fecha ud; ud_viajes := ud_viajes ud; ud_del_ids := None |},
     (remove_ids f [i]).2).
Proof.
  intros Hn Hpos Hids Hi. unfold choose_delete. rewrite Hn, Hids.
  change (default [] (Some ids)) with ids.
  assert (Hlen : (Z.to_nat (n - 1) < length ids)%nat) by (eapply lookup_lt_Some; eauto).
  destruct ids as [|i0 ids'] eqn:E; [by rewrite lookup_nil in Hi|]. rewrite <- E in *.
  assert (negb ((0 <=? n - 1) && (n - 1 <? Z.of_nat (length ids))) = false) as ->.
  { apply negb_false_iff, andb_true_iff. split; [apply Z.leb_le | apply Z.ltb_lt]; lia. }
  rewrite Hi. change (default VNone (Some i)) with i.
  by destruct (remove_ids f [i]).
Qed.

Lemma filter_notin_singleton (data : list registro) (i : value) :
  List.filter (fun d => bool_decide (get d "id" ∉ [i])) data
  = List.filter (fun d => bool_decide (get d "id" ≠ i)) data.
Proof.
  apply filter_ext. intros d. apply bool_decide_ext.
  rewrite list_elem_of_singleton. done.
Qed.

End DeleteFacts.

(** X13.  On a file that the bot wrote, the /delete conversation removes the
    watch that the user points at and nothing else: when [cmd_delete] has
    shown the list and the user answers with a number of that list,
    [choose_delete] answers "eliminado" and writes the collection without one
    record, which carried the id of that line and belonged to the chat that
    asked. *)
Theorem delete_removes_listed_watch :
  forall now chat ud (f : data_file) text_list ud' text n i,
    alcanzable f ->
    cmd_delete now chat ud f = (Ok (ListaParaBorrar text_list, DEL_CHOOSE), ud') ->
    Py.int (Py.strip text) = Some n -> 1 <= n ->
    default [] (ud_del_ids ud') !! Z.to_nat (n - 1) = Some i ->
    let out := choose_delete text ud' f in
    out.1.1 = (Eliminado, END)
    /\ out.2 = Json (List.filter (fun d => bool_decide (get d "id" ≠ i)) (_load f))
    /\ (length (_load out.2) + 1 = length (_load f))%nat
    /\ exists d, In d (_load f) /\ get d "id" = i /\ get d "chat_id" = VInt chat.
Proof.
  intros now chat ud f text_list ud' text n i Hf Hcmd Hn Hpos Hi out.
  unfold cmd_delete in Hcmd.
  destruct (list_for_chat_alcanzable now f (VInt chat) Hf) as (items & Hl & Heq & _).
  rewrite Hl in Hcmd. unfold format_saved_list in Hcmd.
  destruct items as [|it0 items0] eqn:Hitems; [discriminate Hcmd|]. rewrite <- Hitems in *.
  destruct (id <$> sorted items) as [|i0 ids0] eqn:Hids; [discriminate Hcmd|].
  rewrite <- Hids in *. injection Hcmd as _ Hud. subst ud'.
  cbn [ud_del_ids] in Hi. change (default [] (Some (id <$> sorted items)))
    with (id <$> sorted items) in Hi.
  assert (Hd : exists d, In d (_load f) /\ get d "id" = i /\ get d "chat_id" = VInt chat).
  { apply list_elem_of_lookup_2, list_elem_of_fmap in Hi as (it & -> & Hit).
    rewrite (sorted_perm items) in Hit.
    assert (In (asdict it)
              (List.filter (fun d => bool_decide (get d "chat_id" = VInt chat)) (_load f)))
      as Hin.
    { rewrite <- Heq. apply list_elem_of_In, list_elem_of_fmap. by exists it. }
    apply filter_In in Hin as [Hin Hchat]. apply bool_decide_eq_true in Hchat.
    exists (asdict it). split_and!; [done|apply get_asdict_id|done]. }
  assert (Hone : (remove_ids f [i]).1 = 1).
  { rewrite remove_ids_count, filter_present_once; [done| |].
    - by apply alcanzable_ids_unique.
    - destruct Hd as (d & Hd & <- & _). apply list_elem_of_fmap. exists d.
      split; [done|]. by apply list_elem_of_In. }
  subst out.
  rewrite (choose_delete_in_range text
             {| ud_origen := ud_origen ud; ud_destino := ud_destino ud;
                ud_fecha := ud_fecha ud; ud_viajes := ud_viajes ud;
                ud_del_ids := Some (id <$> sorted items) |}
             f n (id <$> sorted items) i Hn Hpos eq_refl Hi).
  rewrite Hone. cbn [fst snd negb Z.eqb].
  unfold remove_ids in *. cbn [fst snd _save _load] in *.
  rewrite filter_notin_singleton in *. split_and!; try done. lia.
Qed.

(** Chat 7 asks for its list on the file of the two watches and answers 1. *)
Lemma delete_removes_listed_watch_witness :
  (choose_delete "1"
     (cmd_delete "2025-10-02T10:00:00+02:00" 7 ud_vigo
        (add (add Missing vigia_a) vigia_b)).2
     (add (add Missing vigia_a) vigia_b)).1.1
  = (Eliminado, END).
Proof.
  eapply (delete_removes_listed_watch "2025-10-02T10:00:00+02:00" 7 ud_vigo
            (add (add Missing vigia_a) vigia_b) _ _ "1" 1 (id vigia_a)).
  - apply alc_add, alc_add, alc_missing.
  - vm_compute. reflexivity.
  - reflexivity.
  - lia.
  - vm_compute. reflexivity.
Defined.

(** X14.  [_month_diff] counts months: it is 0 exactly from a month to
    itself, positive exactly towards a later month, and going back gives the
    opposite number; for months between 1 and 12. *)
Theorem month_diff_orders_months :
  forall src_m src_y dst_m dst_y : Z,
    1 <= src_m <= 12 -> 1 <= dst_m <= 12 ->
    let n := Scraper._month_diff src_m src_y dst_m dst_y in
    (n = 0 <-> (src_y = dst_y /\ src_m = dst_m))
    /\ (0 < n <-> (src_y < dst_y \/ (src_y = dst_y /\ src_m < dst_m)))
    /\ Scraper._month_diff dst_m dst_y src_m src_y = - n.
Proof.
  intros src_m src_y dst_m dst_y Hs Hd n. subst n. unfold Scraper._month_diff. lia.
Qed.

(** From October 2025 to January 2026. *)
Lemma month_diff_orders_months_witness :
  0 < Scraper._month_diff 10 2025 1 2026.
Proof.
  apply (month_diff_orders_months 10 2025 1 2026); lia.
Defined.

Section DateFacts.

Ltac cada_digito H :=
  apply digit_cases in H; cbn in H;
  repeat match type of H with
         | _ \/ _ => destruct H as [H|H]; [subst|]
         end;
  try contradiction.

Lemma digit_val_range (c : ascii) : Py.is_digit c = true -> 0 <= Py.digit_val c <= 9.
Proof. intros H. cada_digito H; vm_compute; split; discriminate. Qed.

Lemma digit_not_slash (c : ascii) : Py.is_digit c = true -> Ascii.eqb c "/" = false.
Proof. intros H. cada_digito H; reflexivity. Qed.

Lemma digit_not_blank (c : ascii) : Py.is_digit c = true -> Ascii.eqb c " " = false.
Proof. intros H. cada_digito H; reflexivity. Qed.

Lemma digit_not_space (c : ascii) : Py.is_digit c = true -> Py.is_space c = false.
Proof. intros H. cada_digito H; reflexivity. Qed.

Lemma dias_del_mes_range (y m : Z) : 28 <= dias_del_mes y m <= 31.
Proof.
  unfold dias_del_mes.
  repeat match goal with |- context [if ?b then _ else _] => destruct b end; lia.
Qed.

Lemma un_digito_range (c : ascii) (n : Z) : un_digito c = Some n -> 1 <= n <= 9.
Proof.
  unfold un_digito. destruct (Py.is_digit c) eqn:Hd; [|done]. cbn.
  destruct (Ascii.eqb c "0") eqn:H0; [done|]. intros [= <-].
  cada_digito Hd; try (vm_compute; split; discriminate).
  all: try (vm_compute in H0; discriminate H0).
Qed.

Lemma dos_digitos_range (a b : ascii) (n : Z) : dos_digitos a b = Some n -> 0 <= n <= 99.
Proof.
  unfold dos_digitos. destruct (Py.is_digit a) eqn:Ha; [|done].
  destruct (Py.is_digit b) eqn:Hb; [|done]. cbn. intros [= <-].
  pose proof (digit_val_range a Ha). pose proof (digit_val_range b Hb). lia.
Qed.

(** A date that [strptime] accepts is a day of a month of a year. *)
Lemma strptime_range (s : string) (y m d : Z) :
  strptime s = Some (y, m, d) ->
  1 <= y <= 9999 /\ 1 <= m <= 12 /\ 1 <= d <= dias_del_mes y m.
Proof.
  unfold strptime. destruct (Py.split "/" s) as [|td [|tm [|ty [|]]]]; try done.
  destruct (campo_dia td) as [d'|] eqn:Hd; [|done].
  destruct (campo_mes tm) as [m'|] eqn:Hm; [|done].
  destruct (campo_anyo ty) as [y'|] eqn:Hy; [|done].
  destruct ((1 <=? y') && (d' <=? dias_del_mes y' m')) eqn:Hc; [|done].
  intros [= -> -> ->]. apply andb_true_iff in Hc as [Hc1 Hc2].
  apply Z.leb_le in Hc1. apply Z.leb_le in Hc2.
  assert (1 <= d).
  { unfold campo_dia in Hd. destruct td as [|a [|b [|]]]; try done.
    - apply un_digito_range in Hd. lia.
    - destruct (Ascii.eqb a " "); [apply un_digito_range in Hd; lia|].
      destruct (dos_digitos a b) as [k|]; [|done].
      destruct ((1 <=? k) && (k <=? 31)) eqn:Hk; [|done]. injection Hd as <-.
      apply andb_true_iff in Hk as [Hk _]. by apply Z.leb_le in Hk. }
  assert (1 <= m <= 12).
  { unfold campo_mes in Hm. destruct tm as [|a [|b [|]]]; try done.
    - apply un_digito_range in Hm. lia.
    - destruct (dos_digitos a b) as [k|]; [|done].
      destruct ((1 <=? k) && (k <=? 12)) eqn:Hk; [|done]. injection Hm as <-.
      apply andb_true_iff in Hk as [Hk1 Hk2]. apply Z.leb_le in Hk1, Hk2. lia. }
  assert (y <= 9999).
  { unfold campo_anyo in Hy. destruct ty as [|a [|b [|c [|e [|]]]]]; try done.
    destruct (forallb Py.is_digit [a; b; c; e]) eqn:Hall; [|done]. injection Hy as <-.
    cbn in Hall. rewrite !andb_true_iff in Hall. destruct Hall as (Ha & Hb & Hcc & He & _).
    pose proof (digit_val_range a Ha). pose proof (digit_val_range b Hb).
    pose proof (digit_val_range c Hcc). pose proof (digit_val_range e He). lia. }
  lia.
Qed.

(** A text that [normalize_date] accepts is read by [strptime], and
    stripping it changes nothing. *)
Lemma fecha_valida_strptime (t : string) :
  fecha_valida t = true ->
  Py.strip t = t /\ String.length t = 10%nat
  /\ exists y m d, strptime t = Some (y, m, d).
Proof.
  destruct t as [|d1 [|d2 [|s1 [|m1 [|m2 [|s2 [|y1 [|y2 [|y3 [|y4 [|]]]]]]]]]]];
    try discriminate.
  cbn [fecha_valida forallb]. rewrite !andb_true_iff.
  intros [[[Hdig Hs1] Hs2] Hr].
  destruct Hdig as (Hd1 & Hd2 & Hm1 & Hm2 & Hy1 & Hy2 & Hy3 & Hy4 & _).
  apply Ascii.eqb_eq in Hs1, Hs2. subst s1 s2.
  destruct Hr as [[[[Hy Hmlo] Hmhi] Hdlo] Hdhi].
  apply Z.leb_le in Hy, Hmlo, Hmhi, Hdlo, Hdhi.
  split_and!.
  - unfold Py.strip. cbn [Py.lstrip]. rewrite (digit_not_space d1 Hd1).
    cbn [Py.rstrip]. rewrite (digit_not_space y4 Hy4). reflexivity.
  - reflexivity.
  - unfold strptime. cbn [Py.split].
    rewrite (digit_not_slash d1), (digit_not_slash d2), (digit_not_slash m1),
            (digit_not_slash m2), (digit_not_slash y1), (digit_not_slash y2),
            (digit_not_slash y3), (digit_not_slash y4) by done.
    cbn [Ascii.eqb Bool.eqb]. cbv beta iota.
    unfold campo_dia, campo_mes, campo_anyo, dos_digitos. cbn [forallb].
    rewrite (digit_not_blank d1 Hd1), Hd1, Hd2, Hm1, Hm2, Hy1, Hy2, Hy3, Hy4.
    cbn [andb].
    pose proof (dias_del_mes_range
                  (1000 * Py.digit_val y1 + 100 * Py.digit_val y2
                   + 10 * Py.digit_val y3 + Py.digit_val y4)
                  (10 * Py.digit_val m1 + Py.digit_val m2)) as Hdim.
    rewrite (proj2 (Z.leb_le 1 _) Hdlo).
    rewrite (proj2 (Z.leb_le _ 31)) by lia.
    rewrite (proj2 (Z.leb_le 1 _) Hmlo), (proj2 (Z.leb_le _ 12) Hmhi).
    cbn [andb]. rewrite (proj2 (Z.leb_le 1 _) Hy), (proj2 (Z.leb_le _ _) Hdhi).
    cbn [andb]. by eexists _, _, _.
Qed.

End DateFacts.

(** X15.  For a text written in ASCII: what [normalize_date] returns is the
    input without the blanks around it, ten characters long, and a date for
    [strptime] too; giving it to [normalize_date] again returns it unchanged,
    and a watch stored with it gets the sort key
    year * 10000 + month * 100 + day, never the 0 of a date that does not
    parse. *)
Theorem normalize_date_accepts_dates :
  forall s t : string,
    Py.es_ascii s = true ->
    normalize_date s = Some t ->
    t = Py.strip s
    /\ String.length t = 10%nat
    /\ normalize_date t = Some t
    /\ exists y m d,
         strptime t = Some (y, m, d)
         /\ 1 <= y <= 9999 /\ 1 <= m <= 12 /\ 1 <= d <= dias_del_mes y m
         /\ forall it, fecha it = VStr t ->
              (parse_sort_key it).1 = y * 10000 + m * 100 + d
              /\ 0 < (parse_sort_key it).1.
Proof.
  intros s t _. unfold normalize_date.
  destruct (fecha_valida (Py.strip s)) eqn:Hv; [|done]. intros [= <-].
  destruct (fecha_valida_strptime _ Hv) as (Hstrip & Hlen & y & m & d & Hp).
  split_and!; try done.
  - by rewrite Hstrip, Hv.
  - exists y, m, d. destruct (strptime_range _ _ _ _ Hp) as (Hy & Hm & Hd).
    split_and!; try lia; [done|].
    intros it Hit. unfold parse_sort_key. rewrite Hit, Hp. cbn [fst]. lia.
Qed.

(** A leap day typed with blanks around it. *)
Lemma normalize_date_accepts_dates_witness :
  normalize_date "29/02/2024" = Some "29/02/2024".
Proof.
  apply (normalize_date_accepts_dates " 29/02/2024 " "29/02/2024" eq_refl).
  reflexivity.
Defined.

(** X16.  For watches whose fecha [strptime] reads and whose salida has the
    shape HH:MM, the order of [parse_sort_key] is the order of the calendar
    and the clock: an earlier date comes first, and on the same date the
    earlier departure. *)
Theorem sort_key_is_chronological :
  forall (a b : MonitoredTrain) fa fb sa sb ya ma da yb mb db ha ia hb ib,
    fecha a = VStr fa -> fecha b = VStr fb ->
    salida a = VStr sa -> salida b = VStr sb ->
    strptime fa = Some (ya, ma, da) -> strptime fb = Some (yb, mb, db) ->
    Scraper.es_hhmm sa = true -> Scraper.es_hhmm sb = true ->
    Py.int <$> Py.split ":" sa = [Some ha; Some ia] ->
    Py.int <$> Py.split ":" sb = [Some hb; Some ib] ->
    (clave_le (parse_sort_key a) (parse_sort_key b) = true
     <-> (ya < yb \/ (ya = yb /\ (ma < mb \/ (ma = mb /\ da < db))))
         \/ ((ya = yb /\ ma = mb /\ da = db)
             /\ (ha < hb \/ (ha = hb /\ ia <= ib)))).
Proof.
  intros a b fa fb sa sb ya ma da yb mb db ha ia hb ib
         Hfa Hfb Hsa Hsb Hpa Hpb Hha Hhb Hia Hib.
  destruct (strptime_range _ _ _ _ Hpa) as (? & ? & ?).
  destruct (strptime_range _ _ _ _ Hpb) as (? & ? & ?).
  pose proof (dias_del_mes_range ya ma). pose proof (dias_del_mes_range yb mb).
  destruct (split_hhmm sa Hha) as (ha' & ia' & Ea & ? & ?).
  destruct (split_hhmm sb Hhb) as (hb' & ib' & Eb & ? & ?).
  rewrite Hia in Ea. rewrite Hib in Eb.
  injection Ea as <- <-. injection Eb as <- <-.
  assert (Hka : parse_sort_key a = (ya * 10000 + ma * 100 + da, ha * 100 + ia)).
  { unfold parse_sort_key. rewrite Hfa, Hsa, Hpa.
    destruct (Py.split ":" sa) as [|x [|y [|]]]; try discriminate Hia.
    cbn in Hia. injection Hia as -> ->. done. }
  assert (Hkb : parse_sort_key b = (yb * 10000 + mb * 100 + db, hb * 100 + ib)).
  { unfold parse_sort_key. rewrite Hfb, Hsb, Hpb.
    destruct (Py.split ":" sb) as [|x [|y [|]]]; try discriminate Hib.
    cbn in Hib. injection Hib as -> ->. done. }
  rewrite Hka, Hkb. unfold clave_le. cbn [fst snd].
  rewrite orb_true_iff, andb_true_iff, Z.ltb_lt, Z.eqb_eq, Z.leb_le. lia.
Qed.

(** The two watches of the examples: 06/10/2025 08:00 and 07/10/2025 09:00. *)
Lemma sort_key_is_chronological_witness :
  clave_le (parse_sort_key vigia_a) (parse_sort_key vigia_b) = true.
Proof.
  apply (sort_key_is_chronological vigia_a vigia_b "06/10/2025" "07/10/2025"
           "08:00" "09:00" 2025 10 6 2025 10 7 8 0 9 0); try reflexivity.
  lia.
Defined.

Section IdFacts.

Lemma hhmm_here_inv (s : string) :
  Py.hhmm_here s = true ->
  exists a b r, s = String a (String b (String ":" r))
                /\ Py.is_digit a = true /\ Py.is_digit b = true.
Proof.
  destruct s as [|a [|b [|c [|d [|e r]]]]]; try discriminate.
  cbn [Py.hhmm_here]. rewrite !andb_true_iff. intros [[[[[Ha Hb] Hc] _] _] _].
  apply Ascii.eqb_eq in Hc. subst c. by eexists a, b, _.
Qed.

(** The search for a time walks over a text without colon that ends in a
    dash. *)
Lemma search_hhmm_skip (p rest : string) (w : bool) :
  sin_dos_puntos p = true ->
  Py.search_hhmm_from w (p +:+ String "-" rest) = Py.search_hhmm_from false rest.
Proof.
  revert w. induction p as [|c p IH]; intros w Hp.
  - change ("" +:+ String "-" rest) with (String "-" rest).
    cbn [Py.search_hhmm_from].
    destruct (Py.hhmm_here (String "-" rest)) eqn:E.
    + apply hhmm_here_inv in E as (a & b & r & [= <- _] & Ha & _). discriminate Ha.
    + by rewrite andb_false_r.
  - cbn in Hp. apply andb_true_iff in Hp as [Hc Hp]. apply negb_true_iff in Hc.
    change (String c p +:+ String "-" rest) with (String c (p +:+ String "-" rest)).
    cbn [Py.search_hhmm_from].
    destruct (Py.hhmm_here (String c (p +:+ String "-" rest))) eqn:E.
    + exfalso. apply hhmm_here_inv in E as (a & b & r & [= <- E] & _ & Hb).
      destruct p as [|b' [|c' p']]; cbv [String.append] in E; simplify_eq.
      cbn in Hp. rewrite andb_false_r in Hp. discriminate Hp.
    + rewrite andb_false_r. by apply IH.
Qed.

Lemma search_hhmm_at (t rest : string) :
  Scraper.es_hhmm t = true ->
  Py.search_hhmm_from false (t +:+ String "-" rest) = Some t.
Proof.
  destruct t as [|a [|b [|c [|d [|e [|]]]]]]; try discriminate.
  cbn [Scraper.es_hhmm]. intros H. cbv [String.append].
  cbn [Py.search_hhmm_from Py.hhmm_here negb andb]. rewrite H.
  cbn. reflexivity.
Qed.

Lemma pretty_N_char_no_colon (n : N) : Ascii.eqb (pretty_N_char n) ":" = false.
Proof.
  unfold pretty_N_char.
  repeat match goal with |- context [match ?x with _ => _ end] => destruct x end;
    reflexivity.
Qed.

Lemma pretty_N_go_no_colon (x : N) (s : string) :
  sin_dos_puntos s = true -> sin_dos_puntos (pretty_N_go x s) = true.
Proof.
  revert s. induction (N.lt_wf_0 x) as [x _ IH]. intros s Hs.
  destruct (decide (x = 0%N)) as [->|Hx].
  - by rewrite pretty_N_go_0.
  - rewrite pretty_N_go_step by lia. apply IH.
    + apply N.div_lt; lia.
    + cbn. by rewrite pretty_N_char_no_colon.
Qed.

Lemma pretty_Z_no_colon (z : Z) : sin_dos_puntos (pretty z) = true.
Proof.
  assert (HN : forall n : N, sin_dos_puntos (pretty n) = true).
  { intros n. unfold pretty, pretty_N. destruct (decide (n = 0%N)); [reflexivity|].
    by apply pretty_N_go_no_colon. }
  destruct z as [|p|p]; unfold pretty, pretty_Z.
  - reflexivity.
  - apply HN.
  - cbn. apply HN.
Qed.

Lemma fecha_valida_no_colon (t : string) :
  fecha_valida t = true -> sin_dos_puntos t = true.
Proof.
  destruct t as [|d1 [|d2 [|s1 [|m1 [|m2 [|s2 [|y1 [|y2 [|y3 [|y4 [|]]]]]]]]]]];
    try discriminate.
  cbn [fecha_valida forallb]. rewrite !andb_true_iff.
  intros [[[Hdig Hs1] Hs2] _].
  destruct Hdig as (Hd1 & Hd2 & Hm1 & Hm2 & Hy1 & Hy2 & Hy3 & Hy4 & _).
  apply Ascii.eqb_eq in Hs1, Hs2. subst s1 s2. cbn.
  rewrite !digit_not_colon by done. reflexivity.
Qed.

End IdFacts.

(** X17.  The repair of records without salida finds the departure that the
    id was made from: for a watch that [choose_train] builds from a date that
    [normalize_date] accepted and a salida of the shape HH:MM, the time found
    in its id is that salida, so its record with the salida key taken away is
    loaded by the sweep as the same watch. *)
Theorem legacy_repair_recovers_departure :
  forall now now' chat origen destino fecha salida,
    fecha_valida fecha = true ->
    Scraper.es_hhmm salida = true ->
    let it := nuevo now chat origen destino fecha salida in
    _parse_salida_from_id (id it) = Some salida
    /\ cargar now' (delete "salida" (asdict it)) = Some it.
Proof.
  intros now now' chat origen destino fecha salida Hf Hs it.
  assert (Hparse : _parse_salida_from_id (id it) = Some salida).
  { assert (Hid : id it
                  = VStr (pretty chat +:+ String "-" (fecha +:+ String "-"
                            (salida +:+ String "-" (origen +:+ String "-" destino)))))
      by reflexivity.
    rewrite Hid. cbn [_parse_salida_from_id]. unfold Py.search_hhmm.
    rewrite (search_hhmm_skip (pretty chat)) by apply pretty_Z_no_colon.
    rewrite (search_hhmm_skip fecha) by (by apply fecha_valida_no_colon).
    by apply search_hhmm_at. }
  split; [done|].
  unfold cargar. rewrite lookup_delete_eq, bool_decide_eq_true_2 by done. cbn [orb].
  assert (get (delete "salida" (asdict it)) "id" = id it) as ->.
  { unfold get. rewrite lookup_delete_ne by done. apply get_asdict_id. }
  rewrite Hparse. cbn [default from_option].
  rewrite insert_delete_eq, insert_id by (subst it; vm_compute; reflexivity).
  by rewrite from_kwargs_asdict.
Qed.

(** The first watch of the examples, whose id holds 08:00. *)
Lemma legacy_repair_recovers_departure_witness :
  cargar "2025-10-02T10:00:00+02:00" (delete "salida" (asdict vigia_a)) = Some vigia_a.
Proof.
  apply (legacy_repair_recovers_departure "2025-10-01T09:00:00+02:00"
           "2025-10-02T10:00:00+02:00" 7 "Vigo" "A Coruna" "06/10/2025" "08:00");
    reflexivity.
Defined.

(** * The loader, the writers and the check together *)

Section RoundTripFacts.

Lemma cargar_asdict now (it : MonitoredTrain) :
  truthy (salida it) = true -> cargar now (asdict it) = Some it.
Proof.
  intros Ht. unfold cargar.
  assert (asdict it !! "salida" = Some (salida it)) as Hs
    by (destruct it; vm_compute; reflexivity).
  assert (get (asdict it) "salida" = salida it) as -> by (unfold get; by rewrite Hs).
  rewrite Hs, Ht, bool_decide_eq_false_2 by done. cbn [orb negb].
  by rewrite from_kwargs_asdict.
Qed.

(** What an ok answer of the check rests on. *)
Lemma ok_answer_row (s : Scraper.sesion) (hora : string) (tol : Z) :
  es_ok (Scraper.esta_lleno_en_hora s hora tol) = true ->
  exists u filas f v sv,
    Scraper.nav s = Some u
    /\ Scraper.page s = Some filas /\ In f filas /\ Scraper.has_precio f = true
    /\ Scraper.extraer_fila f = Some v
    /\ Scraper.esta_lleno_en_hora s hora tol = Scraper.resultado_de (Some u) v
    /\ Py.search_hhmm (Py.strip (hd "" (Scraper.horas f))) = Some sv
    /\ Scraper.salida (Scraper.esta_lleno_en_hora s hora tol) = Some sv
    /\ (Scraper._min_diff sv hora <= tol \/ sv = hora).
Proof.
  unfold Scraper.esta_lleno_en_hora, Scraper.buscar_billetes.
  destruct (Scraper.nav s) as [u|]; [|discriminate]. cbn [negb fst snd].
  unfold Scraper.resolver.
  destruct (Scraper.elegir _ hora tol) as [v|] eqn:He; [|discriminate].
  apply elegir_some in He as (Hv & sv & Hs & Hnear).
  destruct (extraer_trayectos_in (Scraper.page s) v Hv)
    as (filas & f & s' & l & e & Hp & Hf & Hs' & Hl & He & _ & _ & Hin & Hprice
        & Hrow & Hhead & _).
  assert (s' = sv) as -> by congruence.
  unfold es_ok. cbn [Scraper.resultado_de Scraper.estado Scraper.salida].
  rewrite He. change (default "DESCONOCIDO" (Some e)) with e. intros Hup.
  exists u, filas, f, v, sv. split_and!; try done.
  apply Hprice. unfold Scraper.estados_de_fila in Hin. cbn in Hin.
  destruct Hin as [<-|[<-|[<-|[]]]]; [done|discriminate Hup|discriminate Hup].
Qed.

End RoundTripFacts.

(** X18.  The sweep loader reads back what [Store.add] writes: from the
    dicts of watches whose salida is not empty it returns those very watches,
    in order, none dropped and none changed. *)
Theorem sweep_loader_reads_back :
  forall now (items : list MonitoredTrain),
    Forall (fun it => truthy (salida it) = true) items ->
    _list_all_items now (Json (asdict <$> items)) = items.
Proof.
  intros now items H. unfold _list_all_items. cbn [_load].
  induction H as [|it items Hit _ IH]; [done|].
  cbn [fmap list_fmap omap list_omap]. rewrite cargar_asdict by done.
  f_equal. exact IH.
Qed.

(** The two watches of the examples. *)
Lemma sweep_loader_reads_back_witness :
  _list_all_items "2025-10-02T10:00:00+02:00" (Json (asdict <$> [vigia_a; vigia_b]))
  = [vigia_a; vigia_b].
Proof.
  apply (sweep_loader_reads_back "2025-10-02T10:00:00+02:00" [vigia_a; vigia_b]).
  repeat constructor.
Defined.

(** X19.  Take a sweep in which the result gathered for a watch whose
    salida is a text and whose tolerancia_min is an integer is what
    [esta_lleno_en_hora] answers, for that salida and tolerance, on the
    browser session opened for that watch.  Each notification of such a
    watch is then backed by the page of its own session: the result announced
    is filled in from the trip read off a row of that page, the row shows a
    price, and the departure announced is the time found in the first hour
    heading of the row, within the tolerance of the salida of the watch or
    equal to it. *)
Theorem notification_means_seats :
  forall check send now (f : data_file) (ses : nat -> Scraper.sesion),
    (forall i it res hora tol,
       _list_all_items now f !! i = Some it -> check i it = Some res ->
       salida it = VStr hora -> tolerancia_min it = VInt tol ->
       res = Scraper.esta_lleno_en_hora (ses i) hora tol) ->
    forall a hora tol,
      In a (_check_once_and_notify check send now f).2 ->
      salida (av_item a) = VStr hora -> tolerancia_min (av_item a) = VInt tol ->
      exists u filas fila v sv,
        _list_all_items now f !! av_pos a = Some (av_item a)
        /\ check (av_pos a) (av_item a) = Some (av_res a)
        /\ av_res a = Scraper.esta_lleno_en_hora (ses (av_pos a)) hora tol
        /\ Scraper.nav (ses (av_pos a)) = Some u
        /\ Scraper.page (ses (av_pos a)) = Some filas /\ In fila filas
        /\ Scraper.has_precio fila = true
        /\ Scraper.extraer_fila fila = Some v
        /\ av_res a = Scraper.resultado_de (Some u) v
        /\ Py.search_hhmm (Py.strip (hd "" (Scraper.horas fila))) = Some sv
        /\ Scraper.salida (av_res a) = Some sv
        /\ (Scraper._min_diff sv hora <= tol \/ sv = hora).
Proof.
  intros check send now f ses Hcheck a hora tol Ha Hs Ht.
  rewrite sweep_avisos in Ha. apply list_elem_of_In, aviso_in in Ha
    as (i & it & res & Hit & Hc & Hok & ->).
  cbn [av_pos av_item av_res] in *.
  pose proof (Hcheck i it res hora tol Hit Hc Hs Ht) as ->.
  destruct (ok_answer_row (ses i) hora tol Hok)
    as (u & filas & fila & v & sv & Hn & Hp & Hf & Hprice & Hrow & Hr & Hhead & Hsv & Hnear).
  exists u, filas, fila, v, sv. by split_and!.
Qed.

Section InvariantFacts.

Lemma choose_train_file now chat text ud (f : data_file) :
  (choose_train now chat text ud f).2 = f
  \/ exists item, (choose_train now chat text ud f).2 = add f item.
Proof.
  unfold choose_train.
  repeat match goal with
         | |- context [match ?x with _ => _ end] => destruct x; cbn [snd]
         end; eauto.
Qed.

End InvariantFacts.

(** X20.  The three writers keep the file one that the bot could have
    written from scratch: after a registration, after an answer in the /delete
    conversation and after a sweep the ids of the collection are still
    pairwise distinct and every record is still the dict of a watch. *)
Theorem writers_keep_the_file_well_formed :
  forall (f : data_file),
    alcanzable f ->
    (forall now chat text_fecha b text_num ud,
        alcanzable (registrar now chat text_fecha b text_num ud f).2)
    /\ (forall text ud, alcanzable (choose_delete text ud f).2)
    /\ (forall check send now, alcanzable (_check_once_and_notify check send now f).1)
    /\ ids_unique (_load f) /\ escrito (_load f).
Proof.
  intros f Hf. split_and!.
  - intros now chat text_fecha b text_num ud. unfold registrar.
    destruct (show_trains text_fecha b ud) as [[[r st]|e] ud1]; [|done].
    destruct st; try done.
    destruct (choose_train_file now chat text_num ud1 f) as [->|[item ->]];
      [done|by constructor].
  - intros text ud. unfold choose_delete.
    destruct (Py.int (Py.strip text)) as [n|]; [|done].
    destruct (default [] (ud_del_ids ud)) as [|i0 ids]; [done|].
    destruct (negb _); [done|].
    pose proof (alc_remove f [default VNone ((i0 :: ids) !! Z.to_nat (n - 1))] Hf) as Hr.
    by destruct (remove_ids f _).
  - intros check send now. unfold _check_once_and_notify.
    destruct (_list_all_items now f) as [|it0 items]; [done|].
    destruct (notificaciones check send (it0 :: items)) as [[|x ids] avs]; [done|].
    cbn [fst]. by apply alc_remove.
  - by apply alcanzable_ids_unique.
  - by apply alcanzable_escrito.
Qed.

(** The file after the two registrations, swept once. *)
Lemma writers_keep_the_file_well_formed_witness :
  ids_unique (_load (_check_once_and_notify check_todos send_siempre
                       "2025-10-02T10:00:00+02:00" (add (add Missing vigia_a) vigia_b)).1).
Proof.
  apply alcanzable_ids_unique.
  apply (writers_keep_the_file_well_formed (add (add Missing vigia_a) vigia_b)).
  apply alc_add, alc_add, alc_missing.
Defined.

(** The sweep of the file that holds the second watch, whose check sees
    the page with the train of 09:00. *)
Lemma notification_means_seats_witness :
  exists u filas fila v sv,
    _list_all_items "2025-10-02T10:00:00+02:00" un_vigia !! 0%nat = Some vigia_b
    /\ check_todos 0 vigia_b = Some hay_plazas
    /\ hay_plazas = Scraper.esta_lleno_en_hora sesion_nueve "09:00" 5
    /\ Scraper.nav sesion_nueve = Some u
    /\ Scraper.page sesion_nueve = Some filas /\ In fila filas
    /\ Scraper.has_precio fila = true
    /\ Scraper.extraer_fila fila = Some v
    /\ hay_plazas = Scraper.resultado_de (Some u) v
    /\ Py.search_hhmm (Py.strip (hd "" (Scraper.horas fila))) = Some sv
    /\ Scraper.salida hay_plazas = Some sv
    /\ (Scraper._min_diff sv "09:00" <= 5 \/ sv = "09:00").
Proof.
  assert (Hitems : _list_all_items "2025-10-02T10:00:00+02:00" un_vigia = [vigia_b])
    by (vm_compute; reflexivity).
  assert (Hcheck : forall i it res hora tol,
             _list_all_items "2025-10-02T10:00:00+02:00" un_vigia !! i = Some it ->
             check_todos i it = Some res ->
             salida it = VStr hora -> tolerancia_min it = VInt tol ->
             res = Scraper.esta_lleno_en_hora ((fun _ => sesion_nueve) i) hora tol).
  { intros i it res hora tol Hit. rewrite Hitems in Hit.
    destruct i as [|i]; [|by destruct i]. injection Hit as <-.
    intros [= <-] [= <-] [= <-]. vm_compute. reflexivity. }
  assert (Hin : In {| av_pos := 0; av_item := vigia_b; av_res := hay_plazas;
                      av_enviado := true |}
                   (_check_once_and_notify check_todos send_siempre
                      "2025-10-02T10:00:00+02:00" un_vigia).2)
    by (vm_compute; left; reflexivity).
  exact (notification_means_seats check_todos send_siempre
           "2025-10-02T10:00:00+02:00" un_vigia (fun _ => sesion_nueve) Hcheck
           {| av_pos := 0; av_item := vigia_b; av_res := hay_plazas; av_enviado := true |}
           "09:00" 5 Hin eq_refl eq_refl).
Defined.

(** A text without minutes against a clock time. *)
Lemma min_diff_symmetric_witness :
  Scraper._min_diff "8h" "08:00" = 9999.
Proof.
  apply (min_diff_symmetric "8h" "08:00").
  intros h m H. vm_compute in H. discriminate H.
Defined.

(** The trips of the scenario. *)
Lemma extraer_trayectos_shape_witness :
  exists filas f s l e,
    Scraper.page Scraper.escenario = Some filas /\ In f filas
    /\ Scraper.mk_viaje "08:10" "09:40" "OK" !! "salida" = Some s
    /\ Scraper.mk_viaje "08:10" "09:40" "OK" !! "llegada" = Some l
    /\ Scraper.mk_viaje "08:10" "09:40" "OK" !! "estado" = Some e
    /\ Scraper.es_hhmm s = true /\ Scraper.es_hhmm l = true
    /\ In e Scraper.estados_de_fila
    /\ (e = "OK" <-> Scraper.has_precio f = true)
    /\ Scraper.extraer_fila f = Some (Scraper.mk_viaje "08:10" "09:40" "OK")
    /\ Py.search_hhmm (Py.strip (hd "" (Scraper.horas f))) = Some s
    /\ Py.search_hhmm (Py.strip (List.last (Scraper.horas f) "")) = Some l.
Proof.
  apply (proj1 (extraer_trayectos_shape (Scraper.page Scraper.escenario))).
  right. left. vm_compute. reflexivity.
Defined.

(** The check of the scenario with the target 08:10. *)
Lemma check_ok_sound_witness :
  exists u filas f v sv,
    Scraper.nav Scraper.escenario = Some u
    /\ Scraper.url (Scraper.esta_lleno_en_hora Scraper.escenario "08:10" 2) = Some u
    /\ Scraper.page Scraper.escenario = Some filas /\ In f filas
    /\ Scraper.extraer_fila f = Some v
    /\ Scraper.esta_lleno_en_hora Scraper.escenario "08:10" 2
       = Scraper.resultado_de (Some u) v
    /\ Py.search_hhmm (Py.strip (hd "" (Scraper.horas f))) = Some sv
    /\ Scraper.salida (Scraper.esta_lleno_en_hora Scraper.escenario "08:10" 2) = Some sv
    /\ Scraper.es_hhmm sv = true
    /\ (Scraper._min_diff sv "08:10" <= 2 \/ sv = "08:10")
    /\ In (Scraper.estado (Scraper.esta_lleno_en_hora Scraper.escenario "08:10" 2))
          Scraper.estados_de_fila
    /\ (es_ok (Scraper.esta_lleno_en_hora Scraper.escenario "08:10" 2) = true
        <-> Scraper.has_precio f = true).
Proof.
  apply (proj1 (check_ok_sound Scraper.escenario "08:10" 2)).
  vm_compute. reflexivity.
Defined.

(** The sweep of the two watches in which the first check raises: the one
    call made is the one for the second watch. *)
Lemma one_notice_per_available_watch_witness :
  In {| av_pos := 1; av_item := vigia_b; av_res := hay_plazas; av_enviado := true |}
     (_check_once_and_notify check_falla_primero send_siempre
        "2025-10-02T10:00:00+02:00" dos_vigias).2.
Proof.
  apply (proj1 (one_notice_per_available_watch check_falla_primero send_siempre
                  "2025-10-02T10:00:00+02:00" dos_vigias)).
  exists 1%nat, vigia_b, hay_plazas. split_and!; vm_compute; reflexivity.
Defined.

(** X21.  In the saved list a watch whose fecha [strptime] does not read
    comes before every watch with a date: its key starts with 0, theirs with
    a positive number. *)
Theorem unreadable_date_sorts_first :
  forall (a b : MonitoredTrain) fb y m d,
    (forall s, fecha a = VStr s -> strptime s = None) ->
    fecha b = VStr fb -> strptime fb = Some (y, m, d) ->
    (parse_sort_key a).1 = 0
    /\ clave_le (parse_sort_key a) (parse_sort_key b) = true
    /\ clave_le (parse_sort_key b) (parse_sort_key a) = false.
Proof.
  intros a b fb y m d Ha Hb Hp.
  destruct (strptime_range _ _ _ _ Hp) as (? & ? & ?).
  assert (Hka : (parse_sort_key a).1 = 0).
  { unfold parse_sort_key. cbn [fst]. destruct (fecha a) as [|z|s]; try done.
    by rewrite (Ha s eq_refl). }
  assert (Hkb : (parse_sort_key b).1 = y * 10000 + m * 100 + d).
  { unfold parse_sort_key. cbn [fst]. by rewrite Hb, Hp. }
  split; [done|]. unfold clave_le. rewrite Hka, Hkb. split.
  - apply orb_true_iff. left. apply Z.ltb_lt. lia.
  - apply orb_false_iff. split; [apply Z.ltb_ge; lia|].
    apply andb_false_iff. left. apply Z.eqb_neq. lia.
Qed.

(** A watch with the fecha 31/02/2025 against the first watch of the
    examples. *)
Lemma unreadable_date_sorts_first_witness :
  clave_le (parse_sort_key (nuevo "t" 7 "Vigo" "A Coruna" "31/02/2025" "08:00"))
           (parse_sort_key vigia_a) = true.
Proof.
  apply (unreadable_date_sorts_first
           (nuevo "t" 7 "Vigo" "A Coruna" "31/02/2025" "08:00") vigia_a
           "06/10/2025" 2025 10 6).
  - intros s [= <-]. reflexivity.
  - reflexivity.
  - reflexivity.
Defined.

Section ShownFacts.

Lemma mapE_fmt_lookup (viajes : list Scraper.viaje) lines (k : nat) (v : Scraper.viaje) :
  mapE fmt_train_line viajes = Ok lines -> viajes !! k = Some v ->
  exists s l, v !! "salida" = Some s /\ v !! "llegada" = Some l
              /\ lines !! k = Some (s, l, default "?" (v !! "estado")).
Proof.
  revert lines k. induction viajes as [|x viajes IH]; intros lines k; [done|].
  cbn [mapE]. unfold fmt_train_line at 1.
  destruct (x !! "salida") as [s|] eqn:Hs; [|done].
  destruct (x !! "llegada") as [l|] eqn:Hl; [|done]. cbn [bind].
  destruct (mapE fmt_train_line viajes) as [rest|] eqn:Hrest; [|done].
  cbn [bind]. intros [= <-]. destruct k as [|k]; cbn.
  - intros [= <-]. by exists s, l.
  - intros Hk. by apply (IH rest k).
Qed.

Lemma mapE_fmt_length (viajes : list Scraper.viaje) lines :
  mapE fmt_train_line viajes = Ok lines -> length lines = length viajes.
Proof.
  revert lines. induction viajes as [|x viajes IH]; intros lines.
  - by intros [= <-].
  - cbn [mapE]. destruct (fmt_train_line x); [|done]. cbn [bind].
    destruct (mapE fmt_train_line viajes) as [rest|]; [|done]. cbn [bind].
    intros [= <-]. cbn. f_equal. by apply IH.
Qed.

End ShownFacts.

(** X22.  The lines that [show_trains] formats: [fmt_train_line] does not
    raise KeyError on the trips that [_extraer_trayectos_ida] returns, and
    gives one line per trip, in order, with the salida, the llegada and the
    estado of that trip.  When [show_trains] hands over to CHOOSE_TRAIN, the
    date text was a valid date, the search gave trips, the reply is the list
    of their lines, and the user data holds the date without blanks and those
    trips. *)
Theorem show_trains_lists_the_trips :
  (forall (page : option (list Scraper.fila)),
     exists lines,
       mapE fmt_train_line (Scraper._extraer_trayectos_ida page) = Ok lines
       /\ length lines = length (Scraper._extraer_trayectos_ida page)
       /\ forall k v, Scraper._extraer_trayectos_ida page !! k = Some v ->
            exists s l e,
              v !! "salida" = Some s /\ v !! "llegada" = Some l
              /\ v !! "estado" = Some e /\ lines !! k = Some (s, l, e))
  /\ (forall text (b : option Scraper.sesion) ud r,
        (show_trains text b ud).1 = Ok (r, CHOOSE_TRAIN) ->
        exists ses lines norm,
          b = Some ses /\ normalize_date (Py.strip text) = Some norm
          /\ Scraper._extraer_trayectos_ida (Scraper.page ses) <> []
          /\ mapE fmt_train_line (Scraper._extraer_trayectos_ida (Scraper.page ses))
             = Ok lines
          /\ r = ListaDeTrenes lines
          /\ ud_viajes (show_trains text b ud).2
             = Some (Scraper._extraer_trayectos_ida (Scraper.page ses))
          /\ ud_fecha (show_trains text b ud).2 = Some norm).
Proof.
  split.
  - intros page. destruct (mostrar_extraidos page) as [lines Hlines].
    exists lines. split_and!; [done|by apply mapE_fmt_length|].
    intros k v Hk.
    destruct (mapE_fmt_lookup _ _ k v Hlines Hk) as (s & l & Hs & Hl & Hline).
    destruct (extraer_trayectos_in page v) as (_ & _ & _ & _ & e & _ & _ & _ & _ & He & _).
    { apply list_elem_of_In. by eapply list_elem_of_lookup_2. }
    exists s, l, e. rewrite He in Hline. by split_and!.
  - intros text b ud r. unfold show_trains.
    destruct (normalize_date (Py.strip text)) as [norm|] eqn:Hn; [|done].
    destruct (ud_origen ud) as [o|]; [|done].
    destruct (ud_destino ud) as [d|]; [|done].
    destruct b as [ses|]; [|done]. cbn [run_scraper_search].
    destruct (mostrar_extraidos (Scraper.page ses)) as [lines Hlines].
    destruct (Scraper._extraer_trayectos_ida (Scraper.page ses)) as [|v0 vs] eqn:Hv;
      [done|].
    rewrite Hlines. cbn [bind fst snd]. intros [= <-].
    exists ses, lines, norm. rewrite Hv. by split_and!.
Qed.

(** The date message of the scenario. *)
Lemma show_trains_lists_the_trips_witness :
  exists ses lines norm,
    Some Scraper.escenario = Some ses
    /\ normalize_date (Py.strip "06/10/2025") = Some norm
    /\ Scraper._extraer_trayectos_ida (Scraper.page ses) <> []
    /\ mapE fmt_train_line (Scraper._extraer_trayectos_ida (Scraper.page ses)) = Ok lines
    /\ ListaDeTrenes [("07:59", "09:30", "LLENO"); ("08:10", "09:40", "OK")]
       = ListaDeTrenes lines
    /\ ud_viajes (show_trains "06/10/2025" (Some Scraper.escenario) ud_vigo).2
       = Some (Scraper._extraer_trayectos_ida (Scraper.page ses))
    /\ ud_fecha (show_trains "06/10/2025" (Some Scraper.escenario) ud_vigo).2 = Some norm.
Proof.
  apply (proj2 show_trains_lists_the_trips "06/10/2025" (Some Scraper.escenario) ud_vigo
           (ListaDeTrenes [("07:59", "09:30", "LLENO"); ("08:10", "09:40", "OK")])).
  vm_compute. reflexivity.
Defined.

(** X23.  The watch that a registration stores is the train of the line that
    the user chose: when [show_trains] showed the lines and the number n led
    to a stored watch, line n of the list shows the salida of that watch; the
    watch carries the date without blanks, the chat that asked, the origin and
    the destination of the user data, and the tolerance 5. *)
Theorem stored_watch_is_the_chosen_line :
  forall now chat text_fecha b text_num ud (f : data_file) item lines st n,
    let out := registrar now chat text_fecha b text_num ud f in
    out.1.1 = Ok (Anadido item, END) ->
    (show_trains text_fecha b ud).1 = Ok (ListaDeTrenes lines, st) ->
    Py.int (Py.strip text_num) = Some n ->
    exists s l e,
      lines !! Z.to_nat (n - 1) = Some (s, l, e)
      /\ salida item = VStr s
      /\ Some (fecha item) = VStr <$> normalize_date (Py.strip text_fecha)
      /\ chat_id item = VInt chat
      /\ Some (origen item) = VStr <$> ud_origen ud
      /\ Some (destino item) = VStr <$> ud_destino ud
      /\ tolerancia_min item = VInt 5
      /\ out.2 = add f item.
Proof.
  intros now chat text_fecha b text_num ud f item lines st n out Hout Hshow Hn.
  destruct (registrar_spec now chat text_fecha b text_num ud f)
    as [(e & i & Hadm & Hrep & Hfile)|(_ & _ & Hrep)]; fold out in Hrep.
  2:{ by apply Hrep in Hout. }
  fold out in Hfile. rewrite Hrep in Hout. injection Hout as ->.
  destruct Hadm as (fe & o & d & ses & n' & s & Hfe & Ho & Hd & -> & Hn' & Hpos & Hl & Hs & _ & ->).
  assert (n' = n) as -> by congruence.
  unfold show_trains in Hshow. rewrite Hfe, Ho, Hd in Hshow. cbn [run_scraper_search] in Hshow.
  destruct (Scraper._extraer_trayectos_ida (Scraper.page ses)) as [|v0 vs] eqn:Hv;
    [by rewrite lookup_nil in Hl|].
  cbn [fst] in Hshow.
  destruct (mapE fmt_train_line (v0 :: vs)) as [lines'|] eqn:Hlines; [|done].
  cbn [bind] in Hshow. injection Hshow as -> _.
  destruct (mapE_fmt_lookup _ _ _ _ Hlines Hl) as (s' & l & Hs' & Hll & Hline).
  assert (s' = s) as -> by congruence.
  exists s, l, (default "?" (e !! "estado")).
  rewrite Hfe, Ho, Hd. by split_and!.
Qed.

(** Answering 1 to the list of the scenario stores the 07:59 train. *)
Lemma stored_watch_is_the_chosen_line_witness :
  exists s l e,
    [("07:59", "09:30", "LLENO"); ("08:10", "09:40", "OK")] !! Z.to_nat (1 - 1)
    = Some (s, l, e)
    /\ salida (nuevo "2025-10-01T09:00:00+02:00" 7 "Vigo" "A Coruna" "06/10/2025" "07:59")
       = VStr s
    /\ Some (fecha (nuevo "2025-10-01T09:00:00+02:00" 7 "Vigo" "A Coruna" "06/10/2025"
                      "07:59"))
       = VStr <$> normalize_date (Py.strip "06/10/2025")
    /\ chat_id (nuevo "2025-10-01T09:00:00+02:00" 7 "Vigo" "A Coruna" "06/10/2025" "07:59")
       = VInt 7
    /\ Some (origen (nuevo "2025-10-01T09:00:00+02:00" 7 "Vigo" "A Coruna" "06/10/2025"
                       "07:59"))
       = VStr <$> ud_origen ud_vigo
    /\ Some (destino (nuevo "2025-10-01T09:00:00+02:00" 7 "Vigo" "A Coruna" "06/10/2025"
                        "07:59"))
       = VStr <$> ud_destino ud_vigo
    /\ tolerancia_min (nuevo "2025-10-01T09:00:00+02:00" 7 "Vigo" "A Coruna" "06/10/2025"
                         "07:59")
       = VInt 5
    /\ (registrar "2025-10-01T09:00:00+02:00" 7 "06/10/2025" (Some Scraper.escenario)
          "1" ud_vigo Missing).2
       = add Missing
           (nuevo "2025-10-01T09:00:00+02:00" 7 "Vigo" "A Coruna" "06/10/2025" "07:59").
Proof.
  apply (stored_watch_is_the_chosen_line "2025-10-01T09:00:00+02:00" 7 "06/10/2025"
           (Some Scraper.escenario) "1" ud_vigo Missing
           (nuevo "2025-10-01T09:00:00+02:00" 7 "Vigo" "A Coruna" "06/10/2025" "07:59")
           [("07:59", "09:30", "LLENO"); ("08:10", "09:40", "OK")] CHOOSE_TRAIN 1);
    vm_compute; reflexivity.
Defined.
